(** * The experiment branch builder of Orion

    A shallow embedding of [orion.core.io.experiment_branch_builder]:
    the [Conflict] objects, the detection of conflicts between the space of
    the parent experiment and the space of the branching configuration, the
    resolution calls ([add_dimension], [remove_dimension],
    [rename_dimension], [reset_dimension]) with their operation ledger, the
    name selectors, the command-line markers and [create_adaptors].

    Python objects that are shared by reference (the [Conflict] instances
    held both by [self.conflicts] and by the ledger) are modelled by a store:
    [conflicts] is the store, a reference is a position in it.  Exceptions
    keep the state reached when they were raised.  Dictionaries are taken
    in insertion order, as Python iterates them. *)

From Stdlib Require Import List String Ascii Bool Arith Lia.
Import ListNotations.
Open Scope string_scope.
Open Scope list_scope.

(* ================================================================== *)
(** * Python primitives used by the module *)

Module Py.

(** [sub in s] on strings: [sub] occurs in [s]. *)
Fixpoint contains (sub s : string) : bool :=
  prefix sub s ||
  match s with
  | EmptyString => false
  | String _ s' => contains sub s'
  end.

(** [s.replace(old, new)] for a non-empty [old]: the occurrences are
    replaced from left to right and do not overlap.  [skip] counts the
    characters of an occurrence that are still to be dropped. *)
Fixpoint replace_from (skip : nat) (old new s : string) : string :=
  match s with
  | EmptyString => EmptyString
  | String c s' =>
      match skip with
      | S k => replace_from k old new s'
      | O =>
          if prefix old s
          then new ++ replace_from (String.length old - 1) old new s'
          else String c (replace_from 0 old new s')
      end
  end.

Definition replace (old new s : string) : string := replace_from 0 old new s.

(** [s.split(sep)] for a one-character separator. *)
Fixpoint split (sep : ascii) (s : string) : list string :=
  match s with
  | EmptyString => [EmptyString]
  | String c s' =>
      if Ascii.eqb c sep then EmptyString :: split sep s'
      else match split sep s' with
           | h :: t => String c h :: t
           | [] => [String c EmptyString]
           end
  end.

(** [s[1:]] *)
Definition drop1 (s : string) : string :=
  match s with
  | EmptyString => EmptyString
  | String _ s' => s'
  end.

(** [s.startswith(p)] *)
Definition startswith (s p : string) : bool := prefix p s.

Section Lists.
Context {A : Type} (eqb : A -> A -> bool).

(** [x in l] *)
Definition mem (x : A) (l : list A) : bool := existsb (eqb x) l.

(** [l.index(x)]: the first position holding [x]; [None] stands for the
    [ValueError] the caller raises. *)
Fixpoint index (x : A) (l : list A) : option nat :=
  match l with
  | [] => None
  | y :: l' =>
      if eqb y x then Some 0
      else match index x l' with
           | Some i => Some (S i)
           | None => None
           end
  end.

(** [l.remove(x)] when [x] is in [l]: the first occurrence goes. *)
Fixpoint remove_first (x : A) (l : list A) : list A :=
  match l with
  | [] => []
  | y :: l' => if eqb y x then l' else y :: remove_first x l'
  end.

Fixpoint nodupb (l : list A) : bool :=
  match l with
  | [] => true
  | x :: l' => negb (mem x l') && nodupb l'
  end.
End Lists.

(** [l[i] = v] for [i] in range. *)
Fixpoint setitem {A : Type} (i : nat) (v : A) (l : list A) : list A :=
  match l, i with
  | [], _ => []
  | _ :: t, O => v :: t
  | x :: t, S j => x :: setitem j v t
  end.

(** ** Dictionaries with string keys, in insertion order *)
Section Dict.
Context {V : Type}.

Definition dict := list (string * V).

Definition has_key (k : string) (d : dict) : bool :=
  existsb (fun kv => String.eqb k (fst kv)) d.

Fixpoint get (k : string) (d : dict) : option V :=
  match d with
  | [] => None
  | (k', v) :: d' => if String.eqb k k' then Some v else get k d'
  end.

(** [d[k] = v]: an existing key keeps its place, a new one goes last. *)
Fixpoint set (k : string) (v : V) (d : dict) : dict :=
  match d with
  | [] => [(k, v)]
  | (k', v') :: d' =>
      if String.eqb k k' then (k', v) :: d' else (k', v') :: set k v d'
  end.

Definition keys (d : dict) : list string := map fst d.
Definition values (d : dict) : list V := map snd d.
End Dict.
Arguments dict : clear implicits.

End Py.

(* ================================================================== *)
(** * Data model *)

(** Modelled from the spec: the [Dimension] class lives in the space
    module, outside this file's sources.  A dimension is a name (with its
    leading ['/']) and a declaration; two dimensions are equal when both
    agree. *)
Record Dimension := mkDimension { name : string; declaration : string }.

Definition dim_eqb (d1 d2 : Dimension) : bool :=
  String.eqb (name d1) (name d2) && String.eqb (declaration d1) (declaration d2).

(** Modelled from the spec: a [Space] is the dictionary built by
    [SpaceBuilder], from dimension names to dimensions. *)
Definition Space := Py.dict Dimension.

(** A space as [SpaceBuilder] registers it: one entry per name, stored
    under the dimension's own name. *)
Definition built_space (sp : Space) : bool :=
  Py.nodupb String.eqb (Py.keys sp) &&
  forallb (fun kv => String.eqb (fst kv) (name (snd kv))) sp.

(** [class Conflict] *)
Record Conflict := mkConflict {
  is_solved : bool;
  dimension : Dimension;
  status : string
}.

(** [Conflict(status, dimension)] *)
Definition Conflict_init (st : string) (d : Dimension) : Conflict :=
  {| is_solved := false; dimension := d; status := st |}.

Definition conflict_eqb (c1 c2 : Conflict) : bool :=
  Bool.eqb (is_solved c1) (is_solved c2) &&
  dim_eqb (dimension c1) (dimension c2) &&
  String.eqb (status c1) (status c2).

(** A reference to a [Conflict] object: its position in [self.conflicts]. *)
Definition ref := nat.

(** What a ledger list holds: [(conflict)], which is the conflict itself,
    for add and remove; the tuple [(old_conflict, new_conflict)] for
    rename.  Conflicts define no [__eq__], so payloads compare by
    identity of the conflicts they hold. *)
Inductive payload :=
| One (c : ref)
| Two (old new : ref).

Definition payload_eqb (p q : payload) : bool :=
  match p, q with
  | One a, One b => Nat.eqb a b
  | Two a1 a2, Two b1 b2 => Nat.eqb a1 b1 && Nat.eqb a2 b2
  | _, _ => false
  end.

(** [arg in value] for a conflict [arg] and a payload taken from the
    rename list. *)
Definition holds (arg : ref) (p : payload) : bool :=
  match p with
  | One _ => false
  | Two o n => Nat.eqb arg o || Nat.eqb arg n
  end.

(** The [status] argument of the helpers is a list of statuses at most
    call sites and a bare string in [rename_dimension]; [c.status in
    status] is list membership for the first and substring search for the
    second. *)
Inductive status_arg :=
| StatusList (l : list string)
| StatusStr (s : string).

Definition status_in (s : string) (a : status_arg) : bool :=
  match a with
  | StatusList l => Py.mem String.eqb s l
  | StatusStr t => Py.contains s t
  end.

(** The state of an [ExperimentBranchBuilder]. *)
Record Builder := mkBuilder {
  user_args : list string;
  commandline_keywords : Py.dict (list string);
  experiment_space : Space;
  conflicting_space : Space;
  conflicts : list Conflict;
  operations : Py.dict (list payload)
}.

Definition with_user_args (b : Builder) (a : list string) : Builder :=
  mkBuilder a (commandline_keywords b) (experiment_space b)
            (conflicting_space b) (conflicts b) (operations b).

Definition with_commandline_keywords (b : Builder) (k : Py.dict (list string)) : Builder :=
  mkBuilder (user_args b) k (experiment_space b)
            (conflicting_space b) (conflicts b) (operations b).

Definition with_conflicts (b : Builder) (cs : list Conflict) : Builder :=
  mkBuilder (user_args b) (commandline_keywords b) (experiment_space b)
            (conflicting_space b) cs (operations b).

Definition with_operations (b : Builder) (ops : Py.dict (list payload)) : Builder :=
  mkBuilder (user_args b) (commandline_keywords b) (experiment_space b)
            (conflicting_space b) (conflicts b) ops.

(** The fields as [__init__] sets them before it runs the pipeline. *)
Definition fresh (args : list string) (exp cand : Space) : Builder :=
  {| user_args := args;
     commandline_keywords := [("~+", []); ("~-", []); ("~>", [])];
     experiment_space := exp;
     conflicting_space := cand;
     conflicts := [];
     operations := [] |}.

Definition special_keywords : Py.dict string :=
  [("~new", "new"); ("~changed", "changed"); ("~missing", "missing")].

(* ================================================================== *)
(** * Exceptions and the state monad of the builder *)

Inductive exn := ValueError | TypeError | KeyError | IndexError | AttributeError.

Inductive outcome (A : Type) :=
| Ok (a : A) (b : Builder)
| Raise (e : exn) (b : Builder).
Arguments Ok {A} a b.
Arguments Raise {A} e b.

Definition M (A : Type) := Builder -> outcome A.

Definition ret {A : Type} (a : A) : M A := fun b => Ok a b.

Definition bind {A B : Type} (m : M A) (k : A -> M B) : M B :=
  fun b =>
    match m b with
    | Ok a b' => k a b'
    | Raise e b' => Raise e b'
    end.

Definition raise {A : Type} (e : exn) : M A := fun b => Raise e b.
Definition get_state : M Builder := fun b => Ok b b.
Definition modify (f : Builder -> Builder) : M unit := fun b => Ok tt (f b).

Notation "x <- m ;; k" := (bind m (fun x => k))
  (at level 61, m at next level, right associativity).
Notation "m ;;; k" := (bind m (fun _ => k))
  (at level 61, right associativity).

(** [for x in l: body(x)] over a list that the body does not change. *)
Fixpoint for_each {A : Type} (l : list A) (body : A -> M unit) : M unit :=
  match l with
  | [] => ret tt
  | x :: l' => body x ;;; for_each l' body
  end.

Definition state_of {A : Type} (o : outcome A) : Builder :=
  match o with
  | Ok _ b => b
  | Raise _ b => b
  end.

(** [l[i]] *)
Definition getitem {A : Type} (l : list A) (i : nat) : M A :=
  match nth_error l i with
  | Some x => ret x
  | None => raise IndexError
  end.

(* ================================================================== *)
(** * Conflict detection *)

(** The body of the first loop of [_find_conflicts] for one dimension of
    the conflicting space. *)
Definition candidate_conflicts (exp : Space) (dim : Dimension) : list Conflict :=
  if Py.has_key (name dim) exp then
    if negb (Py.mem dim_eqb dim (Py.values exp))
    then [Conflict_init "changed" dim]
    else []
  else [Conflict_init "new" dim].

(** The body of the second loop, for one dimension of the experiment
    space. *)
Definition parent_conflicts (cand : Space) (dim : Dimension) : list Conflict :=
  if negb (Py.has_key (name dim) cand)
  then [Conflict_init "missing" dim]
  else [].

Definition _find_conflicts : M unit :=
  modify (fun b =>
    with_conflicts b
      (conflicts b
       ++ flat_map (candidate_conflicts (experiment_space b))
                   (Py.values (conflicting_space b))
       ++ flat_map (parent_conflicts (conflicting_space b))
                   (Py.values (experiment_space b)))).

(* ================================================================== *)
(** * Filters and lookups over the conflicts *)

(** [filter(filter_function, self.conflicts)], as the references it
    yields. *)
Fixpoint filter_from (f : Conflict -> bool) (i : ref) (cs : list Conflict) : list ref :=
  match cs with
  | [] => []
  | c :: cs' =>
      if f c then i :: filter_from f (S i) cs' else filter_from f (S i) cs'
  end.

Definition filter_conflicts (f : Conflict -> bool) (b : Builder) : list ref :=
  filter_from f 0 (conflicts b).

Definition filter_conflicts_with_status (st : status_arg) (b : Builder) : list ref :=
  filter_conflicts (fun c => status_in (status c) st) b.

Definition filter_conflicts_with_solved_state (wants_solved : bool) (b : Builder) : list ref :=
  filter_conflicts (fun c => Bool.eqb (is_solved c) wants_solved) b.

(** [c.dimension.name] through a reference; the references handed out by
    the filters are always in range. *)
Definition name_of (b : Builder) (r : ref) : string :=
  match nth_error (conflicts b) r with
  | Some c => name (dimension c)
  | None => EmptyString
  end.

Definition _assert_has_status (nm : string) (st : status_arg) : M (nat * list ref) :=
  fun b =>
    let prefixed_name := ("/" ++ nm)%string in
    let conflicts := filter_conflicts_with_status st b in
    match Py.index String.eqb prefixed_name (map (name_of b) conflicts) with
    | Some index => Ok (index, conflicts) b
    | None => Raise ValueError b
    end.

(** [conflict.is_solved = v] *)
Definition assign_solved (v : bool) (c : Conflict) : Conflict :=
  {| is_solved := v; dimension := dimension c; status := status c |}.

Fixpoint store_solved (r : ref) (v : bool) (cs : list Conflict) : list Conflict :=
  match cs, r with
  | [], _ => []
  | c :: t, O => assign_solved v c :: t
  | c :: t, S j => c :: store_solved j v t
  end.

Definition set_is_solved (r : ref) (v : bool) : M unit :=
  modify (fun b => with_conflicts b (store_solved r v (conflicts b))).

Definition _mark_as (nm : string) (st : status_arg) (v : bool) : M ref :=
  ic <- _assert_has_status nm st ;;
  conflict <- getitem (snd ic) (fst ic) ;;
  set_is_solved conflict v ;;;
  ret conflict.

Definition _mark_as_solved (nm : string) (st : status_arg) : M ref :=
  _mark_as nm st true.

(* ================================================================== *)
(** * The operation ledger *)

(** The list kept under a kind, empty when the kind has no key yet. *)
Definition entries (kind : string) (ops : Py.dict (list payload)) : list payload :=
  match Py.get kind ops with
  | Some l => l
  | None => []
  end.

Definition _put_operation (operation_name : string) (args : payload) : M unit :=
  fun b =>
    let ops :=
      if negb (Py.has_key operation_name (operations b))
      then Py.set operation_name [] (operations b)
      else operations b in
    match Py.get operation_name ops with
    | None => Raise KeyError (with_operations b ops)
    | Some l =>
        if negb (Py.mem payload_eqb args l)
        then Ok tt (with_operations b (Py.set operation_name (l ++ [args]) ops))
        else Ok tt (with_operations b ops)
    end.

(** [for value in self.operations['rename']: ...] removes from the list it
    walks.  Python's list iterator is a position into the live list: each
    turn reads position [i] if it exists and moves on to [i + 1], whatever
    the body removed.  [fuel] bounds the number of turns; the length of
    the list at the start is enough, since the list never grows. *)
Fixpoint rename_loop (fuel : nat) (i : nat) (arg : ref)
         (l : list payload) (cs : list Conflict)
  : option exn * (list payload * list Conflict) :=
  match fuel with
  | O => (None, (l, cs))
  | S fuel' =>
      match nth_error l i with
      | None => (None, (l, cs))
      | Some value =>
          match value with
          | One _ => (Some TypeError, (l, cs))
          | Two old new =>
              if holds arg value
              then rename_loop fuel' (S i) arg
                     (Py.remove_first payload_eqb value l)
                     (store_solved new false (store_solved old false cs))
              else rename_loop fuel' (S i) arg l cs
          end
      end
  end.

(** The loop over the kinds of the ledger.  Each turn reads and rewrites
    the list of its own kind only, and a dictionary holds a key once, so
    the kinds are handled entry by entry, in insertion order. *)
Fixpoint remove_loop (arg : ref) (ops : Py.dict (list payload)) (cs : list Conflict)
  : option exn * (Py.dict (list payload) * list Conflict) :=
  match ops with
  | [] => (None, ([], cs))
  | (operation, l) :: rest =>
      if String.eqb operation "rename" then
        match rename_loop (List.length l) 0 arg l cs with
        | (Some e, (l', cs')) => (Some e, ((operation, l') :: rest, cs'))
        | (None, (l', cs')) =>
            match remove_loop arg rest cs' with
            | (r, (rest', cs'')) => (r, ((operation, l') :: rest', cs''))
            end
        end
      else if Py.mem payload_eqb (One arg) l then
        match remove_loop arg rest (store_solved arg false cs) with
        | (r, (rest', cs'')) =>
            (r, ((operation, Py.remove_first payload_eqb (One arg) l) :: rest', cs''))
        end
      else
        match remove_loop arg rest cs with
        | (r, (rest', cs'')) => (r, ((operation, l) :: rest', cs''))
        end
  end.

Definition _remove_from_operations (arg : ref) : M unit :=
  fun b =>
    match remove_loop arg (operations b) (conflicts b) with
    | (None, (ops, cs)) => Ok tt (with_operations (with_conflicts b cs) ops)
    | (Some e, (ops, cs)) => Raise e (with_operations (with_conflicts b cs) ops)
    end.

(* ================================================================== *)
(** * Name selectors *)

(** [c.dimension.name[1:]] for each filtered conflict. *)
Definition short_names (b : Builder) (rs : list ref) : list string :=
  map (fun r => Py.drop1 (name_of b r)) rs.

(** What [_extend_special_keywords] appends to [names]. *)
Definition _extend_special_keywords (arg : string) (b : Builder) : list string :=
  match Py.get arg special_keywords with
  | Some st => short_names b (filter_conflicts_with_status (StatusList [st]) b)
  | None => []
  end.

(** What [_extend_wildcard] appends to [names]. *)
Definition _extend_wildcard (arg : string) (st : status_arg) (b : Builder) : list string :=
  let prefix := ("/" ++ hd EmptyString (Py.split "*"%char arg))%string in
  short_names b
    (filter_conflicts
       (fun c => Py.startswith (name (dimension c)) prefix && status_in (status c) st) b).

Fixpoint get_names_loop (args : list string) (names : list string)
         (st : status_arg) (b : Builder) : list string :=
  match args with
  | [] => names
  | arg :: rest =>
      if Py.has_key arg special_keywords then
        get_names_loop rest (names ++ _extend_special_keywords arg b) st b
      else if Py.contains "*" arg then
        get_names_loop rest (names ++ _extend_wildcard arg st b) st b
      else
        get_names_loop rest [arg] st b
  end.

Definition _get_names (nm : string) (st : status_arg) (b : Builder) : list string :=
  get_names_loop (Py.split " "%char nm) [] st b.

(* ================================================================== *)
(** * The resolution calls *)

Definition _do_basic (nm : string) (st : status_arg) (operation : string) : M unit :=
  b <- get_state ;;
  for_each (_get_names nm st b)
    (fun _name =>
       conflict <- _mark_as_solved _name st ;;
       _put_operation operation (One conflict)).

Definition add_dimension (nm : string) : M unit :=
  _do_basic nm (StatusList ["new"; "changed"]) "add".

Definition remove_dimension (nm : string) : M unit :=
  _do_basic nm (StatusList ["missing"]) "remove".

(** The body of the loop looks [arg] up, not [_name]. *)
Definition reset_dimension (arg : string) : M unit :=
  let st := StatusList ["missing"; "new"; "changed"] in
  b <- get_state ;;
  for_each (_get_names arg st b)
    (fun _name =>
       conflict <- _mark_as arg st false ;;
       _remove_from_operations conflict).

Definition rename_dimension (args : string * string) : M unit :=
  let old := fst args in
  let new := snd args in
  om <- _assert_has_status old (StatusStr "missing") ;;
  nn <- _assert_has_status new (StatusStr "new") ;;
  old_conflict <- getitem (snd om) (fst om) ;;
  new_conflict <- getitem (snd nn) (fst nn) ;;
  set_is_solved old_conflict true ;;;
  set_is_solved new_conflict true ;;;
  _put_operation "rename" (Two old_conflict new_conflict).

Definition get_old_dimension_value (nm : string) : M (option Dimension) :=
  fun b =>
    if Py.has_key nm (experiment_space b) then
      match Py.get nm (experiment_space b) with
      | Some d => Ok (Some d) b
      | None => Raise KeyError b
      end
    else Ok None b.

(* ================================================================== *)
(** * Adaptors *)

(** The three adaptor makers are stubs ([pass]): each returns Python's
    [None], here [tt].  [_add_adaptor] reads [conflict.status] first,
    which a tuple does not have. *)
Definition _add_adaptor (b : Builder) (conflict : payload) : exn + unit :=
  match conflict with
  | One r =>
      match nth_error (conflicts b) r with
      | Some c => if String.eqb (status c) "changed" then inr tt else inr tt
      | None => inr tt
      end
  | Two _ _ => inl AttributeError
  end.

Definition _rename_adaptor (b : Builder) (conflict : payload) : exn + unit := inr tt.
Definition _remove_adaptor (b : Builder) (conflict : payload) : exn + unit := inr tt.

Definition _operations_mapping : Py.dict (Builder -> payload -> exn + unit) :=
  [("add", _add_adaptor); ("rename", _rename_adaptor); ("remove", _remove_adaptor)].

(** The inner loop of [create_adaptors], over the list of one kind. *)
Fixpoint adaptors_of_kind (b : Builder) (operation : string)
         (l : list payload) (adaptors : list unit) : option exn * list unit :=
  match l with
  | [] => (None, adaptors)
  | conflict :: l' =>
      match Py.get operation _operations_mapping with
      | None => (Some KeyError, adaptors)
      | Some f =>
          match f b conflict with
          | inl e => (Some e, adaptors)
          | inr a => adaptors_of_kind b operation l' (adaptors ++ [a])
          end
      end
  end.

(** The outer loop: the list [adaptors] that [create_adaptors] fills. *)
Fixpoint adaptors_loop (b : Builder) (ops : Py.dict (list payload)) (adaptors : list unit)
  : option exn * list unit :=
  match ops with
  | [] => (None, adaptors)
  | (operation, l) :: rest =>
      match adaptors_of_kind b operation l adaptors with
      | (None, adaptors') => adaptors_loop b rest adaptors'
      | (Some e, adaptors') => (Some e, adaptors')
      end
  end.

(** [create_adaptors] has no [return]: the call evaluates to Python's
    [None], which is the [None] of the result here; [Some l] would be a
    returned list. *)
Definition create_adaptors : M (option (list unit)) :=
  fun b =>
    match adaptors_loop b (operations b) [] with
    | (None, adaptors) => Ok None b
    | (Some e, _) => Raise e b
    end.

(* ================================================================== *)
(** * Command-line markers *)

(** The body of the inner loop of [_interpret_commandline] for one
    [arg] and one [keyword]. *)
Definition interpret_keyword (arg keyword : string) : M unit :=
  fun b =>
    if Py.contains keyword arg then
      match Py.get keyword (commandline_keywords b) with
      | None => Raise KeyError b
      | Some buffer =>
          let b1 := with_commandline_keywords b
                      (Py.set keyword (buffer ++ [arg]) (commandline_keywords b)) in
          match Py.index String.eqb arg (user_args b1) with
          | None => Raise ValueError b1
          | Some j =>
              Ok tt (with_user_args b1
                       (Py.setitem j (Py.replace keyword "~" arg) (user_args b1)))
          end
      end
    else Ok tt b.

(** One turn of [for arg in args]: [args] keeps its length, so the
    iterator reads position [i] of the list as it is by then. *)
Definition interpret_arg (i : nat) : M unit :=
  fun b =>
    match nth_error (user_args b) i with
    | None => Ok tt b
    | Some arg =>
        for_each (Py.keys (commandline_keywords b)) (interpret_keyword arg) b
    end.

Definition _interpret_commandline : M unit :=
  fun b => for_each (seq 0 (List.length (user_args b))) interpret_arg b.

(* ================================================================== *)
(** * The calls of the resolution API and the states they reach *)

Inductive call :=
| CallAdd (selector : string)
| CallRemove (selector : string)
| CallRename (old new : string)
| CallReset (selector : string).

Definition run (c : call) : M unit :=
  match c with
  | CallAdd s => add_dimension s
  | CallRemove s => remove_dimension s
  | CallRename o n => rename_dimension (o, n)
  | CallReset s => reset_dimension s
  end.

(** The states of a builder: detection over two built spaces, then any
    number of calls, each of which may succeed or raise. *)
Inductive reachable : Builder -> Prop :=
| reach_detect (b : Builder) :
    built_space (experiment_space b) = true ->
    built_space (conflicting_space b) = true ->
    conflicts b = [] ->
    operations b = [] ->
    reachable (state_of (_find_conflicts b))
| reach_call (b : Builder) (c : call) :
    reachable b ->
    reachable (state_of (run c b)).

(* ================================================================== *)
(** * Vocabulary of the statements *)

(** The first position of [cs] that satisfies [g]. *)
Fixpoint find_index (g : Conflict -> bool) (cs : list Conflict) : option ref :=
  match cs with
  | [] => None
  | c :: cs' =>
      if g c then Some 0
      else match find_index g cs' with
           | Some r => Some (S r)
           | None => None
           end
  end.

(** The conflict [c] is named [nm] (without the leading ['/']) and its
    status is accepted by [st]. *)
Definition matches (nm : string) (st : status_arg) (c : Conflict) : bool :=
  status_in (status c) st && String.eqb (name (dimension c)) ("/" ++ nm)%string.

(** The conflict a call finds for the name [nm] among the statuses [st]. *)
Definition find_conflict (nm : string) (st : status_arg) (b : Builder) : option ref :=
  find_index (matches nm st) (conflicts b).

(** The conflict at [r] is named [nm] and has status [st]. *)
Definition bears (b : Builder) (nm st : string) (r : ref) : bool :=
  match nth_error (conflicts b) r with
  | Some c => String.eqb (name (dimension c)) ("/" ++ nm)%string && String.eqb (status c) st
  | None => false
  end.

(** The resolved flag of the conflict at [r]. *)
Definition solved (b : Builder) (r : ref) : bool :=
  match nth_error (conflicts b) r with
  | Some c => is_solved c
  | None => false
  end.

(** A selector that is a plain name: one word, no wildcard, not a
    status keyword. *)
Definition is_literal (s : string) : bool :=
  negb (Py.contains " " s) &&
  negb (Py.has_key s special_keywords) &&
  negb (Py.contains "*" s).

(** The payload [p] refers to the conflict [r]. *)
Definition refers (r : ref) (p : payload) : bool :=
  match p with
  | One c => Nat.eqb r c
  | Two o n => Nat.eqb r o || Nat.eqb r n
  end.

(** No entry of the ledger refers to the conflict [r]. *)
Definition unreferenced (r : ref) (ops : Py.dict (list payload)) : bool :=
  forallb (fun kv => forallb (fun p => negb (refers r p)) (snd kv)) ops.

Definition is_pair (p : payload) : bool :=
  match p with
  | One _ => false
  | Two _ _ => true
  end.

Definition conflict_names (cs : list Conflict) : list string :=
  map (fun c => name (dimension c)) cs.

(** The invariant of the reachable states: one conflict per name, one
    list per kind, no payload twice in a list, tuples only under rename. *)
Definition ledger_ok (ops : Py.dict (list payload)) : bool :=
  Py.nodupb String.eqb (Py.keys ops) &&
  forallb (fun kv => Py.nodupb payload_eqb (snd kv)) ops &&
  forallb (fun kv => negb (String.eqb (fst kv) "rename") || forallb is_pair (snd kv)) ops.

(** The resolved flag read in a store. *)
Definition solved_in (cs : list Conflict) (r : ref) : bool :=
  match nth_error cs r with
  | Some c => is_solved c
  | None => false
  end.

Definition well_formed (b : Builder) : bool :=
  Py.nodupb String.eqb (conflict_names (conflicts b)) && ledger_ok (operations b).

(** The ledger after [_put_operation]. *)
Definition put (kind : string) (p : payload) (ops : Py.dict (list payload))
  : Py.dict (list payload) :=
  if Py.mem payload_eqb p (entries kind ops)
  then (if Py.has_key kind ops then ops else Py.set kind [] ops)
  else Py.set kind (entries kind ops ++ [p]) ops.

(** The ledger after [_remove_from_operations] when no tuple of the
    rename list holds the conflict: every other list loses its first
    occurrence of the conflict. *)
Definition strip (arg : ref) (ops : Py.dict (list payload)) : Py.dict (list payload) :=
  map (fun kv =>
         (fst kv,
          if String.eqb (fst kv) "rename" then snd kv
          else Py.remove_first payload_eqb (One arg) (snd kv))) ops.

(** Some list other than the rename list holds the conflict. *)
Definition queued (arg : ref) (ops : Py.dict (list payload)) : bool :=
  existsb (fun kv => negb (String.eqb (fst kv) "rename") &&
                     Py.mem payload_eqb (One arg) (snd kv)) ops.

(** The lists under rename hold tuples only. *)
Definition typed (ops : Py.dict (list payload)) : bool :=
  forallb (fun kv => negb (String.eqb (fst kv) "rename") || forallb is_pair (snd kv)) ops.

(** No tuple under rename holds the conflict. *)
Definition unheld (arg : ref) (ops : Py.dict (list payload)) : bool :=
  forallb (fun kv => negb (String.eqb (fst kv) "rename") ||
                     forallb (fun p => negb (holds arg p)) (snd kv)) ops.

(** A computation keeps the invariant, whether it returns or raises. *)
Definition preserves {A : Type} (m : M A) : Prop :=
  forall b, well_formed b = true -> well_formed (state_of (m b)) = true.

(** What one selector stands for, taken alone. *)
Definition expansion (arg : string) (st : status_arg) (b : Builder) : list string :=
  if Py.has_key arg special_keywords then _extend_special_keywords arg b
  else if Py.contains "*" arg then _extend_wildcard arg st b
  else [arg].

(** The selector goes through the last branch of [_get_names]. *)
Definition plain (arg : string) : bool :=
  negb (Py.has_key arg special_keywords) && negb (Py.contains "*" arg).

(** The argument with its marker turned into ['~'], as the space builder
    is meant to receive it. *)
Definition rewritten (arg : string) : string :=
  if Py.contains "~+" arg then Py.replace "~+" "~" arg
  else if Py.contains "~-" arg then Py.replace "~-" "~" arg
  else if Py.contains "~>" arg then Py.replace "~>" "~" arg
  else arg.

(** How many of the three markers an argument carries. *)
Definition kinds (arg : string) : nat :=
  Nat.b2n (Py.contains "~+" arg) + Nat.b2n (Py.contains "~-" arg) +
  Nat.b2n (Py.contains "~>" arg).

(** What a buffer gains from the arguments: those that carry its marker. *)
Definition buffered (keyword : string) (args : list string) : list string :=
  filter (Py.contains keyword) args.

(** What a conflict keeps for life: its dimension and its status. *)
Definition erase (c : Conflict) : Dimension * string := (dimension c, status c).

(** The name [nm] has been handled by [_do_basic]: its conflict is
    resolved and queued under [operation]. *)
Definition handled (st : status_arg) (operation : string) (nm : string) (b : Builder) : Prop :=
  exists r, find_conflict nm st b = Some r /\
            solved b r = true /\
            Py.mem payload_eqb (One r) (entries operation (operations b)) = true.

(** How many times [sub] occurs in [s]. *)
Fixpoint occurrences (sub s : string) : nat :=
  (if prefix sub s then 1 else 0) +
  match s with
  | EmptyString => 0
  | String _ s' => occurrences sub s'
  end.

(** How many command-line markers an argument carries. *)
Definition markers (arg : string) : nat :=
  occurrences "~+" arg + occurrences "~-" arg + occurrences "~>" arg.

(** How many conflicts of [cs] have the status [st] and the dimension [d]. *)
Definition count_conflicts (st : string) (d : Dimension) (cs : list Conflict) : nat :=
  List.length (filter (fun c => String.eqb (status c) st && dim_eqb (dimension c) d) cs).

(** How many times the payload [p] is in the list [l]. *)
Definition count_payload (p : payload) (l : list payload) : nat :=
  List.length (filter (payload_eqb p) l).

(** The names a selector list refers to as the specification words it:
    every selector of the space-separated list is expanded by itself and
    the expansions are concatenated.  This follows the specification, not
    [_get_names]; the two are compared below. *)
Definition spec_names (sel : string) (st : status_arg) (b : Builder) : list string :=
  flat_map (fun arg => expansion arg st b) (Py.split " "%char sel).

(** Some conflict of the builder is named [nm] with a status accepted by
    [st]. *)
Definition has_conflict (b : Builder) (nm : string) (st : status_arg) : bool :=
  existsb (matches nm st) (conflicts b).

(* ================================================================== *)
(** * Example builders *)

Module Examples.

Definition dim (n v : string) : Dimension := mkDimension n v.

(** Parent [--lr=0.1 --batch=32], candidate [--lr=0.2]. *)
Definition lr_batch : Builder :=
  state_of (_find_conflicts
    (fresh ["--lr=0.2"]
           [("/lr", dim "/lr" "0.1"); ("/batch", dim "/batch" "32")]
           [("/lr", dim "/lr" "0.2")])).

(** Parent with [a], candidate with [x] and [y]: [a] is missing, [x]
    and [y] are new. *)
Definition a_x_y : Builder :=
  state_of (_find_conflicts
    (fresh []
           [("/a", dim "/a" "1")]
           [("/x", dim "/x" "1"); ("/y", dim "/y" "1")])).

(** Parent empty, candidate with [x]. *)
Definition only_x : Builder :=
  state_of (_find_conflicts (fresh [] [] [("/x", dim "/x" "1")])).

(** Parent [lr] and [batch], candidate [lr] changed and [x] new. *)
Definition lr_x_batch_start : Builder :=
  fresh []
        [("/lr", dim "/lr" "0.1"); ("/batch", dim "/batch" "32")]
        [("/lr", dim "/lr" "0.2"); ("/x", dim "/x" "u")].

Definition lr_x_batch : Builder :=
  state_of (_find_conflicts lr_x_batch_start).

(** [a_x_y] after [rename_dimension(("a", "x"))], then after
    [rename_dimension(("a", "y"))], then after [reset_dimension("y")]. *)
Definition a_renamed_x : Builder :=
  state_of (run (CallRename "a" "x") a_x_y).

Definition a_renamed_x_y : Builder :=
  state_of (run (CallRename "a" "y") a_renamed_x).

Definition a_reset_y : Builder :=
  state_of (run (CallReset "y") a_renamed_x_y).

(** [a_x_y] after [rename_dimension(("a", "y"))]. *)
Definition a_renamed_y : Builder :=
  state_of (rename_dimension ("a", "y") a_x_y).

(** [only_x] after [add_dimension("x")]. *)
Definition x_added : Builder :=
  state_of (add_dimension "x" only_x).

(** Two arguments with one marker each; the first one, once rewritten,
    reads like the second. *)
Definition colliding_args : Builder :=
  fresh ["a~+>b"; "a~>b"] [] [].

(** An argument with two markers, followed by one with one marker. *)
Definition two_markers : Builder :=
  fresh ["x~+~-"; "y~+1"] [] [].

End Examples.

(* ================================================================== *)
(** * More of the module: lookups by name *)

(** [get_dimension_conflict]: the first conflict of [self.conflicts]
    whose dimension is named ['/' + name], whatever its status. *)
Definition get_dimension_conflict (nm : string) : M ref :=
  fun b =>
    let prefixed_name := ("/" ++ nm)%string in
    match Py.index String.eqb prefixed_name
                   (map (fun c => name (dimension c)) (conflicts b)) with
    | Some index =>
        match nth_error (conflicts b) index with
        | Some _ => Ok index b
        | None => Raise IndexError b
        end
    | None => Raise ValueError b
    end.

(* ================================================================== *)
(** * Vocabulary of the further statements *)

(** What no call of the API touches: the arguments, the buffers, the two
    spaces, and the dimension and status of every conflict. *)
Definition frame (b b' : Builder) : Prop :=
  user_args b' = user_args b /\
  commandline_keywords b' = commandline_keywords b /\
  experiment_space b' = experiment_space b /\
  conflicting_space b' = conflicting_space b /\
  map erase (conflicts b') = map erase (conflicts b).

(** A computation stays within the frame of the state it starts from. *)
Definition framed {A : Type} (m : M A) : Prop :=
  forall b, frame b (state_of (m b)).

(** A computation keeps a property of the builder, whether it returns or
    raises. *)
Definition keeps {A : Type} (P : Builder -> Prop) (m : M A) : Prop :=
  forall b, P b -> P (state_of (m b)).

(** The status of the conflict at [r]. *)
Definition status_at (cs : list Conflict) (r : ref) : string :=
  match nth_error cs r with
  | Some c => status c
  | None => EmptyString
  end.

(** A payload sits under the kind its conflicts call for: new or changed
    conflicts under add, missing ones under remove, a missing and a new
    one, in this order, under rename. *)
Definition payload_ok (cs : list Conflict) (kind : string) (p : payload) : bool :=
  match p with
  | One r =>
      (String.eqb kind "add" &&
       Py.mem String.eqb (status_at cs r) ["new"; "changed"]) ||
      (String.eqb kind "remove" && String.eqb (status_at cs r) "missing")
  | Two o n =>
      String.eqb kind "rename" &&
      String.eqb (status_at cs o) "missing" && String.eqb (status_at cs n) "new"
  end.

(** Every conflict has one of the three statuses and every payload of the
    ledger sits under its kind. *)
Definition statuses_ok (b : Builder) : Prop :=
  (forall c, In c (conflicts b) -> In (status c) ["new"; "changed"; "missing"]) /\
  (forall kv p, In kv (operations b) -> In p (snd kv) ->
                payload_ok (conflicts b) (fst kv) p = true).

(** Every resolved conflict is referred to by some entry of the ledger. *)
Definition resolved_queued (b : Builder) : Prop :=
  forall r, solved b r = true -> unreferenced r (operations b) = false.

(** The three invariants together. *)
Definition coherent (b : Builder) : Prop :=
  well_formed b = true /\ statuses_ok b /\ resolved_queued b.

(** ** Further example builders *)

(** [a_x_y] after [rename_dimension(("a", "y"))] and
    [rename_dimension(("a", "x"))]: two tuples hold [a]. *)
Definition a_renamed_y_x : Builder :=
  state_of (run (CallRename "a" "x") Examples.a_renamed_y).

(* ================================================================== *)
(** * Facts about the Python primitives *)

Lemma dim_eqb_eq (d1 d2 : Dimension) : dim_eqb d1 d2 = true <-> d1 = d2.
Proof.
  unfold dim_eqb. rewrite andb_true_iff, !String.eqb_eq.
  destruct d1, d2; simpl. split.
  - intros [-> ->]. reflexivity.
  - intros H. injection H. auto.
Qed.

Lemma dim_eqb_refl (d : Dimension) : dim_eqb d d = true.
Proof. apply dim_eqb_eq. reflexivity. Qed.

Lemma dim_eqb_neq (d1 d2 : Dimension) : d1 <> d2 -> dim_eqb d1 d2 = false.
Proof.
  intros H. destruct (dim_eqb d1 d2) eqn:E; [|reflexivity].
  apply dim_eqb_eq in E. contradiction.
Qed.

Lemma payload_eqb_eq (p q : payload) : payload_eqb p q = true <-> p = q.
Proof.
  destruct p, q; simpl; try (split; discriminate).
  - rewrite Nat.eqb_eq. split; [intros ->; reflexivity | intros H; injection H; auto].
  - rewrite andb_true_iff, !Nat.eqb_eq. split.
    + intros [-> ->]. reflexivity.
    + intros H. injection H. auto.
Qed.

Lemma payload_eqb_refl (p : payload) : payload_eqb p p = true.
Proof. apply payload_eqb_eq. reflexivity. Qed.

Section ListFacts.
Context {A : Type} (eqb : A -> A -> bool).
Hypothesis eqb_eq : forall x y, eqb x y = true <-> x = y.

Lemma mem_In (x : A) (l : list A) : Py.mem eqb x l = true <-> In x l.
Proof.
  unfold Py.mem. rewrite existsb_exists. split.
  - intros [y [Hy E]]. apply eqb_eq in E. subst. assumption.
  - intros H. exists x. split; [assumption | apply eqb_eq; reflexivity].
Qed.

Lemma mem_not_In (x : A) (l : list A) : Py.mem eqb x l = false <-> ~ In x l.
Proof.
  rewrite <- mem_In. destruct (Py.mem eqb x l); split; intros; congruence.
Qed.

Lemma nodupb_NoDup (l : list A) : Py.nodupb eqb l = true <-> NoDup l.
Proof.
  induction l as [|x l IH]; simpl.
  - split; [constructor | reflexivity].
  - rewrite andb_true_iff, negb_true_iff, mem_not_In, IH. split.
    + intros [H1 H2]. constructor; assumption.
    + intros H. inversion H. auto.
Qed.

Lemma remove_first_In (x y : A) (l : list A) :
  In y (Py.remove_first eqb x l) -> In y l.
Proof.
  induction l as [|z l IH]; simpl; [auto|].
  destruct (eqb z x); simpl; intuition.
Qed.

Lemma remove_first_NoDup (x : A) (l : list A) :
  NoDup l -> NoDup (Py.remove_first eqb x l).
Proof.
  induction l as [|z l IH]; simpl; intros H; [constructor|].
  inversion H; subst. destruct (eqb z x); [assumption|].
  constructor; [|auto]. intros Hin. apply remove_first_In in Hin. contradiction.
Qed.

Lemma remove_first_not_In (x : A) (l : list A) :
  NoDup l -> ~ In x (Py.remove_first eqb x l).
Proof.
  induction l as [|z l IH]; simpl; intros H; [auto|].
  inversion H; subst. destruct (eqb z x) eqn:E.
  - apply eqb_eq in E. subst. assumption.
  - simpl. intros [-> | Hin].
    + assert (eqb x x = true) by (apply eqb_eq; reflexivity). congruence.
    + apply IH in Hin; assumption.
Qed.

Lemma remove_first_absent (x : A) (l : list A) :
  ~ In x l -> Py.remove_first eqb x l = l.
Proof.
  induction l as [|z l IH]; simpl; intros H; [reflexivity|].
  destruct (eqb z x) eqn:E.
  - apply eqb_eq in E. subst. exfalso. apply H. left. reflexivity.
  - f_equal. apply IH. intros Hin. apply H. right. assumption.
Qed.

Lemma remove_first_last (x : A) (l : list A) :
  ~ In x l -> Py.remove_first eqb x (l ++ [x]) = l.
Proof.
  induction l as [|z l IH]; simpl; intros H.
  - assert (E : eqb x x = true) by (apply eqb_eq; reflexivity).
    rewrite E. reflexivity.
  - destruct (eqb z x) eqn:E.
    + apply eqb_eq in E. subst. exfalso. apply H. left. reflexivity.
    + f_equal. apply IH. intros Hin. apply H. right. assumption.
Qed.
End ListFacts.

Section DictFacts.
Context {V : Type}.
Implicit Types (d : Py.dict V) (k : string) (v : V).

Lemma has_key_In k d : Py.has_key k d = true <-> In k (Py.keys d).
Proof.
  unfold Py.has_key, Py.keys. rewrite existsb_exists, in_map_iff. split.
  - intros [kv [Hin E]]. apply String.eqb_eq in E. exists kv. split; [symmetry|]; assumption.
  - intros [kv [E Hin]]. exists kv. split; [assumption|]. apply String.eqb_eq. symmetry. assumption.
Qed.

Lemma has_key_get k d : Py.has_key k d = true <-> exists v, Py.get k d = Some v.
Proof.
  induction d as [|[k' v'] d IH]; simpl.
  - split; [discriminate | intros [v H]; discriminate].
  - destruct (String.eqb k k'); simpl.
    + split; [intros _; exists v'; reflexivity | reflexivity].
    + exact IH.
Qed.

Lemma has_key_false_get k d : Py.has_key k d = false <-> Py.get k d = None.
Proof.
  destruct (Py.has_key k d) eqn:E.
  - apply has_key_get in E. destruct E as [v E]. rewrite E. split; discriminate.
  - destruct (Py.get k d) eqn:G; [|tauto].
    assert (Py.has_key k d = true) by (apply has_key_get; eauto). congruence.
Qed.

Lemma get_In k v d : Py.get k d = Some v -> In (k, v) d.
Proof.
  induction d as [|[k' v'] d IH]; simpl; [discriminate|].
  destruct (String.eqb k k') eqn:E.
  - apply String.eqb_eq in E. subst. intros H. injection H as ->. left. reflexivity.
  - intros H. right. auto.
Qed.

Lemma In_get k v d : NoDup (Py.keys d) -> In (k, v) d -> Py.get k d = Some v.
Proof.
  induction d as [|[k' v'] d IH]; simpl; intros Hnd Hin; [contradiction|].
  inversion Hnd; subst. destruct Hin as [E | Hin].
  - injection E as -> ->. rewrite String.eqb_refl. reflexivity.
  - destruct (String.eqb k k') eqn:E.
    + apply String.eqb_eq in E. subst. exfalso. apply H1.
      unfold Py.keys. apply in_map_iff. exists (k', v). auto.
    + auto.
Qed.

Lemma keys_set k v d :
  Py.keys (Py.set k v d) =
  if Py.has_key k d then Py.keys d else Py.keys d ++ [k].
Proof.
  induction d as [|[k' v'] d IH]; simpl; [reflexivity|].
  destruct (String.eqb k k'); simpl; [reflexivity|].
  rewrite IH. destruct (Py.has_key k d); reflexivity.
Qed.

Lemma get_set_same k v d : Py.get k (Py.set k v d) = Some v.
Proof.
  induction d as [|[k' v'] d IH]; simpl.
  - rewrite String.eqb_refl. reflexivity.
  - destruct (String.eqb k k') eqn:E; simpl; rewrite E; auto.
Qed.

Lemma get_set_other k k' v d : k' <> k -> Py.get k' (Py.set k v d) = Py.get k' d.
Proof.
  intros Hne. induction d as [|[k0 v0] d IH]; simpl.
  - apply String.eqb_neq in Hne. rewrite Hne. reflexivity.
  - destruct (String.eqb k k0) eqn:E; simpl.
    + apply String.eqb_eq in E. subst k0.
      apply String.eqb_neq in Hne. rewrite Hne. reflexivity.
    + destruct (String.eqb k' k0); auto.
Qed.

Lemma forallb_set (Q : string * V -> bool) k v d :
  forallb Q d = true -> Q (k, v) = true -> forallb Q (Py.set k v d) = true.
Proof.
  intros Hd Hkv. induction d as [|[k0 v0] d IH]; simpl in *.
  - rewrite Hkv. reflexivity.
  - apply andb_true_iff in Hd. destruct Hd as [H0 Hd].
    destruct (String.eqb k k0) eqn:E; simpl.
    + apply String.eqb_eq in E. subst k0. rewrite Hkv, Hd. reflexivity.
    + rewrite H0, (IH Hd). reflexivity.
Qed.

Lemma forallb_get (Q : string * V -> bool) k v d :
  forallb Q d = true -> Py.get k d = Some v -> Q (k, v) = true.
Proof.
  intros Hd Hg. apply get_In in Hg.
  rewrite forallb_forall in Hd. apply Hd. assumption.
Qed.
End DictFacts.

(* ================================================================== *)
(** * Conflict detection *)

Lemma built_space_keys (sp : Space) :
  built_space sp = true -> NoDup (Py.keys sp).
Proof.
  unfold built_space. rewrite andb_true_iff. intros [H _].
  apply (nodupb_NoDup String.eqb String.eqb_eq). assumption.
Qed.

Lemma built_space_entry (sp : Space) (k : string) (d : Dimension) :
  built_space sp = true -> In (k, d) sp -> k = name d.
Proof.
  unfold built_space. rewrite andb_true_iff, forallb_forall. intros [_ H] Hin.
  apply H in Hin. simpl in Hin. apply String.eqb_eq. assumption.
Qed.

Lemma built_space_value (sp : Space) (d : Dimension) :
  built_space sp = true -> In d (Py.values sp) -> In (name d, d) sp.
Proof.
  intros Hb Hin. unfold Py.values in Hin. apply in_map_iff in Hin.
  destruct Hin as [[k d'] [E Hin]]. simpl in E. subst d'.
  rewrite <- (built_space_entry sp k d Hb Hin). assumption.
Qed.

Lemma built_space_get (sp : Space) (d : Dimension) :
  built_space sp = true -> In d (Py.values sp) -> Py.get (name d) sp = Some d.
Proof.
  intros Hb Hin. apply In_get.
  - apply built_space_keys. assumption.
  - apply built_space_value; assumption.
Qed.

Lemma built_space_has_key (sp : Space) (d : Dimension) :
  built_space sp = true -> In d (Py.values sp) -> Py.has_key (name d) sp = true.
Proof.
  intros Hb Hin. apply has_key_get. exists d. apply built_space_get; assumption.
Qed.

Lemma built_space_values (sp : Space) :
  built_space sp = true -> NoDup (Py.values sp).
Proof.
  intros Hb. pose proof (built_space_keys sp Hb) as Hk.
  assert (Hall : forall k d, In (k, d) sp -> k = name d)
    by (intros k d; apply built_space_entry; assumption).
  clear Hb. induction sp as [|[k d] sp IH]; simpl in *.
  - constructor.
  - inversion Hk; subst. constructor.
    + intros Hin. apply H1. unfold Py.values in Hin. apply in_map_iff in Hin.
      destruct Hin as [[k' d'] [E Hin]]. simpl in E. subst d'.
      unfold Py.keys. apply in_map_iff. exists (k', d). split; [|assumption].
      simpl. rewrite (Hall k d) by auto. apply Hall. auto.
    + apply IH; [assumption|]. intros k' d' Hin. apply Hall. auto.
Qed.

Lemma flat_map_all_nil {A B : Type} (f : A -> list B) (l : list A) :
  (forall x, In x l -> f x = []) -> flat_map f l = [].
Proof.
  induction l as [|x l IH]; simpl; intros H; [reflexivity|].
  rewrite H, IH by auto. reflexivity.
Qed.

Lemma count_conflicts_app (st : string) (d : Dimension) (l1 l2 : list Conflict) :
  count_conflicts st d (l1 ++ l2) = count_conflicts st d l1 + count_conflicts st d l2.
Proof.
  unfold count_conflicts. rewrite filter_app, length_app. reflexivity.
Qed.

Lemma count_flat_map_zero (st : string) (d : Dimension)
      (f : Dimension -> list Conflict) (l : list Dimension) :
  (forall y, In y l -> count_conflicts st d (f y) = 0) ->
  count_conflicts st d (flat_map f l) = 0.
Proof.
  induction l as [|x l IH]; simpl; intros H; [reflexivity|].
  rewrite count_conflicts_app, H, IH by auto. reflexivity.
Qed.

Lemma count_flat_map_one (st : string) (d : Dimension)
      (f : Dimension -> list Conflict) (l : list Dimension) (x : Dimension) :
  NoDup l -> In x l ->
  count_conflicts st d (f x) = 1 ->
  (forall y, In y l -> y <> x -> count_conflicts st d (f y) = 0) ->
  count_conflicts st d (flat_map f l) = 1.
Proof.
  induction l as [|z l IH]; simpl; intros Hnd Hin H1 H0; [contradiction|].
  inversion Hnd; subst. rewrite count_conflicts_app. destruct Hin as [-> | Hin].
  - rewrite H1, count_flat_map_zero; [reflexivity|].
    intros y Hy. apply H0; [auto|]. intros ->. contradiction.
  - rewrite H0, IH; auto. intros ->. contradiction.
Qed.

Lemma count_conflicts_single (st st' : string) (d d' : Dimension) :
  count_conflicts st d [Conflict_init st' d'] =
  if String.eqb st' st && dim_eqb d' d then 1 else 0.
Proof.
  unfold count_conflicts. simpl.
  destruct (String.eqb st' st && dim_eqb d' d); reflexivity.
Qed.

(** What the first loop emits for a dimension, by cases on the parent
    space. *)
Lemma candidate_conflicts_cases (exp : Space) (d : Dimension) :
  built_space exp = true ->
  (Py.has_key (name d) exp = false /\ candidate_conflicts exp d = [Conflict_init "new" d]) \/
  (exists p, Py.get (name d) exp = Some p /\ p <> d /\
             candidate_conflicts exp d = [Conflict_init "changed" d]) \/
  (Py.get (name d) exp = Some d /\ candidate_conflicts exp d = []).
Proof.
  intros Hb. unfold candidate_conflicts.
  destruct (Py.has_key (name d) exp) eqn:Hk; [|left; auto].
  right. destruct (Py.mem dim_eqb d (Py.values exp)) eqn:Hm; simpl.
  - right. apply (mem_In dim_eqb dim_eqb_eq) in Hm.
    split; [apply built_space_get; assumption | reflexivity].
  - left. apply has_key_get in Hk. destruct Hk as [p Hp]. exists p.
    split; [assumption|]. split; [|reflexivity].
    intros ->. apply (mem_not_In dim_eqb dim_eqb_eq) in Hm. apply Hm.
    apply get_In in Hp. unfold Py.values. apply in_map_iff.
    exists (name d, d). auto.
Qed.

(** C1.  Conflict detection over two built spaces (one entry per name,
    stored under the dimension's name), starting from no conflict: each
    dimension of the candidate space whose name the parent lacks gets
    exactly one ['new'] conflict; each one whose name the parent has with
    another dimension gets exactly one ['changed'] conflict; each
    dimension of the parent whose name the candidate lacks gets exactly
    one ['missing'] conflict; every emitted conflict is unresolved and is
    one of these; and two spaces with the same dimensions yield no
    conflict at all. *)
Theorem find_conflicts_exact (b : Builder)
        (Hexp : built_space (experiment_space b) = true)
        (Hcand : built_space (conflicting_space b) = true)
        (Hnil : conflicts b = []) :
  let exp := experiment_space b in
  let cand := conflicting_space b in
  let cs := conflicts (state_of (_find_conflicts b)) in
  (forall d, In d (Py.values cand) -> Py.has_key (name d) exp = false ->
             count_conflicts "new" d cs = 1) /\
  (forall d p, In d (Py.values cand) -> Py.get (name d) exp = Some p -> p <> d ->
               count_conflicts "changed" d cs = 1) /\
  (forall p, In p (Py.values exp) -> Py.has_key (name p) cand = false ->
             count_conflicts "missing" p cs = 1) /\
  (forall c, In c cs ->
     is_solved c = false /\
     ((status c = "new" /\ In (dimension c) (Py.values cand) /\
       Py.has_key (name (dimension c)) exp = false) \/
      (status c = "changed" /\ In (dimension c) (Py.values cand) /\
       exists p, Py.get (name (dimension c)) exp = Some p /\ p <> dimension c) \/
      (status c = "missing" /\ In (dimension c) (Py.values exp) /\
       Py.has_key (name (dimension c)) cand = false))) /\
  ((forall d, In d (Py.values cand) <-> In d (Py.values exp)) -> cs = []).
Proof.
  intros exp cand cs. subst cs. simpl. rewrite Hnil. simpl.
  fold exp. fold cand.
  pose proof (built_space_values exp Hexp) as Hndexp.
  pose proof (built_space_values cand Hcand) as Hndcand.
  split; [|split; [|split; [|split]]].
  - (* new *)
    intros d Hin Hk. rewrite count_conflicts_app.
    rewrite (count_flat_map_one "new" d _ _ d); auto.
    + rewrite count_flat_map_zero; [reflexivity|].
      intros y _. unfold parent_conflicts.
      destruct (negb (Py.has_key (name y) cand)); reflexivity.
    + unfold candidate_conflicts. rewrite Hk, count_conflicts_single.
      simpl. rewrite dim_eqb_refl. reflexivity.
    + intros y _ Hne. unfold candidate_conflicts.
      destruct (Py.has_key (name y) exp).
      * destruct (negb (Py.mem dim_eqb y (Py.values exp))); reflexivity.
      * rewrite count_conflicts_single, (dim_eqb_neq y d Hne). reflexivity.
  - (* changed *)
    intros d p Hin Hp Hne. rewrite count_conflicts_app.
    rewrite (count_flat_map_one "changed" d _ _ d); auto.
    + rewrite count_flat_map_zero; [reflexivity|].
      intros y _. unfold parent_conflicts.
      destruct (negb (Py.has_key (name y) cand)); reflexivity.
    + destruct (candidate_conflicts_cases exp d Hexp) as [[Hk _] | [[q [_ [_ ->]]] | [Hd _]]].
      * apply has_key_false_get in Hk. congruence.
      * rewrite count_conflicts_single. simpl. rewrite dim_eqb_refl. reflexivity.
      * congruence.
    + intros y _ Hny.
      destruct (candidate_conflicts_cases exp y Hexp) as [[_ ->] | [[q [_ [_ ->]]] | [_ ->]]].
      * reflexivity.
      * rewrite count_conflicts_single, (dim_eqb_neq y d Hny), andb_false_r. reflexivity.
      * reflexivity.
  - (* missing *)
    intros p Hin Hk. rewrite count_conflicts_app.
    rewrite count_flat_map_zero.
    + rewrite (count_flat_map_one "missing" p _ _ p); auto.
      * unfold parent_conflicts. rewrite Hk. simpl.
        rewrite count_conflicts_single. simpl. rewrite dim_eqb_refl. reflexivity.
      * intros y _ Hny. unfold parent_conflicts.
        destruct (negb (Py.has_key (name y) cand)); [|reflexivity].
        rewrite count_conflicts_single, (dim_eqb_neq y p Hny), andb_false_r. reflexivity.
    + intros y _.
      destruct (candidate_conflicts_cases exp y Hexp) as [[_ ->] | [[q [_ [_ ->]]] | [_ ->]]];
        reflexivity.
  - (* every conflict is one of the three *)
    intros c H. apply in_app_or in H.
    destruct H as [H | H]; apply in_flat_map in H; destruct H as [d [Hd Hc]].
    + destruct (candidate_conflicts_cases exp d Hexp)
        as [[Hk E] | [[q [Hq [Hne E]]] | [_ E]]]; rewrite E in Hc; simpl in Hc.
      * destruct Hc as [<- | []]. simpl. split; [reflexivity|]. left. auto.
      * destruct Hc as [<- | []]. simpl. split; [reflexivity|]. right. left.
        split; [reflexivity|]. split; [assumption|]. exists q. auto.
      * contradiction.
    + unfold parent_conflicts in Hc.
      destruct (Py.has_key (name d) cand) eqn:Hk; simpl in Hc; [contradiction|].
      destruct Hc as [<- | []]. simpl. split; [reflexivity|]. right. right. auto.
  - (* identical spaces *)
    intros Hsame.
    assert (E1 : flat_map (candidate_conflicts exp) (Py.values cand) = []).
    { apply flat_map_all_nil. intros d Hd.
      destruct (candidate_conflicts_cases exp d Hexp) as [[Hk _] | [[q [Hq [Hne _]]] | [_ E]]].
      - apply Hsame in Hd. rewrite (built_space_has_key exp d Hexp Hd) in Hk. discriminate.
      - apply Hsame in Hd. rewrite (built_space_get exp d Hexp Hd) in Hq. congruence.
      - assumption. }
    assert (E2 : flat_map (parent_conflicts cand) (Py.values exp) = []).
    { apply flat_map_all_nil. intros d Hd.
      unfold parent_conflicts. apply Hsame in Hd.
      rewrite (built_space_has_key cand d Hcand Hd). reflexivity. }
    rewrite E1, E2. reflexivity.
Qed.

Lemma find_conflicts_exact_witness :
  built_space (experiment_space Examples.lr_x_batch_start) = true /\
  built_space (conflicting_space Examples.lr_x_batch_start) = true /\
  conflicts Examples.lr_x_batch_start = [] /\
  count_conflicts "new" (Examples.dim "/x" "u") (conflicts Examples.lr_x_batch) = 1 /\
  count_conflicts "changed" (Examples.dim "/lr" "0.2") (conflicts Examples.lr_x_batch) = 1 /\
  count_conflicts "missing" (Examples.dim "/batch" "32") (conflicts Examples.lr_x_batch) = 1 /\
  List.length (conflicts Examples.lr_x_batch) = 3.
Proof.
  split; [reflexivity|]. split; [reflexivity|]. split; [reflexivity|].
  destruct (find_conflicts_exact Examples.lr_x_batch_start eq_refl eq_refl eq_refl)
    as [Hnew [Hchanged [Hmissing _]]].
  split; [|split; [|split]].
  - apply Hnew; [simpl; auto | reflexivity].
  - apply (Hchanged _ (Examples.dim "/lr" "0.1")); [simpl; auto | reflexivity | discriminate].
  - apply Hmissing; [simpl; auto | reflexivity].
  - reflexivity.
Defined.

(* ================================================================== *)
(** * The store of conflicts *)

Lemma store_solved_length (r : ref) (v : bool) (cs : list Conflict) :
  List.length (store_solved r v cs) = List.length cs.
Proof.
  revert r. induction cs as [|c cs IH]; intros [|r]; simpl; auto.
Qed.

Lemma store_solved_same (r : ref) (v : bool) (cs : list Conflict) (c : Conflict) :
  nth_error cs r = Some c ->
  nth_error (store_solved r v cs) r = Some (assign_solved v c).
Proof.
  revert r. induction cs as [|c0 cs IH]; intros [|r]; simpl; try discriminate.
  - intros H. injection H as ->. reflexivity.
  - apply IH.
Qed.

Lemma store_solved_other (r r' : ref) (v : bool) (cs : list Conflict) :
  r' <> r -> nth_error (store_solved r v cs) r' = nth_error cs r'.
Proof.
  revert r r'. induction cs as [|c0 cs IH]; intros [|r] [|r'] H; simpl; try reflexivity.
  - contradiction.
  - apply IH. auto.
Qed.

Lemma store_solved_names (r : ref) (v : bool) (cs : list Conflict) :
  conflict_names (store_solved r v cs) = conflict_names cs.
Proof.
  revert r. induction cs as [|c cs IH]; intros [|r]; simpl; try reflexivity.
  f_equal. apply IH.
Qed.

Lemma store_solved_find (g : Conflict -> bool) (r : ref) (v : bool) (cs : list Conflict) :
  (forall c, g (assign_solved v c) = g c) ->
  find_index g (store_solved r v cs) = find_index g cs.
Proof.
  intros Hg. revert r. induction cs as [|c cs IH]; intros [|r]; simpl; try reflexivity.
  - rewrite Hg. reflexivity.
  - rewrite IH. reflexivity.
Qed.

Lemma store_solved_twice (r : ref) (v v' : bool) (cs : list Conflict) :
  store_solved r v (store_solved r v' cs) = store_solved r v cs.
Proof.
  revert r. induction cs as [|c cs IH]; intros [|r]; simpl; try reflexivity.
  f_equal. apply IH.
Qed.

Lemma store_solved_noop (r : ref) (v : bool) (cs : list Conflict) (c : Conflict) :
  nth_error cs r = Some c -> is_solved c = v -> store_solved r v cs = cs.
Proof.
  revert r. induction cs as [|c0 cs IH]; intros [|r]; simpl; try discriminate.
  - intros H <-. injection H as ->. destruct c. reflexivity.
  - intros H E. f_equal. apply IH; assumption.
Qed.

Lemma solved_store_same (b : Builder) (r : ref) (v : bool) (cs : list Conflict) :
  r < List.length cs ->
  solved (with_conflicts b (store_solved r v cs)) r = v.
Proof.
  intros Hr. unfold solved. simpl.
  destruct (nth_error cs r) as [c|] eqn:E.
  - rewrite (store_solved_same r v cs c E). reflexivity.
  - apply nth_error_None in E. lia.
Qed.

Lemma matches_assign (nm : string) (st : status_arg) (v : bool) (c : Conflict) :
  matches nm st (assign_solved v c) = matches nm st c.
Proof. reflexivity. Qed.

Lemma find_index_Some (g : Conflict -> bool) (cs : list Conflict) (r : ref) :
  find_index g cs = Some r ->
  exists c, nth_error cs r = Some c /\ g c = true.
Proof.
  revert r. induction cs as [|c cs IH]; simpl; intros r; [discriminate|].
  destruct (g c) eqn:E.
  - intros H. injection H as <-. exists c. auto.
  - destruct (find_index g cs) as [r'|]; [|discriminate].
    intros H. injection H as <-. simpl. apply IH. reflexivity.
Qed.

Lemma find_index_None (g : Conflict -> bool) (cs : list Conflict) :
  find_index g cs = None <-> existsb g cs = false.
Proof.
  induction cs as [|c cs IH]; simpl; [tauto|].
  destruct (g c); simpl.
  - split; discriminate.
  - destruct (find_index g cs); [|tauto].
    split; [discriminate|]. intros H. apply IH in H. discriminate.
Qed.

(** With one conflict per name, the conflict found for a name is the one
    that bears it. *)
Lemma find_index_unique (nm : string) (st : status_arg) (cs : list Conflict)
      (r : ref) (c : Conflict) :
  NoDup (conflict_names cs) ->
  nth_error cs r = Some c ->
  matches nm st c = true ->
  find_index (matches nm st) cs = Some r.
Proof.
  revert r. induction cs as [|c0 cs IH]; intros [|r] Hnd Hr Hm;
    cbn [find_index nth_error] in *; try discriminate.
  - injection Hr as ->. rewrite Hm. reflexivity.
  - unfold conflict_names in Hnd. cbn [map] in Hnd. inversion Hnd; subst.
    destruct (matches nm st c0) eqn:E.
    + exfalso. apply H1. unfold matches in *.
      apply andb_true_iff in E. apply andb_true_iff in Hm.
      destruct E as [_ E]. destruct Hm as [_ Hm].
      apply String.eqb_eq in E. apply String.eqb_eq in Hm. rewrite E, <- Hm.
      apply (in_map (fun x => name (dimension x))).
      apply nth_error_In in Hr. assumption.
    + rewrite (IH r H2 Hr Hm). reflexivity.
Qed.

(** The list of references a filter hands out and the position found in
    its names, against the first matching position of the store. *)
Lemma filter_index_find (f : Conflict -> bool) (p : string)
      (pre cs : list Conflict) :
  let full := pre ++ cs in
  let ids := filter_from f (List.length pre) cs in
  let names := map (fun r => match nth_error full r with
                             | Some c => name (dimension c)
                             | None => EmptyString
                             end) ids in
  match find_index (fun c => f c && String.eqb (name (dimension c)) p) cs with
  | Some r =>
      exists k, Py.index String.eqb p names = Some k /\
                nth_error ids k = Some (List.length pre + r)
  | None => Py.index String.eqb p names = None
  end.
Proof.
  revert pre. induction cs as [|c cs IH]; intros pre; simpl; [reflexivity|].
  specialize (IH (pre ++ [c])).
  rewrite <- app_assoc, length_app in IH. simpl in IH.
  replace (List.length pre + 1) with (S (List.length pre)) in IH by lia.
  destruct (f c) eqn:Ef; simpl.
  - rewrite nth_error_app2 by lia. rewrite Nat.sub_diag. simpl.
    destruct (String.eqb (name (dimension c)) p) eqn:En.
    + exists 0. split; [reflexivity|]. simpl. f_equal. lia.
    + destruct (find_index _ cs) as [r|].
      * destruct IH as [k [Hk Hn]]. exists (S k). rewrite Hk. split; [reflexivity|].
        simpl. rewrite Hn. f_equal. lia.
      * rewrite IH. reflexivity.
  - destruct (find_index _ cs) as [r|].
    + destruct IH as [k [Hk Hn]]. exists k. split; [assumption|].
      rewrite Hn. f_equal. lia.
    + assumption.
Qed.

Lemma assert_has_status_find (nm : string) (st : status_arg) (b : Builder) :
  match find_conflict nm st b with
  | Some r =>
      exists k ids, _assert_has_status nm st b = Ok (k, ids) b /\
                    nth_error ids k = Some r
  | None => _assert_has_status nm st b = Raise ValueError b
  end.
Proof.
  pose proof (filter_index_find (fun c => status_in (status c) st)
                                ("/" ++ nm)%string [] (conflicts b)) as H.
  cbv zeta in H. cbn [app List.length Nat.add] in H. unfold find_conflict, matches.
  unfold _assert_has_status, filter_conflicts_with_status, filter_conflicts, name_of.
  unfold ref in *.
  destruct (find_index _ (conflicts b)) as [r|].
  - destruct H as [k [Hk Hn]]. exists k. eexists. cbv zeta. rewrite Hk.
    split; [reflexivity|]. assumption.
  - cbv zeta. rewrite H. reflexivity.
Qed.

Lemma mark_as_find (nm : string) (st : status_arg) (v : bool) (b : Builder) :
  _mark_as nm st v b =
  match find_conflict nm st b with
  | Some r => Ok r (with_conflicts b (store_solved r v (conflicts b)))
  | None => Raise ValueError b
  end.
Proof.
  pose proof (assert_has_status_find nm st b) as H.
  unfold _mark_as, bind. destruct (find_conflict nm st b) as [r|].
  - destruct H as [k [ids [-> Hn]]]. simpl. unfold getitem. rewrite Hn. reflexivity.
  - rewrite H. reflexivity.
Qed.

Lemma find_conflict_store (nm : string) (st : status_arg) (b : Builder)
      (r : ref) (v : bool) :
  find_conflict nm st (with_conflicts b (store_solved r v (conflicts b))) =
  find_conflict nm st b.
Proof.
  unfold find_conflict. simpl. apply store_solved_find. intros c. reflexivity.
Qed.

(* ================================================================== *)
(** * The ledger *)

Lemma nodupb_snoc (p : payload) (l : list payload) :
  Py.nodupb payload_eqb l = true ->
  Py.mem payload_eqb p l = false ->
  Py.nodupb payload_eqb (l ++ [p]) = true.
Proof.
  rewrite !(nodupb_NoDup payload_eqb payload_eqb_eq),
          (mem_not_In payload_eqb payload_eqb_eq).
  intros Hnd Hni. induction l as [|q l IH]; simpl.
  - constructor; [auto | constructor].
  - inversion Hnd; subst. constructor.
    + rewrite in_app_iff. simpl. intros [H | [H | []]]; [contradiction|].
      subst. apply Hni. left. reflexivity.
    + apply IH; [assumption|]. intros H. apply Hni. right. assumption.
Qed.

Lemma keys_nodup_set {V : Type} (k : string) (v : V) (d : Py.dict V) :
  Py.nodupb String.eqb (Py.keys d) = true ->
  Py.nodupb String.eqb (Py.keys (Py.set k v d)) = true.
Proof.
  rewrite keys_set. destruct (Py.has_key k d) eqn:E; [auto|].
  rewrite !(nodupb_NoDup String.eqb String.eqb_eq). intros Hnd.
  assert (Hni : ~ In k (Py.keys d)).
  { intros H. apply has_key_In in H. congruence. }
  clear E. induction (Py.keys d) as [|k0 l IH]; simpl.
  - constructor; [auto | constructor].
  - inversion Hnd; subst. constructor.
    + rewrite in_app_iff. simpl. intros [H | [H | []]]; [contradiction|].
      subst. apply Hni. left. reflexivity.
    + apply IH; [assumption|]. intros H. apply Hni. right. assumption.
Qed.

Lemma ledger_ok_set (k : string) (l : list payload) (ops : Py.dict (list payload)) :
  ledger_ok ops = true ->
  Py.nodupb payload_eqb l = true ->
  (k = "rename" -> forallb is_pair l = true) ->
  ledger_ok (Py.set k l ops) = true.
Proof.
  unfold ledger_ok. rewrite !andb_true_iff. intros [[Hk Hn] Ht] Hl Hp.
  split; [split|].
  - apply keys_nodup_set. assumption.
  - apply forallb_set; assumption.
  - apply forallb_set; [assumption|]. simpl.
    destruct (String.eqb k "rename") eqn:E; [|reflexivity].
    apply String.eqb_eq in E. simpl. auto.
Qed.

Lemma ledger_ok_entries (k : string) (ops : Py.dict (list payload)) :
  ledger_ok ops = true ->
  Py.nodupb payload_eqb (entries k ops) = true /\
  (k = "rename" -> forallb is_pair (entries k ops) = true).
Proof.
  unfold ledger_ok, entries. rewrite !andb_true_iff. intros [[_ Hn] Ht].
  destruct (Py.get k ops) as [l|] eqn:E; [|simpl; auto].
  split.
  - apply (forallb_get _ k l ops Hn E).
  - intros ->. apply (forallb_get _ "rename" l ops Ht) in E. exact E.
Qed.

Lemma set_set {V : Type} (k : string) (v v' : V) (d : Py.dict V) :
  Py.set k v (Py.set k v' d) = Py.set k v d.
Proof.
  induction d as [|[k0 v0] d IH]; simpl.
  - rewrite String.eqb_refl. reflexivity.
  - destruct (String.eqb k k0) eqn:E; simpl; rewrite E; [reflexivity|].
    rewrite IH. reflexivity.
Qed.

Lemma put_operation_put (kind : string) (p : payload) (b : Builder) :
  _put_operation kind p b = Ok tt (with_operations b (put kind p (operations b))).
Proof.
  unfold _put_operation, put, entries.
  destruct (Py.has_key kind (operations b)) eqn:Hk; simpl.
  - apply has_key_get in Hk. destruct Hk as [l Hl]. rewrite Hl.
    destruct (Py.mem payload_eqb p l); reflexivity.
  - rewrite get_set_same. apply has_key_false_get in Hk. rewrite Hk. simpl.
    rewrite set_set. reflexivity.
Qed.

Lemma entries_put_same (kind : string) (p : payload) (ops : Py.dict (list payload)) :
  entries kind (put kind p ops) =
  if Py.mem payload_eqb p (entries kind ops)
  then entries kind ops
  else entries kind ops ++ [p].
Proof.
  unfold put. destruct (Py.mem payload_eqb p (entries kind ops)) eqn:Hm.
  - destruct (Py.has_key kind ops) eqn:Hk; [reflexivity|].
    apply has_key_false_get in Hk. unfold entries in Hm. rewrite Hk in Hm.
    discriminate.
  - unfold entries at 1. rewrite get_set_same. reflexivity.
Qed.

Lemma entries_put_other (kind k : string) (p : payload) (ops : Py.dict (list payload)) :
  k <> kind -> entries k (put kind p ops) = entries k ops.
Proof.
  intros Hne. unfold put, entries.
  destruct (Py.mem payload_eqb p _).
  - destruct (Py.has_key kind ops); [reflexivity|].
    rewrite get_set_other by assumption. reflexivity.
  - rewrite get_set_other by assumption. reflexivity.
Qed.

Lemma put_present (kind : string) (p : payload) (ops : Py.dict (list payload)) :
  Py.mem payload_eqb p (entries kind ops) = true -> put kind p ops = ops.
Proof.
  intros Hm. unfold put. rewrite Hm.
  destruct (Py.has_key kind ops) eqn:Hk; [reflexivity|].
  apply has_key_false_get in Hk. unfold entries in Hm. rewrite Hk in Hm. discriminate.
Qed.

Lemma ledger_ok_put (kind : string) (p : payload) (ops : Py.dict (list payload)) :
  ledger_ok ops = true ->
  (kind = "rename" -> is_pair p = true) ->
  ledger_ok (put kind p ops) = true.
Proof.
  intros Hok Hp. destruct (ledger_ok_entries kind ops Hok) as [Hn Ht].
  unfold put. destruct (Py.mem payload_eqb p (entries kind ops)) eqn:Hm.
  - destruct (Py.has_key kind ops); [assumption|].
    apply ledger_ok_set; auto.
  - apply ledger_ok_set; [assumption | apply nodupb_snoc; assumption |].
    intros E. rewrite forallb_app, (Ht E). simpl. rewrite (Hp E). reflexivity.
Qed.

Lemma count_payload_nodup (p : payload) (l : list payload) :
  Py.nodupb payload_eqb l = true -> In p l -> count_payload p l = 1.
Proof.
  rewrite (nodupb_NoDup payload_eqb payload_eqb_eq). unfold count_payload.
  induction l as [|q l IH]; simpl; intros Hnd Hin; [contradiction|].
  inversion Hnd; subst. destruct (payload_eqb p q) eqn:E.
  - apply payload_eqb_eq in E. subst q. simpl. f_equal.
    clear IH Hin Hnd H2. induction l as [|q l IH]; simpl; [reflexivity|].
    destruct (payload_eqb p q) eqn:E.
    + apply payload_eqb_eq in E. subst. exfalso. apply H1. left. reflexivity.
    + apply IH. intros H. apply H1. right. assumption.
  - destruct Hin as [-> | Hin]; [rewrite payload_eqb_refl in E; discriminate|].
    apply IH; assumption.
Qed.

(* ================================================================== *)
(** * Selectors that are plain names *)

Lemma split_without_sep (sep : ascii) (s : string) :
  Py.contains (String sep EmptyString) s = false -> Py.split sep s = [s].
Proof.
  induction s as [|c s IH]; simpl; [reflexivity|].
  destruct (Ascii.ascii_dec sep c) as [<- | Hne].
  - destruct s; discriminate.
  - simpl. intros H. rewrite (IH H).
    destruct (Ascii.eqb c sep) eqn:E; [|reflexivity].
    apply Ascii.eqb_eq in E. congruence.
Qed.

Lemma get_names_literal (x : string) (st : status_arg) (b : Builder) :
  is_literal x = true -> _get_names x st b = [x].
Proof.
  unfold is_literal. rewrite !andb_true_iff, !negb_true_iff. intros [[Hs Hk] Hw].
  unfold _get_names. rewrite (split_without_sep " " x Hs).
  cbn [get_names_loop]. rewrite Hk, Hw. reflexivity.
Qed.

Lemma for_each_single {A : Type} (x : A) (body : A -> M unit) (b : Builder) :
  for_each [x] body b = body x b.
Proof.
  simpl. unfold bind, ret. destruct (body x b) as [[] b'|e b']; reflexivity.
Qed.

(** [_do_basic] on a plain name: one lookup, one mark, one ledger entry. *)
Lemma do_basic_literal (x : string) (st : status_arg) (operation : string) (b : Builder) :
  is_literal x = true ->
  _do_basic x st operation b =
  match find_conflict x st b with
  | Some r =>
      Ok tt (mkBuilder (user_args b) (commandline_keywords b) (experiment_space b)
                       (conflicting_space b)
                       (store_solved r true (conflicts b))
                       (put operation (One r) (operations b)))
  | None => Raise ValueError b
  end.
Proof.
  intros Hlit. unfold _do_basic, bind at 1, get_state.
  rewrite (get_names_literal x st b Hlit), for_each_single.
  unfold bind, _mark_as_solved. rewrite mark_as_find.
  destruct (find_conflict x st b) as [r|]; [|reflexivity].
  rewrite put_operation_put. reflexivity.
Qed.

(* ================================================================== *)
(** * Adding twice *)

(** C4.  From a state whose ledger holds no payload twice, adding a
    plain name [x] that has a new or changed conflict [r] succeeds, adding
    it again succeeds and changes nothing, and the add list then holds the
    conflict [r] exactly once.  In general [_put_operation] appends the
    payload to the list of its kind when the list does not hold it yet,
    and leaves the list as it is otherwise. *)
Theorem add_dimension_twice (b : Builder) (x : string) (r : ref)
        (Hledger : ledger_ok (operations b) = true)
        (Hlit : is_literal x = true)
        (Hx : find_conflict x (StatusList ["new"; "changed"]) b = Some r) :
  exists b1,
    add_dimension x b = Ok tt b1 /\
    add_dimension x b1 = Ok tt b1 /\
    count_payload (One r) (entries "add" (operations b1)) = 1 /\
    solved b1 r = true /\
    forall kind p b0, exists b0',
      _put_operation kind p b0 = Ok tt b0' /\
      entries kind (operations b0') =
      if Py.mem payload_eqb p (entries kind (operations b0))
      then entries kind (operations b0)
      else entries kind (operations b0) ++ [p].
Proof.
  unfold add_dimension. rewrite (do_basic_literal x _ "add" b Hlit), Hx.
  eexists. split; [reflexivity|].
  assert (Hin : Py.mem payload_eqb (One r)
                  (entries "add" (put "add" (One r) (operations b))) = true).
  { rewrite entries_put_same.
    destruct (Py.mem payload_eqb (One r) (entries "add" (operations b))) eqn:E;
      [assumption|].
    apply (mem_In payload_eqb payload_eqb_eq). apply in_or_app. right. left. reflexivity. }
  split; [|split; [|split]].
  - rewrite (do_basic_literal x _ "add" _ Hlit).
    unfold find_conflict in *. simpl conflicts.
    rewrite store_solved_find by (intros c; reflexivity). rewrite Hx. simpl.
    rewrite store_solved_twice, (put_present _ _ _ Hin). reflexivity.
  - simpl operations. apply count_payload_nodup.
    + apply ledger_ok_entries. apply ledger_ok_put; [assumption | discriminate].
    + apply (mem_In payload_eqb payload_eqb_eq). assumption.
  - apply find_index_Some in Hx. destruct Hx as [c [Hc _]].
    unfold solved. simpl conflicts. rewrite (store_solved_same r true _ c Hc). reflexivity.
  - intros kind p b0. eexists. split; [apply put_operation_put|].
    simpl operations. apply entries_put_same.
Qed.

Lemma add_dimension_twice_witness :
  ledger_ok (operations Examples.lr_x_batch) = true /\
  is_literal "x" = true /\
  find_conflict "x" (StatusList ["new"; "changed"]) Examples.lr_x_batch = Some 1 /\
  exists b1,
    add_dimension "x" Examples.lr_x_batch = Ok tt b1 /\
    add_dimension "x" b1 = Ok tt b1 /\
    count_payload (One 1) (entries "add" (operations b1)) = 1.
Proof.
  split; [reflexivity|]. split; [reflexivity|]. split; [reflexivity|].
  destruct (add_dimension_twice Examples.lr_x_batch "x" 1 eq_refl eq_refl eq_refl)
    as [b1 [H1 [H2 [H3 _]]]].
  exists b1. auto.
Defined.

(* ================================================================== *)
(** * Names without a conflict *)

Lemma has_conflict_find (b : Builder) (nm : string) (st : status_arg) :
  has_conflict b nm st = false <-> find_conflict nm st b = None.
Proof.
  unfold has_conflict, find_conflict. symmetry. apply find_index_None.
Qed.

Lemma has_conflict_store (b : Builder) (nm : string) (st : status_arg)
      (cs : list Conflict) (r : ref) (v : bool) (ops : Py.dict (list payload)) :
  cs = conflicts b ->
  has_conflict (mkBuilder (user_args b) (commandline_keywords b) (experiment_space b)
                          (conflicting_space b) (store_solved r v cs) ops) nm st
  = has_conflict b nm st.
Proof.
  intros ->. unfold has_conflict. simpl conflicts.
  generalize (conflicts b). intros cs. revert r.
  induction cs as [|c cs IH]; intros [|r]; simpl; try reflexivity.
  rewrite IH. reflexivity.
Qed.

Lemma do_basic_loop_raises (st : status_arg) (operation : string)
      (names : list string) (b : Builder) (n : string) :
  In n names -> has_conflict b n st = false ->
  exists b',
    for_each names
      (fun _name => conflict <- _mark_as_solved _name st ;;
                    _put_operation operation (One conflict)) b
    = Raise ValueError b'.
Proof.
  revert b. induction names as [|n0 names IH]; intros b Hin Hno; [contradiction|].
  cbn [for_each]. unfold bind at 1. unfold bind at 1. unfold _mark_as_solved.
  rewrite mark_as_find.
  destruct (find_conflict n0 st b) as [r0|] eqn:E0.
  - rewrite put_operation_put.
    destruct Hin as [-> | Hin].
    + apply has_conflict_find in Hno. congruence.
    + apply IH; [assumption|].
      unfold with_operations, with_conflicts. simpl.
      rewrite has_conflict_store by reflexivity. assumption.
  - exists b. reflexivity.
Qed.

(** A name that [add_dimension] or [remove_dimension] looks up and
    that has no conflict of an accepted status makes the call raise the
    [ValueError] of [list.index]. *)
Lemma looked_up_name_raises (sel : string) (st : status_arg) (operation : string)
      (b : Builder) (nm : string) :
  In nm (_get_names sel st b) -> has_conflict b nm st = false ->
  exists b', _do_basic sel st operation b = Raise ValueError b'.
Proof.
  intros Hin Hno. unfold _do_basic, bind at 1, get_state.
  apply (do_basic_loop_raises _ _ _ b nm); assumption.
Qed.

(** [rename_dimension] raises, the builder untouched, when the old name
    has no missing conflict or the new name no new one. *)
Lemma rename_missing_raises (old new : string) (b : Builder) :
  has_conflict b old (StatusStr "missing") = false \/
  has_conflict b new (StatusStr "new") = false ->
  rename_dimension (old, new) b = Raise ValueError b.
Proof.
  intros Hno. unfold rename_dimension. cbn [fst snd]. unfold bind at 1.
  pose proof (assert_has_status_find old (StatusStr "missing") b) as Ho.
  pose proof (assert_has_status_find new (StatusStr "new") b) as Hn.
  destruct Hno as [Hno | Hno]; apply has_conflict_find in Hno; rewrite Hno in *.
  - rewrite Ho. reflexivity.
  - destruct (find_conflict old (StatusStr "missing") b).
    + destruct Ho as [k [ids [-> _]]]. unfold bind at 1. rewrite Hn. reflexivity.
    + rewrite Ho. reflexivity.
Qed.

(** The scenario of the specification: with the conflicts changed(lr) and
    missing(batch) only, renaming batch to newbatch raises. *)
Lemma rename_newbatch_raises :
  conflict_names (conflicts Examples.lr_batch) = ["/lr"; "/batch"] /\
  map status (conflicts Examples.lr_batch) = ["changed"; "missing"] /\
  has_conflict Examples.lr_batch "newbatch" (StatusStr "new") = false /\
  rename_dimension ("batch", "newbatch") Examples.lr_batch
  = Raise ValueError Examples.lr_batch.
Proof.
  split; [reflexivity|]. split; [reflexivity|]. split; [reflexivity|].
  apply rename_missing_raises. right. reflexivity.
Qed.

(** C7.  A call does not raise for every name it refers to that has no
    conflict of the required status.  With [x] new and no conflict named
    [ghost], the selector list ["ghost x"] refers to [ghost] and [x], yet
    [_get_names] hands [x] alone to the loop, the plain name [x] having
    replaced the names gathered before it: [add_dimension("ghost x")]
    returns, with [x] resolved and queued, exactly as [add_dimension("x")]
    does.  The same name makes the call raise when it stands alone or
    last; [remove_dimension] behaves alike. *)
Theorem missing_conflict_unnoticed :
  spec_names "ghost x" (StatusList ["new"; "changed"]) Examples.only_x = ["ghost"; "x"] /\
  (forall st, has_conflict Examples.only_x "ghost" st = false) /\
  _get_names "ghost x" (StatusList ["new"; "changed"]) Examples.only_x = ["x"] /\
  add_dimension "ghost x" Examples.only_x = Ok tt Examples.x_added /\
  add_dimension "x" Examples.only_x = Ok tt Examples.x_added /\
  solved Examples.x_added 0 = true /\
  entries "add" (operations Examples.x_added) = [One 0] /\
  add_dimension "ghost" Examples.only_x = Raise ValueError Examples.only_x /\
  add_dimension "x ghost" Examples.only_x = Raise ValueError Examples.only_x /\
  spec_names "ghost batch" (StatusList ["missing"]) Examples.lr_batch = ["ghost"; "batch"] /\
  (forall st, has_conflict Examples.lr_batch "ghost" st = false) /\
  remove_dimension "ghost batch" Examples.lr_batch
  = remove_dimension "batch" Examples.lr_batch /\
  exists b1, remove_dimension "ghost batch" Examples.lr_batch = Ok tt b1 /\
             solved b1 1 = true.
Proof.
  split; [reflexivity|].
  split; [intros st; unfold has_conflict, matches; simpl;
          rewrite andb_false_r; reflexivity|].
  split; [reflexivity|]. split; [reflexivity|]. split; [reflexivity|].
  split; [reflexivity|]. split; [reflexivity|]. split; [reflexivity|].
  split; [reflexivity|]. split; [reflexivity|].
  split; [intros st; unfold has_conflict, matches; simpl;
          rewrite !andb_false_r; reflexivity|].
  split; [reflexivity|].
  eexists. split; reflexivity.
Qed.

(* ================================================================== *)
(** * Reading the parent space *)

(** C10.  [get_old_dimension_value] never raises and leaves the builder
    as it is; it returns the dimension the parent space holds under the
    name, and Python's [None] when the space has no such name. *)
Theorem get_old_dimension_value_total (b : Builder) (nm : string) :
  get_old_dimension_value nm b = Ok (Py.get nm (experiment_space b)) b /\
  (Py.has_key nm (experiment_space b) = true ->
   exists d, get_old_dimension_value nm b = Ok (Some d) b /\
             In (nm, d) (experiment_space b)) /\
  (Py.has_key nm (experiment_space b) = false ->
   get_old_dimension_value nm b = Ok None b).
Proof.
  unfold get_old_dimension_value.
  destruct (Py.has_key nm (experiment_space b)) eqn:Hk.
  - apply has_key_get in Hk. destruct Hk as [d Hd]. rewrite Hd.
    split; [reflexivity|]. split; [|discriminate].
    intros _. exists d. split; [reflexivity|]. apply get_In. assumption.
  - apply has_key_false_get in Hk. rewrite Hk.
    split; [reflexivity|]. split; [discriminate | reflexivity].
Qed.

Lemma get_old_dimension_value_total_witness :
  get_old_dimension_value "/lr" Examples.lr_batch
  = Ok (Some (Examples.dim "/lr" "0.1")) Examples.lr_batch /\
  get_old_dimension_value "/momentum" Examples.lr_batch = Ok None Examples.lr_batch.
Proof.
  split.
  - apply (proj1 (get_old_dimension_value_total Examples.lr_batch "/lr")).
  - apply (proj2 (proj2 (get_old_dimension_value_total Examples.lr_batch "/momentum"))).
    reflexivity.
Defined.

(* ================================================================== *)
(** * Removing from the ledger *)

Lemma solved_in_store_false (cs : list Conflict) (r x : ref) :
  solved_in cs x = false -> solved_in (store_solved r false cs) x = false.
Proof.
  unfold solved_in. intros H. destruct (Nat.eq_dec x r) as [-> | Hne].
  - destruct (nth_error cs r) as [c|] eqn:E.
    + rewrite (store_solved_same r false cs c E). reflexivity.
    + assert (Hlen : nth_error (store_solved r false cs) r = None).
      { apply nth_error_None. rewrite store_solved_length.
        apply nth_error_None. assumption. }
      rewrite Hlen. reflexivity.
  - rewrite store_solved_other by assumption. assumption.
Qed.

Lemma solved_in_store_same (cs : list Conflict) (r : ref) (v : bool) :
  r < List.length cs -> solved_in (store_solved r v cs) r = v.
Proof.
  intros Hr. unfold solved_in.
  destruct (nth_error cs r) as [c|] eqn:E.
  - rewrite (store_solved_same r v cs c E). reflexivity.
  - apply nth_error_None in E. lia.
Qed.

Lemma forallb_incl {A : Type} (f : A -> bool) (l l' : list A) :
  (forall x, In x l' -> In x l) -> forallb f l = true -> forallb f l' = true.
Proof.
  rewrite !forallb_forall. auto.
Qed.

(** The rename loop never fails on a list of tuples; it only takes
    payloads away and only clears flags. *)
Lemma rename_loop_sound (fuel i : nat) (arg : ref) (l : list payload)
      (cs : list Conflict) :
  forallb is_pair l = true ->
  exists l' cs',
    rename_loop fuel i arg l cs = (None, (l', cs')) /\
    (forall p, In p l' -> In p l) /\
    (NoDup l -> NoDup l') /\
    conflict_names cs' = conflict_names cs /\
    List.length cs' = List.length cs /\
    (forall x, solved_in cs x = false -> solved_in cs' x = false).
Proof.
  revert i l cs. induction fuel as [|fuel IH]; intros i l cs Hty.
  - exists l, cs. simpl. repeat split; auto.
  - cbn [rename_loop]. destruct (nth_error l i) as [value|] eqn:E.
    + assert (Hv : is_pair value = true).
      { rewrite forallb_forall in Hty. apply Hty. apply nth_error_In in E. assumption. }
      destruct value as [c | old new]; [discriminate|].
      destruct (holds arg (Two old new)).
      * destruct (IH (S i) (Py.remove_first payload_eqb (Two old new) l)
                     (store_solved new false (store_solved old false cs)))
          as [l' [cs' [Hrun [Hin [Hnd [Hnm [Hlen Hfl]]]]]]].
        { apply (forallb_incl _ l); [|assumption].
          intros x. apply remove_first_In. }
        exists l', cs'. split; [assumption|]. split; [|split; [|split; [|split]]].
        -- intros p Hp. apply (remove_first_In payload_eqb (Two old new)). auto.
        -- intros H. apply Hnd. apply (remove_first_NoDup payload_eqb). assumption.
        -- rewrite Hnm, !store_solved_names. reflexivity.
        -- rewrite Hlen, !store_solved_length. reflexivity.
        -- intros x Hx. apply Hfl. apply solved_in_store_false.
           apply solved_in_store_false. assumption.
      * apply IH. assumption.
    + exists l, cs. repeat split; auto.
Qed.

(** More fuel than the length of the list changes nothing: the loop has
    ended by then. *)
Lemma remove_first_length (p : payload) (l : list payload) :
  In p l -> S (List.length (Py.remove_first payload_eqb p l)) = List.length l.
Proof.
  induction l as [|q l IH]; simpl; intros H; [contradiction|].
  destruct (payload_eqb q p) eqn:E; [reflexivity|].
  destruct H as [-> | H]; [rewrite payload_eqb_refl in E; discriminate|].
  simpl. rewrite IH by assumption. reflexivity.
Qed.

Lemma rename_loop_fuel (fuel fuel' i : nat) (arg : ref) (l : list payload)
      (cs : list Conflict) :
  List.length l - i <= fuel -> List.length l - i <= fuel' ->
  rename_loop fuel i arg l cs = rename_loop fuel' i arg l cs.
Proof.
  revert fuel' i l cs. induction fuel as [|fuel IH]; intros fuel' i l cs H1 H2.
  - assert (Hn : nth_error l i = None) by (apply nth_error_None; lia).
    destruct fuel'; cbn [rename_loop]; [reflexivity|]. rewrite Hn. reflexivity.
  - destruct fuel' as [|fuel'].
    + assert (Hn : nth_error l i = None) by (apply nth_error_None; lia).
      cbn [rename_loop]. rewrite Hn. reflexivity.
    + cbn [rename_loop]. destruct (nth_error l i) as [value|] eqn:E; [|reflexivity].
      destruct value as [c | old new]; [reflexivity|].
      destruct (holds arg (Two old new)).
      * apply nth_error_In in E.
        pose proof (remove_first_length (Two old new) l E) as Hlen.
        apply IH; lia.
      * apply IH; lia.
Qed.

(** A list in which nothing holds the conflict is walked without a
    change. *)
Lemma rename_loop_unheld (fuel i : nat) (arg : ref) (l : list payload)
      (cs : list Conflict) :
  forallb is_pair l = true ->
  forallb (fun p => negb (holds arg p)) l = true ->
  rename_loop fuel i arg l cs = (None, (l, cs)).
Proof.
  intros Hty Hun. revert i. induction fuel as [|fuel IH]; intros i; [reflexivity|].
  cbn [rename_loop]. destruct (nth_error l i) as [value|] eqn:E; [|reflexivity].
  apply nth_error_In in E.
  rewrite forallb_forall in Hty, Hun.
  pose proof (Hty _ E) as Hv. pose proof (Hun _ E) as Hh.
  destruct value as [c | old new]; [discriminate|].
  apply negb_true_iff in Hh. rewrite Hh. apply IH.
Qed.

(** The tuple queued last is found and taken away when no tuple before
    it holds the conflict. *)
Lemma rename_loop_last (fuel i : nat) (arg o n : ref) (l0 : list payload)
      (cs : list Conflict) :
  forallb is_pair l0 = true ->
  forallb (fun p => negb (holds arg p)) l0 = true ->
  holds arg (Two o n) = true ->
  i <= List.length l0 ->
  List.length l0 - i < fuel ->
  rename_loop fuel i arg (l0 ++ [Two o n]) cs =
  (None, (l0, store_solved n false (store_solved o false cs))).
Proof.
  intros Hty Hun Hh. revert i. induction fuel as [|fuel IH]; intros i Hi Hf; [lia|].
  cbn [rename_loop].
  destruct (Nat.eq_dec i (List.length l0)) as [-> | Hne].
  - rewrite nth_error_app2 by lia. rewrite Nat.sub_diag. cbn [nth_error]. rewrite Hh.
    assert (Hni : ~ In (Two o n) l0).
    { intros Hin. rewrite forallb_forall in Hun. apply Hun in Hin.
      rewrite Hh in Hin. discriminate. }
    rewrite (remove_first_last payload_eqb payload_eqb_eq _ _ Hni).
    rewrite (rename_loop_fuel fuel 0 (S (List.length l0))) by lia.
    reflexivity.
  - rewrite nth_error_app1 by lia.
    destruct (nth_error l0 i) as [value|] eqn:E.
    + apply nth_error_In in E.
      rewrite forallb_forall in Hty, Hun.
      pose proof (Hty _ E) as Hv. pose proof (Hun _ E) as Hhv.
      destruct value as [c | old new]; [discriminate|].
      apply negb_true_iff in Hhv. rewrite Hhv.
      apply IH; lia.
    + apply nth_error_None in E. lia.
Qed.

Lemma typed_cons (k : string) (l : list payload) (ops : Py.dict (list payload)) :
  typed ((k, l) :: ops) = true <->
  (k = "rename" -> forallb is_pair l = true) /\ typed ops = true.
Proof.
  unfold typed. cbn [forallb fst snd]. rewrite andb_true_iff.
  destruct (String.eqb k "rename") eqn:E; simpl.
  - apply String.eqb_eq in E. subst. tauto.
  - apply String.eqb_neq in E. split; intros [H1 H2]; split; auto.
Qed.

(** On a ledger whose rename list holds tuples only, removing never
    fails; the kinds stay, the lists only shrink, the flags are only
    cleared. *)
Lemma remove_loop_sound (arg : ref) (ops : Py.dict (list payload)) (cs : list Conflict) :
  typed ops = true ->
  exists ops' cs',
    remove_loop arg ops cs = (None, (ops', cs')) /\
    Py.keys ops' = Py.keys ops /\
    (forallb (fun kv => Py.nodupb payload_eqb (snd kv)) ops = true ->
     forallb (fun kv => Py.nodupb payload_eqb (snd kv)) ops' = true) /\
    typed ops' = true /\
    conflict_names cs' = conflict_names cs /\
    List.length cs' = List.length cs /\
    (forall x, solved_in cs x = false -> solved_in cs' x = false).
Proof.
  revert cs. induction ops as [|[k l] ops IH]; intros cs Hty.
  - exists [], cs. simpl. repeat split; auto.
  - apply typed_cons in Hty. destruct Hty as [Hl Hty].
    cbn [remove_loop]. destruct (String.eqb k "rename") eqn:Ek.
    + apply String.eqb_eq in Ek.
      destruct (rename_loop_sound (List.length l) 0 arg l cs (Hl Ek))
        as [l' [cs1 [Hrun [Hin [Hnd [Hnm [Hlen Hfl]]]]]]].
      rewrite Hrun.
      destruct (IH cs1 Hty) as [ops' [cs' [Hrun' [Hk [Hn [Ht [Hnm' [Hlen' Hfl']]]]]]]].
      rewrite Hrun'. exists ((k, l') :: ops'), cs'.
      split; [reflexivity|]. split; [|split; [|split; [|split; [|split]]]].
      * simpl. rewrite Hk. reflexivity.
      * cbn [forallb snd]. rewrite !andb_true_iff. intros [H1 H2]. split; [|auto].
        apply (nodupb_NoDup payload_eqb payload_eqb_eq). apply Hnd.
        apply (nodupb_NoDup payload_eqb payload_eqb_eq). assumption.
      * apply typed_cons. split; [|assumption]. intros _.
        apply (forallb_incl _ l); auto.
      * congruence.
      * congruence.
      * auto.
    + assert (Hne : k = "rename" -> forallb is_pair
                      (Py.remove_first payload_eqb (One arg) l) = true).
      { intros E. apply String.eqb_neq in Ek. contradiction. }
      destruct (Py.mem payload_eqb (One arg) l).
      * destruct (IH (store_solved arg false cs) Hty)
          as [ops' [cs' [Hrun' [Hk [Hn [Ht [Hnm' [Hlen' Hfl']]]]]]]].
        rewrite Hrun'. eexists _, cs'.
        split; [reflexivity|]. split; [|split; [|split; [|split; [|split]]]].
        -- simpl. rewrite Hk. reflexivity.
        -- cbn [forallb snd]. rewrite !andb_true_iff. intros [H1 H2]. split; [|auto].
           apply (nodupb_NoDup payload_eqb payload_eqb_eq).
           apply (remove_first_NoDup payload_eqb).
           apply (nodupb_NoDup payload_eqb payload_eqb_eq). assumption.
        -- apply typed_cons. split; assumption.
        -- rewrite Hnm', store_solved_names. reflexivity.
        -- rewrite Hlen', store_solved_length. reflexivity.
        -- intros x Hx. apply Hfl'. apply solved_in_store_false. assumption.
      * destruct (IH cs Hty)
          as [ops' [cs' [Hrun' [Hk [Hn [Ht [Hnm' [Hlen' Hfl']]]]]]]].
        rewrite Hrun'. eexists _, cs'.
        split; [reflexivity|]. split; [|split; [|split; [|split; [|split]]]]; auto.
        -- simpl. rewrite Hk. reflexivity.
        -- cbn [forallb snd]. rewrite !andb_true_iff. intros [H1 H2]. auto.
        -- apply typed_cons. split; [|assumption].
           intros E. apply String.eqb_neq in Ek. contradiction.
Qed.

(** When no tuple holds the conflict, removing strips the conflict from
    the other lists and clears its flag if one of them held it. *)
Lemma remove_loop_unheld (arg : ref) (ops : Py.dict (list payload)) (cs : list Conflict) :
  typed ops = true ->
  unheld arg ops = true ->
  remove_loop arg ops cs =
  (None, (strip arg ops, if queued arg ops then store_solved arg false cs else cs)).
Proof.
  revert cs. induction ops as [|[k l] ops IH]; intros cs Hty Hun; [reflexivity|].
  apply typed_cons in Hty. destruct Hty as [Hl Hty].
  unfold unheld in Hun. cbn [forallb fst snd] in Hun.
  apply andb_true_iff in Hun. destruct Hun as [Hul Hun]. fold (unheld arg ops) in Hun.
  cbn [remove_loop strip queued map existsb fst snd].
  fold (strip arg ops). fold (queued arg ops).
  destruct (String.eqb k "rename") eqn:Ek; cbn [negb andb orb] in *.
  - apply String.eqb_eq in Ek.
    rewrite (rename_loop_unheld _ _ _ _ _ (Hl Ek) Hul), (IH cs Hty Hun). reflexivity.
  - destruct (Py.mem payload_eqb (One arg) l) eqn:Em.
    + rewrite (IH _ Hty Hun). cbn [orb]. rewrite store_solved_twice.
      destruct (queued arg ops); reflexivity.
    + rewrite (IH _ Hty Hun). cbn [orb].
      apply (mem_not_In payload_eqb payload_eqb_eq) in Em.
      rewrite (remove_first_absent payload_eqb payload_eqb_eq _ _ Em). reflexivity.
Qed.

Lemma entries_strip (arg : ref) (k : string) (ops : Py.dict (list payload)) :
  entries k (strip arg ops) =
  if String.eqb k "rename" then entries k ops
  else Py.remove_first payload_eqb (One arg) (entries k ops).
Proof.
  unfold entries. induction ops as [|[k0 l0] ops IH]; cbn [strip map Py.get fst snd].
  - destruct (String.eqb k "rename"); reflexivity.
  - fold (strip arg ops). destruct (String.eqb k k0) eqn:E; [|assumption].
    apply String.eqb_eq in E. subst k0. reflexivity.
Qed.

(** The tuple queued last under rename goes, with both flags, when no
    tuple before it holds the conflict. *)
Lemma remove_loop_last (arg o n : ref) (l0 : list payload)
      (ops : Py.dict (list payload)) (cs : list Conflict) :
  typed ops = true ->
  Py.get "rename" ops = Some (l0 ++ [Two o n]) ->
  forallb (fun p => negb (holds arg p)) l0 = true ->
  holds arg (Two o n) = true ->
  o < List.length cs -> n < List.length cs ->
  exists ops' cs',
    remove_loop arg ops cs = (None, (ops', cs')) /\
    Py.get "rename" ops' = Some l0 /\
    solved_in cs' o = false /\ solved_in cs' n = false.
Proof.
  intros Hty Hget Hun Hh. revert cs.
  induction ops as [|[k l] ops IH]; intros cs Ho Hn; [discriminate|].
  apply typed_cons in Hty. destruct Hty as [Hl Hty].
  cbn [remove_loop]. cbn [Py.get] in Hget. rewrite String.eqb_sym in Hget.
  destruct (String.eqb k "rename") eqn:Ek.
  - injection Hget as ->. apply String.eqb_eq in Ek.
    assert (Hl0 : forallb is_pair l0 = true).
    { specialize (Hl Ek). rewrite forallb_app in Hl.
      apply andb_true_iff in Hl. tauto. }
    rewrite (rename_loop_last _ 0 arg o n l0 cs Hl0 Hun Hh) by (rewrite ?length_app; simpl; lia).
    destruct (remove_loop_sound arg ops
                (store_solved n false (store_solved o false cs)) Hty)
      as [ops' [cs' [Hrun [_ [_ [_ [_ [_ Hfl]]]]]]]].
    rewrite Hrun. exists ((k, l0) :: ops'), cs'.
    split; [reflexivity|]. split; [|split].
    + cbn [Py.get]. subst k. reflexivity.
    + apply Hfl. apply solved_in_store_false. apply solved_in_store_same. assumption.
    + apply Hfl. apply solved_in_store_same. rewrite store_solved_length. assumption.
  - destruct (Py.mem payload_eqb (One arg) l).
    + destruct (IH Hty Hget (store_solved arg false cs)) as [ops' [cs' [Hrun [Hg [H1 H2]]]]];
        try (rewrite store_solved_length; assumption).
      rewrite Hrun. eexists _, cs'. split; [reflexivity|].
      cbn [Py.get]. rewrite String.eqb_sym, Ek. auto.
    + destruct (IH Hty Hget cs Ho Hn) as [ops' [cs' [Hrun [Hg [H1 H2]]]]].
      rewrite Hrun. eexists _, cs'. split; [reflexivity|].
      cbn [Py.get]. rewrite String.eqb_sym, Ek. auto.
Qed.

(* ================================================================== *)
(** * The invariant of the reachable states *)

Lemma preserves_ret {A : Type} (a : A) : preserves (ret a).
Proof. intros b H. exact H. Qed.

Lemma preserves_raise {A : Type} (e : exn) : preserves (@raise A e).
Proof. intros b H. exact H. Qed.

Lemma preserves_get_state : preserves get_state.
Proof. intros b H. exact H. Qed.

Lemma preserves_bind {A B : Type} (m : M A) (k : A -> M B) :
  preserves m -> (forall a, preserves (k a)) -> preserves (bind m k).
Proof.
  intros Hm Hk b Hb. unfold bind. specialize (Hm b Hb).
  destruct (m b) as [a b'|e b']; simpl in *.
  - apply Hk. assumption.
  - assumption.
Qed.

Lemma preserves_for_each {A : Type} (l : list A) (body : A -> M unit) :
  (forall x, preserves (body x)) -> preserves (for_each l body).
Proof.
  intros Hbody. induction l as [|x l IH]; cbn [for_each].
  - apply preserves_ret.
  - apply preserves_bind; [apply Hbody | intros _; exact IH].
Qed.

Lemma preserves_assert (nm : string) (st : status_arg) :
  preserves (_assert_has_status nm st).
Proof.
  intros b Hb. unfold _assert_has_status.
  destruct (Py.index _ _ _); exact Hb.
Qed.

Lemma preserves_getitem {A : Type} (l : list A) (i : nat) : preserves (getitem l i).
Proof.
  unfold getitem. destruct (nth_error l i); [apply preserves_ret | apply preserves_raise].
Qed.

Lemma preserves_set_is_solved (r : ref) (v : bool) : preserves (set_is_solved r v).
Proof.
  intros b Hb. unfold set_is_solved, modify, well_formed in *. simpl.
  rewrite store_solved_names. exact Hb.
Qed.

Lemma preserves_mark_as (nm : string) (st : status_arg) (v : bool) :
  preserves (_mark_as nm st v).
Proof.
  unfold _mark_as. apply preserves_bind; [apply preserves_assert|]. intros ic.
  apply preserves_bind; [apply preserves_getitem|]. intros r.
  apply preserves_bind; [apply preserves_set_is_solved|]. intros _.
  apply preserves_ret.
Qed.

Lemma preserves_put (kind : string) (p : payload) :
  (kind = "rename" -> is_pair p = true) -> preserves (_put_operation kind p).
Proof.
  intros Hp b Hb. rewrite put_operation_put. simpl.
  unfold well_formed in *. simpl. apply andb_true_iff in Hb. destruct Hb as [Hn Hl].
  rewrite Hn. simpl. apply ledger_ok_put; assumption.
Qed.

Lemma ledger_ok_typed (ops : Py.dict (list payload)) :
  ledger_ok ops = true -> typed ops = true.
Proof.
  unfold ledger_ok, typed. rewrite !andb_true_iff. tauto.
Qed.

Lemma preserves_remove (arg : ref) : preserves (_remove_from_operations arg).
Proof.
  intros b Hb. unfold well_formed in Hb. apply andb_true_iff in Hb.
  destruct Hb as [Hn Hl]. pose proof (ledger_ok_typed _ Hl) as Hty.
  destruct (remove_loop_sound arg (operations b) (conflicts b) Hty)
    as [ops' [cs' [Hrun [Hk [Hnd [Ht [Hnm _]]]]]]].
  unfold _remove_from_operations. rewrite Hrun. simpl.
  unfold well_formed. simpl. rewrite Hnm, Hn. simpl.
  unfold ledger_ok in *. rewrite !andb_true_iff in *.
  destruct Hl as [[H1 H2] H3]. rewrite Hk. auto.
Qed.

Lemma preserves_run (c : call) : preserves (run c).
Proof.
  destruct c as [s | s | o n | s]; simpl.
  - unfold add_dimension, _do_basic.
    apply preserves_bind; [apply preserves_get_state|]. intros b0.
    apply preserves_for_each. intros x.
    apply preserves_bind; [apply preserves_mark_as|]. intros r.
    apply preserves_put. discriminate.
  - unfold remove_dimension, _do_basic.
    apply preserves_bind; [apply preserves_get_state|]. intros b0.
    apply preserves_for_each. intros x.
    apply preserves_bind; [apply preserves_mark_as|]. intros r.
    apply preserves_put. discriminate.
  - unfold rename_dimension.
    apply preserves_bind; [apply preserves_assert|]. intros om.
    apply preserves_bind; [apply preserves_assert|]. intros nn.
    apply preserves_bind; [apply preserves_getitem|]. intros oc.
    apply preserves_bind; [apply preserves_getitem|]. intros nc.
    apply preserves_bind; [apply preserves_set_is_solved|]. intros _.
    apply preserves_bind; [apply preserves_set_is_solved|]. intros _.
    apply preserves_put. reflexivity.
  - unfold reset_dimension.
    apply preserves_bind; [apply preserves_get_state|]. intros b0.
    apply preserves_for_each. intros x.
    apply preserves_bind; [apply preserves_mark_as|]. intros r.
    apply preserves_remove.
Qed.

Lemma built_space_names (sp : Space) :
  built_space sp = true -> map name (Py.values sp) = Py.keys sp.
Proof.
  intros Hb.
  assert (Hall : forall k d, In (k, d) sp -> k = name d)
    by (intros k d; apply built_space_entry; assumption).
  clear Hb. induction sp as [|[k d] sp IH]; simpl; [reflexivity|].
  rewrite <- (Hall k d) by (left; reflexivity). f_equal.
  apply IH. intros k' d' Hin. apply Hall. right. assumption.
Qed.

(** A loop that emits at most one conflict per dimension, named after
    it, emits no name twice. *)
Lemma flat_map_names (f : Dimension -> list Conflict) (vs : list Dimension) :
  (forall d c, In c (f d) -> f d = [c] /\ name (dimension c) = name d) ->
  NoDup (map name vs) ->
  NoDup (conflict_names (flat_map f vs)) /\
  (forall x, In x (conflict_names (flat_map f vs)) ->
             exists d, In d vs /\ f d <> [] /\ x = name d).
Proof.
  intros Hf. induction vs as [|d vs IH]; simpl; intros Hnd.
  - split; [constructor | intros x []].
  - inversion Hnd; subst. destruct (IH H2) as [IH1 IH2]. clear IH.
    unfold conflict_names in *. rewrite map_app. split.
    + apply NoDup_app; [| assumption |].
      * destruct (f d) as [|c l] eqn:E; [constructor|].
        destruct (Hf d c) as [E' _]; [rewrite E; left; reflexivity|].
        rewrite E in E'. injection E' as ->. simpl. constructor; [auto | constructor].
      * intros x Hx Hx'. apply IH2 in Hx'. destruct Hx' as [d' [Hd' [_ ->]]].
        apply in_map_iff in Hx. destruct Hx as [c [Ec Hc]].
        apply Hf in Hc. destruct Hc as [_ Hc]. apply H1.
        rewrite <- Hc, Ec. apply in_map. assumption.
    + intros x Hx. apply in_app_or in Hx. destruct Hx as [Hx | Hx].
      * apply in_map_iff in Hx. destruct Hx as [c [Ec Hc]].
        exists d. split; [left; reflexivity|]. split.
        -- intros E. rewrite E in Hc. contradiction.
        -- apply Hf in Hc. destruct Hc as [_ Hc]. congruence.
      * apply IH2 in Hx. destruct Hx as [d' [Hd' H']]. exists d'. split; [right|]; assumption.
Qed.

Lemma find_conflicts_well_formed (b : Builder) :
  built_space (experiment_space b) = true ->
  built_space (conflicting_space b) = true ->
  conflicts b = [] ->
  operations b = [] ->
  well_formed (state_of (_find_conflicts b)) = true.
Proof.
  intros Hexp Hcand Hnil Hops. unfold well_formed. simpl. rewrite Hnil, Hops. simpl.
  rewrite andb_true_r. apply (nodupb_NoDup String.eqb String.eqb_eq).
  set (exp := experiment_space b) in *. set (cand := conflicting_space b) in *.
  destruct (flat_map_names (candidate_conflicts exp) (Py.values cand)) as [N1 I1].
  { intros d c Hc.
    destruct (candidate_conflicts_cases exp d Hexp) as [[_ E] | [[q [_ [_ E]]] | [_ E]]];
      rewrite E in *; simpl in Hc; try contradiction;
      destruct Hc as [<- | []]; split; reflexivity. }
  { rewrite built_space_names by assumption. apply built_space_keys. assumption. }
  destruct (flat_map_names (parent_conflicts cand) (Py.values exp)) as [N2 I2].
  { intros d c Hc. unfold parent_conflicts in *.
    destruct (negb (Py.has_key (name d) cand)); simpl in Hc; [|contradiction].
    destruct Hc as [<- | []]. split; reflexivity. }
  { rewrite built_space_names by assumption. apply built_space_keys. assumption. }
  unfold conflict_names in *. rewrite map_app. apply NoDup_app; try assumption.
  intros x H1 H2. apply I1 in H1. apply I2 in H2.
  destruct H1 as [d [Hd [_ ->]]]. destruct H2 as [p [Hp [Hne E]]].
  unfold parent_conflicts in Hne. rewrite <- E in Hne.
  rewrite (built_space_has_key cand d Hcand Hd) in Hne. apply Hne. reflexivity.
Qed.

(** Every state a builder can be in satisfies the invariant. *)
Lemma reachable_well_formed (b : Builder) : reachable b -> well_formed b = true.
Proof.
  induction 1 as [b Hexp Hcand Hnil Hops | b c Hr IH].
  - apply find_conflicts_well_formed; assumption.
  - apply preserves_run. assumption.
Qed.

(* ================================================================== *)
(** * Resetting a plain name *)

Lemma reset_literal (z : string) (b : Builder) :
  is_literal z = true ->
  reset_dimension z b =
  match find_conflict z (StatusList ["missing"; "new"; "changed"]) b with
  | Some r =>
      _remove_from_operations r
        (with_conflicts b (store_solved r false (conflicts b)))
  | None => Raise ValueError b
  end.
Proof.
  intros Hlit. unfold reset_dimension, bind at 1, get_state.
  rewrite (get_names_literal z _ b Hlit), for_each_single.
  unfold bind. rewrite mark_as_find.
  destruct (find_conflict z _ b); reflexivity.
Qed.

(** With one conflict per name, the conflict at [r] named [nm] is the
    one every lookup of [nm] finds, whatever statuses the lookup accepts,
    as long as it accepts the status of that conflict. *)
Lemma find_conflict_at (b : Builder) (nm : string) (st : status_arg)
      (r : ref) (c : Conflict) :
  well_formed b = true ->
  nth_error (conflicts b) r = Some c ->
  name (dimension c) = ("/" ++ nm)%string ->
  status_in (status c) st = true ->
  find_conflict nm st b = Some r.
Proof.
  intros Hwf Hc Hname Hst. unfold well_formed in Hwf.
  apply andb_true_iff in Hwf. destruct Hwf as [Hn _].
  apply (nodupb_NoDup String.eqb String.eqb_eq) in Hn.
  apply (find_index_unique nm st _ r c Hn Hc).
  unfold matches. rewrite Hst, Hname, String.eqb_refl. reflexivity.
Qed.

Lemma remove_loop_others (arg : ref) (ops ops' : Py.dict (list payload))
      (cs cs' : list Conflict) (k : string) :
  remove_loop arg ops cs = (None, (ops', cs')) ->
  k <> "rename" ->
  entries k ops' = Py.remove_first payload_eqb (One arg) (entries k ops).
Proof.
  intros Hrun Hk. revert cs ops' cs' Hrun.
  induction ops as [|[k0 l0] ops IH]; intros cs ops' cs' Hrun; cbn [remove_loop] in Hrun.
  - injection Hrun as <- <-. reflexivity.
  - destruct (String.eqb k0 "rename") eqn:E0.
    + apply String.eqb_eq in E0. subst k0.
      destruct (rename_loop _ 0 arg l0 cs) as [[e|] [l1 cs1]]; [discriminate|].
      destruct (remove_loop arg ops cs1) as [r [rest' cs'']] eqn:Erest.
      injection Hrun as -> <- <-. specialize (IH _ _ _ Erest).
      unfold entries in *. cbn [Py.get].
      apply String.eqb_neq in Hk. rewrite Hk. assumption.
    + destruct (Py.mem payload_eqb (One arg) l0) eqn:Em.
      * destruct (remove_loop arg ops _) as [r [rest' cs'']] eqn:Erest.
        injection Hrun as -> <- <-. specialize (IH _ _ _ Erest).
        unfold entries in *. cbn [Py.get].
        destruct (String.eqb k k0); [reflexivity | assumption].
      * destruct (remove_loop arg ops cs) as [r [rest' cs'']] eqn:Erest.
        injection Hrun as -> <- <-. specialize (IH _ _ _ Erest).
        unfold entries in *. cbn [Py.get].
        destruct (String.eqb k k0); [|assumption].
        apply (mem_not_In payload_eqb payload_eqb_eq) in Em.
        rewrite (remove_first_absent payload_eqb payload_eqb_eq _ _ Em). reflexivity.
Qed.

Lemma unreferenced_entries (r : ref) (k : string) (ops : Py.dict (list payload)) :
  unreferenced r ops = true ->
  forallb (fun p => negb (refers r p)) (entries k ops) = true.
Proof.
  intros H. unfold entries. destruct (Py.get k ops) as [l|] eqn:E; [|reflexivity].
  apply (forallb_get _ k l ops H E).
Qed.

Lemma unreferenced_absent (r : ref) (k : string) (ops : Py.dict (list payload)) :
  unreferenced r ops = true -> ~ In (One r) (entries k ops).
Proof.
  intros H Hin. pose proof (unreferenced_entries r k ops H) as Hall.
  rewrite forallb_forall in Hall. apply Hall in Hin. simpl in Hin.
  rewrite Nat.eqb_refl in Hin. discriminate.
Qed.

Lemma unreferenced_unheld (r : ref) (ops : Py.dict (list payload)) :
  unreferenced r ops = true -> unheld r ops = true.
Proof.
  unfold unreferenced, unheld. rewrite !forallb_forall. intros H kv Hkv.
  apply orb_true_iff. right. specialize (H kv Hkv).
  rewrite forallb_forall in *. intros p Hp. specialize (H p Hp).
  destruct p; [reflexivity | exact H].
Qed.

Lemma unheld_put (r : ref) (kind : string) (p : payload) (ops : Py.dict (list payload)) :
  kind <> "rename" -> unheld r ops = true -> unheld r (put kind p ops) = true.
Proof.
  intros Hk Hun. apply String.eqb_neq in Hk.
  unfold put. destruct (Py.mem payload_eqb p (entries kind ops)).
  - destruct (Py.has_key kind ops); [assumption|].
    apply forallb_set; [assumption|]. simpl. rewrite Hk. reflexivity.
  - apply forallb_set; [assumption|]. simpl. rewrite Hk. reflexivity.
Qed.

Lemma status_in_all (s : string) :
  status_in s (StatusList ["new"; "changed"]) = true ->
  status_in s (StatusList ["missing"; "new"; "changed"]) = true.
Proof.
  simpl. intros H. rewrite H. apply orb_true_r.
Qed.

(** C3.  In a state that satisfies the invariant, adding a plain name
    [x] that has a new or changed conflict [r] and then resetting [x]
    both succeed, leave the conflict unresolved and leave no entry for it
    in the add list.  When the conflict was unresolved and no entry of
    the ledger referred to it before the add, the conflicts are the ones
    before the add and every kind has the entries it had before the add
    (the add kind, created by the add, stays as a kind with the entries
    it had, none if it was new). *)
Theorem add_then_reset (b : Builder) (x : string) (r : ref)
        (Hwf : well_formed b = true)
        (Hlit : is_literal x = true)
        (Hx : find_conflict x (StatusList ["new"; "changed"]) b = Some r) :
  exists b1 b2,
    add_dimension x b = Ok tt b1 /\
    reset_dimension x b1 = Ok tt b2 /\
    solved b2 r = false /\
    Py.mem payload_eqb (One r) (entries "add" (operations b2)) = false /\
    (solved b r = false -> unreferenced r (operations b) = true ->
     conflicts b2 = conflicts b /\
     forall kind, entries kind (operations b2) = entries kind (operations b)).
Proof.
  pose proof Hwf as Hwf0. unfold well_formed in Hwf0.
  apply andb_true_iff in Hwf0. destruct Hwf0 as [Hnames Hledger].
  pose proof Hx as Hc. apply find_index_Some in Hc. destruct Hc as [c [Hc Hm]].
  unfold matches in Hm. apply andb_true_iff in Hm. destruct Hm as [Hst Hname].
  apply String.eqb_eq in Hname.
  assert (Hr : r < List.length (conflicts b)).
  { apply nth_error_Some. rewrite Hc. discriminate. }
  unfold add_dimension. rewrite (do_basic_literal x _ "add" b Hlit), Hx.
  set (ops1 := put "add" (One r) (operations b)).
  set (b1 := mkBuilder _ _ _ _ (store_solved r true (conflicts b)) ops1).
  assert (Hok1 : ledger_ok ops1 = true) by (apply ledger_ok_put; [assumption | discriminate]).
  assert (Hwf1 : well_formed b1 = true).
  { unfold well_formed, b1. simpl. rewrite store_solved_names, Hnames. exact Hok1. }
  assert (Hfind : find_conflict x (StatusList ["missing"; "new"; "changed"]) b1 = Some r).
  { apply (find_conflict_at b1 x _ r (assign_solved true c) Hwf1).
    - unfold b1. simpl. apply store_solved_same. assumption.
    - exact Hname.
    - apply status_in_all. exact Hst. }
  exists b1.
  rewrite (reset_literal x b1 Hlit), Hfind. unfold _remove_from_operations.
  cbn [conflicts operations with_conflicts b1]. rewrite store_solved_twice.
  destruct (remove_loop_sound r ops1 (store_solved r false (conflicts b))
              (ledger_ok_typed _ Hok1))
    as [ops' [cs' [Hrun [_ [_ [_ [_ [_ Hfl]]]]]]]].
  rewrite Hrun. eexists. split; [reflexivity|]. split; [reflexivity|].
  split; [|split].
  - unfold solved. simpl. apply Hfl. apply solved_in_store_same. assumption.
  - simpl operations. rewrite (remove_loop_others _ _ _ _ _ "add" Hrun) by discriminate.
    apply (mem_not_In payload_eqb payload_eqb_eq).
    apply (remove_first_not_In payload_eqb payload_eqb_eq).
    apply (nodupb_NoDup payload_eqb payload_eqb_eq).
    apply ledger_ok_entries. assumption.
  - intros Hunsolved Hunref. simpl conflicts. simpl operations.
    rewrite remove_loop_unheld in Hrun.
    + injection Hrun as <- <-. split.
      * assert (E : store_solved r false (conflicts b) = conflicts b).
        { apply (store_solved_noop r false _ c Hc). unfold solved in Hunsolved.
          rewrite Hc in Hunsolved. assumption. }
        destruct (queued r ops1); [rewrite store_solved_twice|]; exact E.
      * intros kind. rewrite entries_strip.
        pose proof (unreferenced_absent r kind _ Hunref) as Habs.
        destruct (String.eqb kind "rename") eqn:Ek.
        -- apply String.eqb_eq in Ek. subst kind. unfold ops1.
           apply entries_put_other. discriminate.
        -- destruct (String.eqb kind "add") eqn:Ea.
           ++ apply String.eqb_eq in Ea. subst kind. unfold ops1.
              rewrite entries_put_same.
              apply (mem_not_In payload_eqb payload_eqb_eq) in Habs. rewrite Habs.
              apply (remove_first_last payload_eqb payload_eqb_eq).
              apply (mem_not_In payload_eqb payload_eqb_eq). assumption.
           ++ apply String.eqb_neq in Ea. unfold ops1.
              rewrite entries_put_other by assumption.
              apply (remove_first_absent payload_eqb payload_eqb_eq). assumption.
    + apply ledger_ok_typed. assumption.
    + unfold ops1. apply unheld_put; [discriminate|].
      apply unreferenced_unheld. assumption.
Qed.

Lemma add_then_reset_witness :
  well_formed Examples.lr_x_batch = true /\
  is_literal "x" = true /\
  find_conflict "x" (StatusList ["new"; "changed"]) Examples.lr_x_batch = Some 1 /\
  solved Examples.lr_x_batch 1 = false /\
  unreferenced 1 (operations Examples.lr_x_batch) = true /\
  exists b1 b2,
    add_dimension "x" Examples.lr_x_batch = Ok tt b1 /\
    reset_dimension "x" b1 = Ok tt b2 /\
    solved b2 1 = false /\
    conflicts b2 = conflicts Examples.lr_x_batch.
Proof.
  repeat (split; [reflexivity|]).
  destruct (add_then_reset Examples.lr_x_batch "x" 1 eq_refl eq_refl eq_refl)
    as [b1 [b2 [H1 [H2 [H3 [_ H5]]]]]].
  exists b1, b2. repeat (split; [assumption|]).
  apply (H5 eq_refl eq_refl).
Defined.

(* ================================================================== *)
(** * Renaming, then resetting *)

Lemma rename_find (old new : string) (b : Builder) :
  rename_dimension (old, new) b =
  match find_conflict old (StatusStr "missing") b with
  | None => Raise ValueError b
  | Some o =>
      match find_conflict new (StatusStr "new") b with
      | None => Raise ValueError b
      | Some n =>
          Ok tt (mkBuilder (user_args b) (commandline_keywords b) (experiment_space b)
                           (conflicting_space b)
                           (store_solved n true (store_solved o true (conflicts b)))
                           (put "rename" (Two o n) (operations b)))
      end
  end.
Proof.
  pose proof (assert_has_status_find old (StatusStr "missing") b) as Ho.
  pose proof (assert_has_status_find new (StatusStr "new") b) as Hn.
  unfold rename_dimension. cbn [fst snd]. unfold bind at 1.
  destruct (find_conflict old (StatusStr "missing") b) as [o|].
  - destruct Ho as [ko [idso [-> Hko]]]. unfold bind at 1.
    destruct (find_conflict new (StatusStr "new") b) as [n|].
    + destruct Hn as [kn [idsn [-> Hkn]]]. cbn [fst snd].
      unfold bind at 1. unfold getitem at 1. rewrite Hko. unfold ret at 1.
      unfold bind at 1. unfold getitem at 1. rewrite Hkn. unfold ret at 1.
      unfold bind, set_is_solved, modify. rewrite put_operation_put. reflexivity.
    + rewrite Hn. reflexivity.
  - rewrite Ho. reflexivity.
Qed.

Lemma bears_nth (b : Builder) (nm st : string) (r : ref) :
  bears b nm st r = true ->
  exists c, nth_error (conflicts b) r = Some c /\
            name (dimension c) = ("/" ++ nm)%string /\ status c = st.
Proof.
  unfold bears. destruct (nth_error (conflicts b) r) as [c|]; [|discriminate].
  rewrite andb_true_iff, !String.eqb_eq. intros [H1 H2]. exists c. auto.
Qed.

Lemma solved_in_store_true (cs : list Conflict) (r x : ref) :
  solved_in cs x = true -> solved_in (store_solved r true cs) x = true.
Proof.
  unfold solved_in. intros H. destruct (Nat.eq_dec x r) as [-> | Hne].
  - destruct (nth_error cs r) as [c|] eqn:E; [|discriminate].
    rewrite (store_solved_same r true cs c E). reflexivity.
  - rewrite store_solved_other by assumption. assumption.
Qed.

Lemma entries_get (k : string) (ops : Py.dict (list payload)) (l : list payload) :
  entries k ops = l -> l <> [] -> Py.get k ops = Some l.
Proof.
  unfold entries. destruct (Py.get k ops); intros; congruence.
Qed.

(** C2, as the code has it.  In a state that satisfies the invariant,
    for plain names [old] and [new] whose conflicts [o] (missing) and
    [n] (new) are held by no tuple of the rename list yet:
    [rename_dimension] succeeds, marks both conflicts resolved and
    appends the one tuple [(o, n)] to the rename list; a
    [reset_dimension] of either name then succeeds, marks both conflicts
    unresolved and leaves the rename list as it was before the rename. *)
Theorem rename_then_reset (b : Builder) (old new : string) (o n : ref)
        (Hwf : well_formed b = true)
        (Hold : is_literal old = true)
        (Hnew : is_literal new = true)
        (Ho : bears b old "missing" o = true)
        (Hn : bears b new "new" n = true)
        (Hfree : forallb (fun p => negb (holds o p) && negb (holds n p))
                         (entries "rename" (operations b)) = true) :
  exists b1,
    rename_dimension (old, new) b = Ok tt b1 /\
    solved b1 o = true /\ solved b1 n = true /\
    entries "rename" (operations b1) = entries "rename" (operations b) ++ [Two o n] /\
    forall z, z = old \/ z = new ->
      exists b2,
        reset_dimension z b1 = Ok tt b2 /\
        solved b2 o = false /\ solved b2 n = false /\
        entries "rename" (operations b2) = entries "rename" (operations b).
Proof.
  pose proof Hwf as Hwf0. unfold well_formed in Hwf0.
  apply andb_true_iff in Hwf0. destruct Hwf0 as [Hnames Hledger].
  destruct (bears_nth _ _ _ _ Ho) as [co [Hco [Hnmo Hsto]]].
  destruct (bears_nth _ _ _ _ Hn) as [cn [Hcn [Hnmn Hstn]]].
  assert (Hlo : o < List.length (conflicts b)).
  { apply nth_error_Some. rewrite Hco. discriminate. }
  assert (Hln : n < List.length (conflicts b)).
  { apply nth_error_Some. rewrite Hcn. discriminate. }
  assert (Hfo : find_conflict old (StatusStr "missing") b = Some o).
  { apply (find_conflict_at b old _ o co Hwf Hco Hnmo). rewrite Hsto. reflexivity. }
  assert (Hfn : find_conflict new (StatusStr "new") b = Some n).
  { apply (find_conflict_at b new _ n cn Hwf Hcn Hnmn). rewrite Hstn. reflexivity. }
  rewrite rename_find, Hfo, Hfn.
  set (l0 := entries "rename" (operations b)) in *.
  set (ops1 := put "rename" (Two o n) (operations b)).
  set (cs1 := store_solved n true (store_solved o true (conflicts b))).
  set (b1 := mkBuilder _ _ _ _ cs1 ops1).
  assert (Hfo' : forallb (fun p => negb (holds o p)) l0 = true).
  { rewrite forallb_forall in *. intros p Hp. apply Hfree in Hp.
    apply andb_true_iff in Hp. tauto. }
  assert (Hfn' : forallb (fun p => negb (holds n p)) l0 = true).
  { rewrite forallb_forall in *. intros p Hp. apply Hfree in Hp.
    apply andb_true_iff in Hp. tauto. }
  assert (Habs : Py.mem payload_eqb (Two o n) l0 = false).
  { apply (mem_not_In payload_eqb payload_eqb_eq). intros Hin.
    rewrite forallb_forall in Hfo'. apply Hfo' in Hin. simpl in Hin.
    rewrite Nat.eqb_refl in Hin. discriminate. }
  assert (Hent : entries "rename" ops1 = l0 ++ [Two o n]).
  { unfold ops1. rewrite entries_put_same. fold l0. rewrite Habs. reflexivity. }
  assert (Hok1 : ledger_ok ops1 = true) by (apply ledger_ok_put; auto).
  assert (Hwf1 : well_formed b1 = true).
  { unfold well_formed, b1, cs1. simpl. rewrite !store_solved_names, Hnames. exact Hok1. }
  assert (Hlen1 : List.length cs1 = List.length (conflicts b)).
  { unfold cs1. rewrite !store_solved_length. reflexivity. }
  assert (Hget : Py.get "rename" ops1 = Some (l0 ++ [Two o n])).
  { apply entries_get; [assumption|]. destruct l0; discriminate. }
  assert (Hco1 : exists c, nth_error cs1 o = Some c /\
                           name (dimension c) = ("/" ++ old)%string /\ status c = "missing").
  { unfold cs1. destruct (Nat.eq_dec o n) as [E | E].
    - subst n. eexists. split.
      + apply store_solved_same. apply store_solved_same. exact Hco.
      + simpl. auto.
    - rewrite store_solved_other by assumption. eexists. split.
      + apply store_solved_same. exact Hco.
      + simpl. auto. }
  assert (Hcn1 : exists c, nth_error cs1 n = Some c /\
                           name (dimension c) = ("/" ++ new)%string /\ status c = "new").
  { unfold cs1. destruct (Nat.eq_dec n o) as [E | E].
    - subst o. eexists. split.
      + apply store_solved_same. apply store_solved_same. exact Hcn.
      + simpl. auto.
    - eexists. split.
      + apply store_solved_same. rewrite store_solved_other by assumption. exact Hcn.
      + simpl. auto. }
  exists b1. split; [reflexivity|]. split; [|split; [|split]].
  - unfold solved, b1, cs1. simpl. apply solved_in_store_true.
    apply solved_in_store_same. assumption.
  - unfold solved, b1, cs1. simpl. apply solved_in_store_same.
    rewrite store_solved_length. assumption.
  - exact Hent.
  - intros z [-> | ->].
    + destruct Hco1 as [c [Hc [Hcn' Hcs]]].
      rewrite (reset_literal old b1 Hold).
      rewrite (find_conflict_at b1 old _ o c Hwf1 Hc Hcn') by (rewrite Hcs; reflexivity).
      unfold _remove_from_operations. cbn [conflicts operations with_conflicts b1].
      destruct (remove_loop_last o o n l0 ops1 (store_solved o false cs1))
        as [ops' [cs' [Hrun [Hg [H1 H2]]]]];
        try (rewrite store_solved_length; lia); auto.
      * apply ledger_ok_typed. assumption.
      * simpl. rewrite Nat.eqb_refl. reflexivity.
      * rewrite Hrun. eexists. split; [reflexivity|].
        unfold solved, entries. simpl. rewrite Hg. auto.
    + destruct Hcn1 as [c [Hc [Hcn' Hcs]]].
      rewrite (reset_literal new b1 Hnew).
      rewrite (find_conflict_at b1 new _ n c Hwf1 Hc Hcn') by (rewrite Hcs; reflexivity).
      unfold _remove_from_operations. cbn [conflicts operations with_conflicts b1].
      destruct (remove_loop_last n o n l0 ops1 (store_solved n false cs1))
        as [ops' [cs' [Hrun [Hg [H1 H2]]]]];
        try (rewrite store_solved_length; lia); auto.
      * apply ledger_ok_typed. assumption.
      * simpl. rewrite Nat.eqb_refl. apply orb_true_r.
      * rewrite Hrun. eexists. split; [reflexivity|].
        unfold solved, entries. simpl. rewrite Hg. auto.
Qed.

Lemma rename_then_reset_witness :
  well_formed Examples.a_x_y = true /\
  is_literal "a" = true /\ is_literal "x" = true /\
  bears Examples.a_x_y "a" "missing" 2 = true /\
  bears Examples.a_x_y "x" "new" 0 = true /\
  exists b1 b2,
    rename_dimension ("a", "x") Examples.a_x_y = Ok tt b1 /\
    entries "rename" (operations b1) = [Two 2 0] /\
    reset_dimension "x" b1 = Ok tt b2 /\
    solved b2 2 = false /\ solved b2 0 = false /\
    entries "rename" (operations b2) = [].
Proof.
  repeat (split; [reflexivity|]).
  destruct (rename_then_reset Examples.a_x_y "a" "x" 2 0
              eq_refl eq_refl eq_refl eq_refl eq_refl eq_refl)
    as [b1 [H1 [_ [_ [H4 H5]]]]].
  destruct (H5 "x" (or_intror eq_refl)) as [b2 [H6 [H7 [H8 H9]]]].
  exists b1, b2.
  split; [exact H1|]. split; [exact H4|]. split; [exact H6|].
  split; [exact H7|]. split; [exact H8 | exact H9].
Defined.

(** C2, counterexample.  The two conflicts of a tuple do not always
    share their flag, because one conflict may be held by two tuples.  The parent has [a], the candidate [x] and [y].  After
    [rename_dimension(("a", "x"))] and [rename_dimension(("a", "y"))],
    [reset_dimension("y")] clears [a] and [y] and takes the tuple of [a]
    and [y] away; the tuple of [a] and [x] stays, with [a] unresolved and
    [x] resolved. *)
Lemma rename_then_reset_counterexample :
  bears Examples.a_x_y "a" "missing" 2 = true /\
  bears Examples.a_x_y "x" "new" 0 = true /\
  bears Examples.a_x_y "y" "new" 1 = true /\
  rename_dimension ("a", "x") Examples.a_x_y = Ok tt Examples.a_renamed_x /\
  rename_dimension ("a", "y") Examples.a_renamed_x = Ok tt Examples.a_renamed_x_y /\
  reset_dimension "y" Examples.a_renamed_x_y = Ok tt Examples.a_reset_y /\
  reachable Examples.a_reset_y /\
  entries "rename" (operations Examples.a_reset_y) = [Two 2 0] /\
  solved Examples.a_reset_y 2 = false /\
  solved Examples.a_reset_y 0 = true.
Proof.
  repeat (split; [reflexivity|]).
  split; [|repeat split].
  apply (reach_call Examples.a_renamed_x_y (CallReset "y")).
  apply (reach_call Examples.a_renamed_x (CallRename "a" "y")).
  apply (reach_call Examples.a_x_y (CallRename "a" "x")).
  apply reach_detect; reflexivity.
Qed.

(** The walk over the rename list skips the tuple that follows a removed
    one.  With the tuple of [a] and [y] queued first,
    [rename_dimension(("a", "x"))] followed by [reset_dimension("a")]
    leaves the tuple of [a] and [x] in the list, with [x] resolved. *)
Lemma reset_skips_next_tuple :
  reachable Examples.a_renamed_y /\
  exists b1 b2,
    rename_dimension ("a", "x") Examples.a_renamed_y = Ok tt b1 /\
    entries "rename" (operations b1) = [Two 2 1; Two 2 0] /\
    reset_dimension "a" b1 = Ok tt b2 /\
    entries "rename" (operations b2) = [Two 2 0] /\
    solved b2 0 = true /\
    solved b2 2 = false.
Proof.
  split.
  - apply (reach_call Examples.a_x_y (CallRename "a" "y")).
    apply reach_detect; reflexivity.
  - eexists. eexists. split; [reflexivity|]. split; [reflexivity|].
    split; [reflexivity|]. repeat split.
Qed.

(** C3, counterexample.  When the conflict was resolved before the add,
    the round trip does not give the state back: after
    [add_dimension("x")], a second [add_dimension("x")] followed by
    [reset_dimension("x")] ends with [x] unresolved and not queued, while
    [x] was resolved and queued before that second add. *)
Lemma add_then_reset_counterexample :
  reachable Examples.x_added /\
  find_conflict "x" (StatusList ["new"; "changed"]) Examples.x_added = Some 0 /\
  exists b1 b2,
    add_dimension "x" Examples.x_added = Ok tt b1 /\
    reset_dimension "x" b1 = Ok tt b2 /\
    conflicts b2 <> conflicts Examples.x_added /\
    entries "add" (operations b2) <> entries "add" (operations Examples.x_added).
Proof.
  split.
  - apply (reach_call Examples.only_x (CallAdd "x")). apply reach_detect; reflexivity.
  - split; [reflexivity|].
    eexists. eexists. split; [reflexivity|]. split; [reflexivity|].
    split; discriminate.
Qed.

(* ================================================================== *)
(** * Calling twice, for any selector *)

Lemma store_solved_erase (r : ref) (v : bool) (cs : list Conflict) :
  map erase (store_solved r v cs) = map erase cs.
Proof.
  revert r. induction cs as [|c cs IH]; intros [|r]; simpl; try reflexivity.
  f_equal. apply IH.
Qed.

Lemma filter_from_erase (f : Conflict -> bool) (i : ref) (cs cs' : list Conflict) :
  (forall c c', dimension c = dimension c' -> status c = status c' -> f c = f c') ->
  map erase cs = map erase cs' ->
  filter_from f i cs = filter_from f i cs'.
Proof.
  intros Hf. revert i cs'. induction cs as [|c cs IH]; intros i [|c' cs'] E;
    try discriminate; [reflexivity|].
  cbn [map] in E. injection E as Ed Es E. cbn [filter_from].
  rewrite (Hf c c' Ed Es), (IH (S i) cs' E). reflexivity.
Qed.

Lemma nth_error_erase (cs cs' : list Conflict) (r : ref) :
  map erase cs = map erase cs' ->
  option_map erase (nth_error cs r) = option_map erase (nth_error cs' r).
Proof.
  intros E. rewrite <- !nth_error_map, E. reflexivity.
Qed.

Lemma name_of_erase (b b' : Builder) (r : ref) :
  map erase (conflicts b) = map erase (conflicts b') ->
  name_of b r = name_of b' r.
Proof.
  intros E. pose proof (nth_error_erase _ _ r E) as H. unfold name_of.
  destruct (nth_error (conflicts b) r) as [c|], (nth_error (conflicts b') r) as [c'|];
    try discriminate; [|reflexivity].
  cbn [option_map] in H. unfold erase in H. injection H as H _. rewrite H. reflexivity.
Qed.

(** The expansion of a selector reads names and statuses only. *)
Lemma get_names_erase (sel : string) (st : status_arg) (b b' : Builder) :
  map erase (conflicts b) = map erase (conflicts b') ->
  _get_names sel st b = _get_names sel st b'.
Proof.
  intros E. unfold _get_names. generalize (@nil string) as names.
  induction (Py.split " " sel) as [|a args IH]; intros names; cbn [get_names_loop];
    [reflexivity|].
  assert (Hs : forall rs, short_names b rs = short_names b' rs).
  { intros rs. unfold short_names. apply map_ext. intros r.
    rewrite (name_of_erase b b' r E). reflexivity. }
  assert (Hk : _extend_special_keywords a b = _extend_special_keywords a b').
  { unfold _extend_special_keywords. destruct (Py.get a special_keywords); [|reflexivity].
    rewrite Hs. unfold filter_conflicts_with_status, filter_conflicts. f_equal.
    apply filter_from_erase; [|assumption].
    intros c c' _ ->. reflexivity. }
  assert (Hw : _extend_wildcard a st b = _extend_wildcard a st b').
  { unfold _extend_wildcard. rewrite Hs. unfold filter_conflicts. f_equal.
    apply filter_from_erase; [|assumption].
    intros c c' -> ->. reflexivity. }
  rewrite Hk, Hw. destruct (Py.has_key a special_keywords); [apply IH|].
  destruct (Py.contains "*" a); apply IH.
Qed.

Lemma handled_step (st : status_arg) (operation : string) (nm : string)
      (b : Builder) (r : ref) (c : Conflict) :
  nth_error (conflicts b) r = Some c ->
  handled st operation nm b ->
  handled st operation nm
    (with_operations (with_conflicts b (store_solved r true (conflicts b)))
                     (put operation (One r) (operations b))).
Proof.
  intros Hc [r0 [Hf [Hs Hm]]]. exists r0. split; [|split].
  - unfold find_conflict in *. simpl.
    rewrite store_solved_find by (intros x; reflexivity). assumption.
  - unfold solved in *. simpl. apply solved_in_store_true. exact Hs.
  - simpl. rewrite entries_put_same.
    destruct (Py.mem payload_eqb (One r) (entries operation (operations b))) eqn:E;
      [assumption|].
    apply (mem_In payload_eqb payload_eqb_eq). apply in_or_app. left.
    apply (mem_In payload_eqb payload_eqb_eq). assumption.
Qed.

(** A run of the loop of [_do_basic] that returns leaves every name it
    went through resolved and queued. *)
Lemma do_basic_loop_marks (st : status_arg) (operation : string)
      (names : list string) (b b1 : Builder) :
  for_each names
    (fun _name => conflict <- _mark_as_solved _name st ;;
                  _put_operation operation (One conflict)) b = Ok tt b1 ->
  map erase (conflicts b1) = map erase (conflicts b) /\
  (forall n, handled st operation n b -> handled st operation n b1) /\
  (forall n, In n names -> handled st operation n b1).
Proof.
  revert b. induction names as [|n0 names IH]; intros b Hrun.
  - cbn [for_each] in Hrun. injection Hrun as <-. split; [reflexivity|]. split; [auto|].
    intros n [].
  - cbn [for_each] in Hrun. unfold bind at 1 in Hrun. unfold bind at 1 in Hrun.
    unfold _mark_as_solved in Hrun. rewrite mark_as_find in Hrun.
    destruct (find_conflict n0 st b) as [r|] eqn:Ef; [|discriminate].
    rewrite put_operation_put in Hrun.
    destruct (find_index_Some _ _ _ Ef) as [c [Hc _]].
    destruct (IH _ Hrun) as [He [Hkeep Hall]]. split; [|split].
    + rewrite He. simpl. apply store_solved_erase.
    + intros n Hn. apply Hkeep. apply (handled_step st operation n b r c Hc Hn).
    + intros n [<- | Hn]; [|apply Hall; assumption].
      apply Hkeep. exists r. split; [|split].
      * unfold find_conflict in *. simpl.
        rewrite store_solved_find by (intros x; reflexivity). assumption.
      * unfold solved. simpl. apply solved_in_store_same.
        apply nth_error_Some. rewrite Hc. discriminate.
      * simpl. rewrite entries_put_same.
        destruct (Py.mem payload_eqb (One r) (entries operation (operations b))) eqn:E;
          [assumption|].
        apply (mem_In payload_eqb payload_eqb_eq). apply in_or_app. right. left.
        reflexivity.
Qed.

(** On names that are all resolved and queued, the loop changes
    nothing. *)
Lemma do_basic_loop_fixed (st : status_arg) (operation : string)
      (names : list string) (b : Builder) :
  (forall n, In n names -> handled st operation n b) ->
  for_each names
    (fun _name => conflict <- _mark_as_solved _name st ;;
                  _put_operation operation (One conflict)) b = Ok tt b.
Proof.
  induction names as [|n0 names IH]; intros Hall; [reflexivity|].
  cbn [for_each]. unfold bind at 1. unfold bind at 1. unfold _mark_as_solved.
  rewrite mark_as_find.
  destruct (Hall n0 (or_introl eq_refl)) as [r [Hf [Hs Hm]]]. rewrite Hf.
  rewrite put_operation_put. cbn [operations conflicts with_conflicts with_operations].
  rewrite (put_present _ _ _ Hm).
  unfold solved in Hs. destruct (nth_error (conflicts b) r) as [c|] eqn:Hc; [|discriminate].
  rewrite (store_solved_noop r true _ c Hc Hs).
  replace (with_operations (with_conflicts b (conflicts b)) (operations b)) with b
    by (destruct b; reflexivity).
  apply IH. intros n Hn. apply Hall. right. assumption.
Qed.

(** Whatever the selector, a call of [add_dimension] or
    [remove_dimension] that returned changes nothing when it is made
    again. *)
Lemma do_basic_idempotent (sel : string) (st : status_arg) (operation : string)
      (b b1 : Builder) :
  _do_basic sel st operation b = Ok tt b1 ->
  _do_basic sel st operation b1 = Ok tt b1.
Proof.
  unfold _do_basic, bind at 1, get_state. intros Hrun.
  destruct (do_basic_loop_marks st operation _ b b1 Hrun) as [He [_ Hall]].
  unfold bind at 1. rewrite (get_names_erase sel st b1 b He).
  apply do_basic_loop_fixed. assumption.
Qed.

Lemma store_solved_fixed (r : ref) (cs : list Conflict) :
  solved_in cs r = true -> store_solved r true cs = cs.
Proof.
  unfold solved_in. destruct (nth_error cs r) as [c|] eqn:E; [|discriminate].
  intros H. apply (store_solved_noop r true cs c E H).
Qed.

(** A call of [rename_dimension] that returned changes nothing when it
    is made again. *)
Lemma rename_idempotent (old new : string) (b b1 : Builder) :
  rename_dimension (old, new) b = Ok tt b1 ->
  rename_dimension (old, new) b1 = Ok tt b1.
Proof.
  rewrite !rename_find.
  destruct (find_conflict old (StatusStr "missing") b) as [o|] eqn:Eo; [|discriminate].
  destruct (find_conflict new (StatusStr "new") b) as [n|] eqn:En; [|discriminate].
  intros H. injection H as <-.
  destruct (find_index_Some _ _ _ Eo) as [co [Hco _]].
  destruct (find_index_Some _ _ _ En) as [cn [Hcn _]].
  assert (Hlo : o < List.length (conflicts b)) by (apply nth_error_Some; congruence).
  assert (Hln : n < List.length (conflicts b)) by (apply nth_error_Some; congruence).
  unfold find_conflict in *. cbn [conflicts operations].
  rewrite !store_solved_find by (intros x; reflexivity). rewrite Eo, En.
  set (cs1 := store_solved n true (store_solved o true (conflicts b))).
  assert (Ho1 : store_solved o true cs1 = cs1).
  { apply store_solved_fixed. unfold cs1. apply solved_in_store_true.
    apply solved_in_store_same. assumption. }
  assert (Hn1 : store_solved n true cs1 = cs1).
  { apply store_solved_fixed. unfold cs1. apply solved_in_store_same.
    rewrite store_solved_length. assumption. }
  rewrite Ho1, Hn1.
  rewrite (put_present "rename" (Two o n) (put "rename" (Two o n) (operations b)));
    [reflexivity|].
  rewrite entries_put_same.
  destruct (Py.mem payload_eqb (Two o n) (entries "rename" (operations b))) eqn:E;
    [assumption|].
  apply (mem_In payload_eqb payload_eqb_eq). apply in_or_app. right. left. reflexivity.
Qed.

(* ================================================================== *)
(** * Where the code parts from its description *)

(** A selector that expands to some name and is not itself the name of
    a conflict makes [reset_dimension] raise at the first turn. *)
Lemma reset_selector_raises (arg : string) (b : Builder) :
  _get_names arg (StatusList ["missing"; "new"; "changed"]) b <> [] ->
  has_conflict b arg (StatusList ["missing"; "new"; "changed"]) = false ->
  reset_dimension arg b = Raise ValueError b.
Proof.
  intros Hnames Hno. unfold reset_dimension, bind at 1, get_state.
  destruct (_get_names arg _ b) as [|n names]; [contradiction|].
  cbn [for_each]. unfold bind at 1. unfold bind at 1. rewrite mark_as_find.
  apply has_conflict_find in Hno. rewrite Hno. reflexivity.
Qed.

(** On a plain name that bears a conflict, [reset_dimension] does what
    is described: it succeeds, clears the flag and takes the conflict out
    of every list but the rename list; when no entry refers to the
    conflict, the entries of every kind stay as they were. *)
Lemma reset_literal_clears (b : Builder) (z st : string) (r : ref) :
  well_formed b = true ->
  is_literal z = true ->
  bears b z st r = true ->
  Py.mem String.eqb st ["missing"; "new"; "changed"] = true ->
  exists b',
    reset_dimension z b = Ok tt b' /\
    solved b' r = false /\
    (forall kind, kind <> "rename" ->
       Py.mem payload_eqb (One r) (entries kind (operations b')) = false) /\
    (unreferenced r (operations b) = true ->
     forall kind, entries kind (operations b') = entries kind (operations b)).
Proof.
  intros Hwf Hlit Hb Hst.
  pose proof Hwf as Hwf0. unfold well_formed in Hwf0.
  apply andb_true_iff in Hwf0. destruct Hwf0 as [Hnames Hledger].
  destruct (bears_nth _ _ _ _ Hb) as [c [Hc [Hnm Hs]]].
  assert (Hr : r < List.length (conflicts b)).
  { apply nth_error_Some. rewrite Hc. discriminate. }
  rewrite (reset_literal z b Hlit).
  rewrite (find_conflict_at b z _ r c Hwf Hc Hnm) by (rewrite Hs; exact Hst).
  unfold _remove_from_operations. cbn [conflicts operations with_conflicts].
  destruct (remove_loop_sound r (operations b) (store_solved r false (conflicts b))
              (ledger_ok_typed _ Hledger))
    as [ops' [cs' [Hrun [_ [_ [_ [_ [_ Hfl]]]]]]]].
  rewrite Hrun. eexists. split; [reflexivity|]. split; [|split].
  - unfold solved. simpl. apply Hfl. apply solved_in_store_same. assumption.
  - intros kind Hk. simpl operations.
    rewrite (remove_loop_others _ _ _ _ _ kind Hrun Hk).
    apply (mem_not_In payload_eqb payload_eqb_eq).
    apply (remove_first_not_In payload_eqb payload_eqb_eq).
    apply (nodupb_NoDup payload_eqb payload_eqb_eq).
    apply ledger_ok_entries. assumption.
  - intros Hun kind. simpl operations.
    rewrite remove_loop_unheld in Hrun;
      [| apply ledger_ok_typed; assumption | apply unreferenced_unheld; assumption].
    injection Hrun as <- _. rewrite entries_strip.
    destruct (String.eqb kind "rename"); [reflexivity|].
    apply (remove_first_absent payload_eqb payload_eqb_eq).
    apply unreferenced_absent. assumption.
Qed.

(** C5.  [reset_dimension] looks the whole selector up at every turn of
    its loop, not the expanded name.  With [x] new, resolved and queued,
    ["~new"] expands to [x], and the call raises on the name ["/~new"]:
    [x] stays resolved and queued. *)
Theorem reset_dimension_keyword_raises :
  _get_names "~new" (StatusList ["missing"; "new"; "changed"]) Examples.x_added = ["x"] /\
  solved Examples.x_added 0 = true /\
  entries "add" (operations Examples.x_added) = [One 0] /\
  reset_dimension "~new" Examples.x_added = Raise ValueError Examples.x_added /\
  reset_dimension "x*" Examples.x_added = Raise ValueError Examples.x_added.
Proof. repeat split. Qed.

(** Keywords and wildcards join the names gathered so far. *)
Lemma get_names_loop_concat (args names : list string) (st : status_arg) (b : Builder) :
  forallb (fun a => negb (plain a)) args = true ->
  get_names_loop args names st b = names ++ flat_map (fun a => expansion a st b) args.
Proof.
  revert names. induction args as [|a args IH]; intros names H; cbn [get_names_loop flat_map].
  - rewrite app_nil_r. reflexivity.
  - cbn [forallb] in H. apply andb_true_iff in H. destruct H as [Ha H].
    unfold plain in Ha. unfold expansion at 1.
    destruct (Py.has_key a special_keywords); [rewrite (IH _ H), app_assoc; reflexivity|].
    destruct (Py.contains "*" a); [rewrite (IH _ H), app_assoc; reflexivity|].
    discriminate.
Qed.

(** A plain name drops whatever came before it. *)
Lemma get_names_loop_plain (pre rest names : list string) (arg : string)
      (st : status_arg) (b : Builder) :
  plain arg = true ->
  get_names_loop (pre ++ arg :: rest) names st b = get_names_loop rest [arg] st b.
Proof.
  intros Hp. unfold plain in Hp. apply andb_true_iff in Hp.
  rewrite !negb_true_iff in Hp. destruct Hp as [Hk Hw].
  revert names. induction pre as [|a pre IH]; intros names; cbn [app get_names_loop].
  - rewrite Hk, Hw. reflexivity.
  - destruct (Py.has_key a special_keywords); [apply IH|].
    destruct (Py.contains "*" a); apply IH.
Qed.

(** The expansions are concatenated, as described, when no plain name
    comes after the first selector. *)
Lemma get_names_loop_head (a : string) (rest : list string)
      (st : status_arg) (b : Builder) :
  forallb (fun a => negb (plain a)) rest = true ->
  get_names_loop (a :: rest) [] st b = flat_map (fun a => expansion a st b) (a :: rest).
Proof.
  intros H. cbn [get_names_loop flat_map]. unfold expansion at 1.
  destruct (Py.has_key a special_keywords); [apply get_names_loop_concat; assumption|].
  destruct (Py.contains "*" a); apply get_names_loop_concat; assumption.
Qed.

(** C6.  A plain name in a selector list replaces the names gathered
    so far instead of joining them: ["a b"] expands to [b] alone, and
    ["~new lr"] loses the names of the new conflicts. *)
Theorem get_names_literal_overwrites :
  (forall st b, _get_names "a b" st b = ["b"]) /\
  (forall st, _get_names "~new" st Examples.lr_x_batch = ["x"]) /\
  (forall st, _get_names "~new lr" st Examples.lr_x_batch = ["lr"]) /\
  (forall arg rest names st b,
     is_literal arg = true ->
     get_names_loop (arg :: rest) names st b = get_names_loop rest [arg] st b).
Proof.
  split; [reflexivity|]. split; [reflexivity|]. split; [reflexivity|].
  intros arg rest names st b. unfold is_literal.
  rewrite !andb_true_iff, !negb_true_iff. intros [[_ Hk] Hw].
  cbn [get_names_loop]. rewrite Hk, Hw. reflexivity.
Qed.

Lemma index_first (a : string) (done todo : list string) :
  ~ In a done -> Py.index String.eqb a (done ++ a :: todo) = Some (List.length done).
Proof.
  induction done as [|d done IH]; simpl; intros H.
  - rewrite String.eqb_refl. reflexivity.
  - destruct (String.eqb d a) eqn:E.
    + apply String.eqb_eq in E. exfalso. apply H. left. assumption.
    + rewrite IH; [reflexivity|]. intros Hin. apply H. right. assumption.
Qed.

Lemma setitem_middle {A : Type} (v a : A) (done todo : list A) :
  Py.setitem (List.length done) v (done ++ a :: todo) = done ++ v :: todo.
Proof.
  induction done as [|d done IH]; simpl; [reflexivity|]. rewrite IH. reflexivity.
Qed.

(** One turn of the outer loop on an argument with at most one marker
    that no earlier position holds. *)
Lemma interpret_keywords_step (a : string) (done todo p m g : list string)
      (e c : Space) (cs : list Conflict) (ops : Py.dict (list payload)) :
  kinds a <= 1 ->
  (1 <= kinds a -> ~ In a done) ->
  for_each ["~+"; "~-"; "~>"] (interpret_keyword a)
    (mkBuilder (done ++ a :: todo) [("~+", p); ("~-", m); ("~>", g)] e c cs ops)
  = Ok tt
      (mkBuilder (done ++ rewritten a :: todo)
                 [("~+", p ++ buffered "~+" [a]);
                  ("~-", m ++ buffered "~-" [a]);
                  ("~>", g ++ buffered "~>" [a])] e c cs ops).
Proof.
  unfold kinds, rewritten, buffered. cbn [filter for_each].
  destruct (Py.contains "~+" a) eqn:Hp; destruct (Py.contains "~-" a) eqn:Hm;
    destruct (Py.contains "~>" a) eqn:Hg; cbn [Nat.b2n Nat.add]; intros Hk Hd;
    try lia; unfold bind, ret, interpret_keyword;
    cbn [commandline_keywords user_args with_commandline_keywords with_user_args];
    rewrite ?Hp, ?Hm, ?Hg.
  - cbn [Py.get Py.set String.eqb Ascii.eqb Bool.eqb].
    cbn [commandline_keywords user_args].
    rewrite (index_first a done todo) by (apply Hd; lia).
    unfold with_user_args, with_commandline_keywords.
    rewrite setitem_middle, !app_nil_r. reflexivity.
  - cbn [Py.get Py.set String.eqb Ascii.eqb Bool.eqb].
    cbn [commandline_keywords user_args].
    rewrite (index_first a done todo) by (apply Hd; lia).
    unfold with_user_args, with_commandline_keywords.
    rewrite setitem_middle, !app_nil_r. reflexivity.
  - cbn [Py.get Py.set String.eqb Ascii.eqb Bool.eqb].
    cbn [commandline_keywords user_args].
    rewrite (index_first a done todo) by (apply Hd; lia).
    unfold with_user_args, with_commandline_keywords.
    rewrite setitem_middle, !app_nil_r. reflexivity.
  - rewrite !app_nil_r. reflexivity.
Qed.

Lemma interpret_loop (todo orig p m g : list string)
      (e c : Space) (cs : list Conflict) (ops : Py.dict (list payload)) :
  (forall a, In a todo -> kinds a <= 1) ->
  (forall pre a post, todo = pre ++ a :: post -> 1 <= kinds a ->
                      ~ In a (map rewritten (orig ++ pre))) ->
  for_each (seq (List.length orig) (List.length todo)) interpret_arg
    (mkBuilder (map rewritten orig ++ todo) [("~+", p); ("~-", m); ("~>", g)] e c cs ops)
  = Ok tt
      (mkBuilder (map rewritten (orig ++ todo))
                 [("~+", p ++ buffered "~+" todo);
                  ("~-", m ++ buffered "~-" todo);
                  ("~>", g ++ buffered "~>" todo)] e c cs ops).
Proof.
  revert orig p m g. induction todo as [|a todo IH]; intros orig p m g Hk Hc.
  - cbn [List.length seq for_each]. unfold ret, buffered. cbn [filter].
    rewrite !app_nil_r. reflexivity.
  - cbn [List.length seq for_each]. unfold bind at 1. unfold interpret_arg at 1.
    cbn [user_args commandline_keywords Py.keys map fst].
    replace (nth_error (map rewritten orig ++ a :: todo) (List.length orig))
      with (Some a).
    2:{ rewrite nth_error_app2 by (rewrite length_map; lia).
        rewrite length_map, Nat.sub_diag. reflexivity. }
    rewrite interpret_keywords_step.
    + specialize (IH (orig ++ [a])
                     (p ++ buffered "~+" [a]) (m ++ buffered "~-" [a])
                     (g ++ buffered "~>" [a])).
      rewrite length_app, map_app in IH. cbn [List.length map] in IH.
      rewrite Nat.add_1_r, <- !app_assoc in IH. cbn [app] in IH.
      rewrite IH.
      * unfold buffered. cbn [filter].
        destruct (Py.contains "~+" a), (Py.contains "~-" a), (Py.contains "~>" a);
          cbn [app]; rewrite ?app_nil_r; reflexivity.
      * intros x Hx. apply Hk. right. assumption.
      * intros pre x post E Hx. rewrite <- app_assoc. cbn [app].
        apply (Hc (a :: pre) x post); [rewrite E; reflexivity | assumption].
    + apply Hk. left. reflexivity.
    + intros H1. specialize (Hc [] a todo eq_refl H1). rewrite app_nil_r in Hc.
      assumption.
Qed.

(** Apart from the lookup by value, [_interpret_commandline] does what
    is described.  When every argument carries at most one of the three
    markers and no argument with a marker equals an earlier argument once
    rewritten, the call succeeds, every argument is rewritten in place
    and every buffer gains, in order, the arguments that carry its
    marker. *)
Lemma interpret_commandline_rewrites (args p m g : list string)
      (e c : Space) (cs : list Conflict) (ops : Py.dict (list payload)) :
  (forall a, In a args -> kinds a <= 1) ->
  (forall pre a post, args = pre ++ a :: post -> 1 <= kinds a ->
                      ~ In a (map rewritten pre)) ->
  _interpret_commandline
    (mkBuilder args [("~+", p); ("~-", m); ("~>", g)] e c cs ops)
  = Ok tt
      (mkBuilder (map rewritten args)
                 [("~+", p ++ buffered "~+" args);
                  ("~-", m ++ buffered "~-" args);
                  ("~>", g ++ buffered "~>" args)] e c cs ops).
Proof.
  intros Hk Hc. unfold _interpret_commandline. cbn [user_args].
  apply (interpret_loop args [] p m g e c cs ops Hk). exact Hc.
Qed.

(** C8.  [_interpret_commandline] finds the argument to rewrite by its
    value.  Each of the two arguments below carries one marker; the
    first, rewritten, equals the second, so the second rewrite lands on
    the first argument again and the second argument keeps its marker.
    An argument with two markers makes the call raise. *)
Theorem interpret_commandline_by_value :
  markers "a~+>b" = 1 /\ markers "a~>b" = 1 /\
  (exists b',
     _interpret_commandline Examples.colliding_args = Ok tt b' /\
     user_args b' = ["a~b"; "a~>b"] /\
     commandline_keywords b' = [("~+", ["a~+>b"]); ("~-", []); ("~>", ["a~>b"])]) /\
  (exists b', _interpret_commandline Examples.two_markers = Raise ValueError b' /\
              user_args b' = ["x~~-"; "y~+1"]).
Proof.
  split; [reflexivity|]. split; [reflexivity|]. split.
  - eexists. split; [reflexivity|]. split; reflexivity.
  - eexists. split; reflexivity.
Qed.

(** C9.  [create_adaptors] fills its list and returns nothing: when it
    does not raise, its value is Python's [None]; the builder is left as
    it is in every case. *)
Theorem create_adaptors_returns_none :
  (forall b,
     match create_adaptors b with
     | Ok r b' => r = None /\ b' = b
     | Raise _ b' => b' = b
     end) /\
  entries "add" (operations Examples.x_added) = [One 0] /\
  adaptors_loop Examples.x_added (operations Examples.x_added) [] = (None, [tt]) /\
  create_adaptors Examples.x_added = Ok None Examples.x_added.
Proof.
  split; [|repeat split].
  intros b. unfold create_adaptors.
  destruct (adaptors_loop b (operations b) []) as [[e|] l]; auto.
Qed.

(* ================================================================== *)
(** * What the calls never touch *)

Lemma frame_refl (b : Builder) : frame b b.
Proof. unfold frame. auto. Qed.

Lemma frame_trans (b1 b2 b3 : Builder) : frame b1 b2 -> frame b2 b3 -> frame b1 b3.
Proof.
  unfold frame. intros [A1 [A2 [A3 [A4 A5]]]] [B1 [B2 [B3 [B4 B5]]]].
  repeat split; congruence.
Qed.

Lemma framed_ret {A : Type} (a : A) : framed (ret a).
Proof. intros b. apply frame_refl. Qed.

Lemma framed_raise {A : Type} (e : exn) : framed (@raise A e).
Proof. intros b. apply frame_refl. Qed.

Lemma framed_bind {A B : Type} (m : M A) (k : A -> M B) :
  framed m -> (forall a, framed (k a)) -> framed (bind m k).
Proof.
  intros Hm Hk b. unfold bind. specialize (Hm b).
  destruct (m b) as [a b'|e b']; simpl in *; [|assumption].
  apply (frame_trans b b'); [assumption | apply Hk].
Qed.

Lemma framed_for_each {A : Type} (l : list A) (body : A -> M unit) :
  (forall x, framed (body x)) -> framed (for_each l body).
Proof.
  intros Hbody. induction l as [|x l IH]; cbn [for_each].
  - apply framed_ret.
  - apply framed_bind; [apply Hbody | intros _; exact IH].
Qed.

Lemma framed_mark_as (nm : string) (st : status_arg) (v : bool) :
  framed (_mark_as nm st v).
Proof.
  intros b. rewrite mark_as_find. destruct (find_conflict nm st b); simpl.
  - unfold frame. simpl. repeat split; auto. apply store_solved_erase.
  - apply frame_refl.
Qed.

Lemma framed_put (kind : string) (p : payload) : framed (_put_operation kind p).
Proof.
  intros b. rewrite put_operation_put. unfold frame. simpl. auto.
Qed.

Lemma rename_loop_erase (fuel i : nat) (arg : ref) (l : list payload) (cs : list Conflict) :
  map erase (snd (snd (rename_loop fuel i arg l cs))) = map erase cs.
Proof.
  revert i l cs. induction fuel as [|fuel IH]; intros i l cs; cbn [rename_loop];
    [reflexivity|].
  destruct (nth_error l i) as [[c | old new]|]; try reflexivity.
  destruct (holds arg (Two old new)); rewrite IH; [|reflexivity].
  rewrite !store_solved_erase. reflexivity.
Qed.

Lemma remove_loop_erase (arg : ref) (ops : Py.dict (list payload)) (cs : list Conflict) :
  map erase (snd (snd (remove_loop arg ops cs))) = map erase cs.
Proof.
  revert cs. induction ops as [|[k l] ops IH]; intros cs; cbn [remove_loop];
    [reflexivity|].
  destruct (String.eqb k "rename").
  - pose proof (rename_loop_erase (List.length l) 0 arg l cs) as H.
    destruct (rename_loop (List.length l) 0 arg l cs) as [[e|] [l' cs']];
      simpl in H; [exact H|].
    specialize (IH cs'). destruct (remove_loop arg ops cs') as [r [rest' cs'']].
    simpl in *. congruence.
  - destruct (Py.mem payload_eqb (One arg) l).
    + specialize (IH (store_solved arg false cs)).
      destruct (remove_loop arg ops _) as [r [rest' cs'']]. simpl in *.
      rewrite IH. apply store_solved_erase.
    + specialize (IH cs). destruct (remove_loop arg ops cs) as [r [rest' cs'']].
      exact IH.
Qed.

Lemma framed_remove (arg : ref) : framed (_remove_from_operations arg).
Proof.
  intros b. unfold _remove_from_operations.
  pose proof (remove_loop_erase arg (operations b) (conflicts b)) as H.
  destruct (remove_loop arg (operations b) (conflicts b)) as [[e|] [ops cs]];
    simpl in H; unfold frame; simpl; auto.
Qed.

(** X4.  No call of the resolution API, returning or raising, touches
    the arguments, the command-line buffers or the two spaces, and none
    adds, drops, reorders or changes the dimension or the status of a
    conflict: only resolved flags and the ledger move. *)
Theorem calls_keep_conflicts (c : call) (b : Builder) :
  frame b (state_of (run c b)) /\
  List.length (conflicts (state_of (run c b))) = List.length (conflicts b).
Proof.
  assert (H : framed (run c)).
  { destruct c as [s | s | o n | s]; simpl.
    - unfold add_dimension, _do_basic. apply framed_bind; [intros b0; apply frame_refl|].
      intros b0. apply framed_for_each. intros x.
      apply framed_bind; [apply framed_mark_as | intros r; apply framed_put].
    - unfold remove_dimension, _do_basic. apply framed_bind; [intros b0; apply frame_refl|].
      intros b0. apply framed_for_each. intros x.
      apply framed_bind; [apply framed_mark_as | intros r; apply framed_put].
    - intros b0. rewrite rename_find.
      destruct (find_conflict o _ b0); [|apply frame_refl].
      destruct (find_conflict n _ b0); [|apply frame_refl].
      unfold frame. simpl. repeat split; auto. rewrite !store_solved_erase. reflexivity.
    - unfold reset_dimension. apply framed_bind; [intros b0; apply frame_refl|].
      intros b0. apply framed_for_each. intros x.
      apply framed_bind; [apply framed_mark_as | intros r; apply framed_remove]. }
  split; [apply H|].
  destruct (H b) as [_ [_ [_ [_ E]]]].
  rewrite <- (length_map erase), E, length_map. reflexivity.
Qed.

(* ================================================================== *)
(** * Statuses and flags against the ledger *)

Lemma keeps_ret {A : Type} (P : Builder -> Prop) (a : A) : keeps P (ret a).
Proof. intros b H. exact H. Qed.

Lemma keeps_bind {A B : Type} (P : Builder -> Prop) (m : M A) (k : A -> M B) :
  keeps P m -> (forall a, keeps P (k a)) -> keeps P (bind m k).
Proof.
  intros Hm Hk b Hb. unfold bind. specialize (Hm b Hb).
  destruct (m b) as [a b'|e b']; simpl in *; [apply Hk|]; assumption.
Qed.

Lemma keeps_for_each {A : Type} (P : Builder -> Prop) (l : list A) (body : A -> M unit) :
  (forall x, keeps P (body x)) -> keeps P (for_each l body).
Proof.
  intros Hbody. induction l as [|x l IH]; cbn [for_each].
  - apply keeps_ret.
  - apply keeps_bind; [apply Hbody | intros _; exact IH].
Qed.

Lemma status_at_erase (cs cs' : list Conflict) (r : ref) :
  map erase cs' = map erase cs -> status_at cs' r = status_at cs r.
Proof.
  intros E. pose proof (nth_error_erase _ _ r E) as H. unfold status_at.
  destruct (nth_error cs' r) as [c'|], (nth_error cs r) as [c|]; try discriminate;
    [|reflexivity].
  cbn [option_map] in H. unfold erase in H. injection H as _ H. exact H.
Qed.

Lemma payload_ok_erase (cs cs' : list Conflict) (kind : string) (p : payload) :
  map erase cs' = map erase cs -> payload_ok cs' kind p = payload_ok cs kind p.
Proof.
  intros E. destruct p; unfold payload_ok; rewrite ?(status_at_erase cs cs' _ E);
    reflexivity.
Qed.

Lemma statuses_erase (cs cs' : list Conflict) :
  map erase cs' = map erase cs ->
  (forall c, In c cs -> In (status c) ["new"; "changed"; "missing"]) ->
  forall c, In c cs' -> In (status c) ["new"; "changed"; "missing"].
Proof.
  intros E H c Hc. apply (in_map erase) in Hc. rewrite E in Hc.
  apply in_map_iff in Hc. destruct Hc as [c0 [E0 Hc0]].
  unfold erase in E0. injection E0 as _ <-. apply H. assumption.
Qed.

Lemma In_set_inv {V : Type} (k : string) (v : V) (d : Py.dict V) (kv : string * V) :
  In kv (Py.set k v d) -> kv = (k, v) \/ In kv d.
Proof.
  induction d as [|[k0 v0] d IH]; simpl.
  - intros [<- | []]. left. reflexivity.
  - destruct (String.eqb k k0) eqn:E; simpl.
    + apply String.eqb_eq in E. subst k0. intros [<- | H]; auto.
    + intros [<- | H]; [auto|]. destruct (IH H); auto.
Qed.

(** What [put] may add to the ledger: the payload, under its kind. *)
Lemma In_put_inv (kind : string) (p : payload) (ops : Py.dict (list payload))
      (kv : string * list payload) (q : payload) :
  In kv (put kind p ops) -> In q (snd kv) ->
  (fst kv = kind /\ q = p) \/ (exists l, In (fst kv, l) ops /\ In q l).
Proof.
  unfold put. intros Hkv Hq.
  assert (Hent : forall x, In x (entries kind ops) ->
                           exists l, In (kind, l) ops /\ In x l).
  { intros x Hx. unfold entries in Hx. destruct (Py.get kind ops) as [l|] eqn:E;
      [|contradiction]. exists l. split; [apply get_In|]; assumption. }
  destruct (Py.mem payload_eqb p (entries kind ops)).
  - destruct (Py.has_key kind ops).
    + right. exists (snd kv). destruct kv. auto.
    + apply In_set_inv in Hkv. destruct Hkv as [-> | Hkv]; [contradiction|].
      right. exists (snd kv). destruct kv. auto.
  - apply In_set_inv in Hkv. destruct Hkv as [-> | Hkv].
    + simpl in Hq. apply in_app_or in Hq. destruct Hq as [Hq | [<- | []]].
      * right. simpl. apply Hent. assumption.
      * left. auto.
    + right. exists (snd kv). destruct kv. auto.
Qed.

(** What [put] keeps: every payload stays under its kind. *)
Lemma unreferenced_set (r : ref) (k : string) (v : list payload)
      (ops : Py.dict (list payload)) :
  (forall q, In q (entries k ops) -> In q v) ->
  unreferenced r (Py.set k v ops) = true -> unreferenced r ops = true.
Proof.
  unfold unreferenced, entries. induction ops as [|[k0 l0] ops IH]; intros Hin; simpl.
  - reflexivity.
  - simpl in Hin. destruct (String.eqb k k0) eqn:E; simpl.
    + rewrite !andb_true_iff. intros [H1 H2]. split; [|assumption].
      rewrite forallb_forall in *. intros q Hq. apply H1. apply Hin. assumption.
    + rewrite !andb_true_iff. intros [H1 H2]. split; [assumption|].
      apply IH; assumption.
Qed.

Lemma unreferenced_put (r : ref) (kind : string) (p : payload)
      (ops : Py.dict (list payload)) :
  unreferenced r (put kind p ops) = true ->
  unreferenced r ops = true /\
  (refers r p = true -> False).
Proof.
  unfold put. intros H.
  destruct (Py.mem payload_eqb p (entries kind ops)) eqn:Em.
  - assert (Hu : unreferenced r ops = true).
    { destruct (Py.has_key kind ops) eqn:Hk; [assumption|].
      apply (unreferenced_set r kind [] ops); [|assumption].
      intros q Hq. unfold entries in Hq.
      apply has_key_false_get in Hk. rewrite Hk in Hq. contradiction. }
    split; [assumption|]. intros Hr.
    apply (mem_In payload_eqb payload_eqb_eq) in Em.
    pose proof (unreferenced_entries r kind ops Hu) as Hall.
    rewrite forallb_forall in Hall. apply Hall in Em. rewrite Hr in Em. discriminate.
  - split.
    + apply (unreferenced_set r kind (entries kind ops ++ [p]) ops); [|assumption].
      intros q Hq. apply in_or_app. left. assumption.
    + intros Hr. pose proof (unreferenced_entries r kind _ H) as Hall.
      unfold entries in Hall. rewrite get_set_same in Hall.
      rewrite forallb_app in Hall. apply andb_true_iff in Hall. destruct Hall as [_ Hall].
      simpl in Hall. rewrite Hr in Hall. discriminate.
Qed.

Lemma solved_in_store_false_inv (cs : list Conflict) (r x : ref) :
  solved_in (store_solved r false cs) x = true -> x <> r /\ solved_in cs x = true.
Proof.
  unfold solved_in. destruct (Nat.eq_dec x r) as [-> | Hne].
  - destruct (nth_error cs r) as [c|] eqn:E.
    + rewrite (store_solved_same r false cs c E). discriminate.
    + assert (Hn : nth_error (store_solved r false cs) r = None).
      { apply nth_error_None. rewrite store_solved_length. apply nth_error_None.
        assumption. }
      rewrite Hn. discriminate.
  - rewrite store_solved_other by assumption. auto.
Qed.

Lemma solved_in_store_true_inv (cs : list Conflict) (r x : ref) :
  solved_in (store_solved r true cs) x = true -> x = r \/ solved_in cs x = true.
Proof.
  destruct (Nat.eq_dec x r) as [-> | Hne]; [auto|].
  unfold solved_in. rewrite store_solved_other by assumption. auto.
Qed.

Lemma In_remove_first_other (p v : payload) (l : list payload) :
  In p l -> p <> v -> In p (Py.remove_first payload_eqb v l).
Proof.
  induction l as [|q l IH]; simpl; intros Hin Hne; [contradiction|].
  destruct (payload_eqb q v) eqn:E.
  - apply payload_eqb_eq in E. subst q. destruct Hin; [congruence | assumption].
  - simpl. destruct Hin; auto.
Qed.

(** The walk over the rename list, whatever the list holds: payloads are
    only taken away, flags only cleared, and a payload that refers to a
    conflict still resolved at the end was not taken away. *)
Lemma rename_loop_keeps (fuel i : nat) (arg : ref) (l : list payload)
      (cs : list Conflict) :
  let l' := fst (snd (rename_loop fuel i arg l cs)) in
  let cs' := snd (snd (rename_loop fuel i arg l cs)) in
  (forall p, In p l' -> In p l) /\
  (forall x, solved_in cs' x = true -> solved_in cs x = true) /\
  (forall x p, solved_in cs' x = true -> In p l -> refers x p = true -> In p l').
Proof.
  revert i l cs. induction fuel as [|fuel IH]; intros i l cs; cbn [rename_loop].
  - simpl. auto.
  - destruct (nth_error l i) as [[c | old new]|]; try (simpl; auto; fail).
    destruct (holds arg (Two old new)); [|apply IH].
    specialize (IH (S i) (Py.remove_first payload_eqb (Two old new) l)
                   (store_solved new false (store_solved old false cs))).
    cbv zeta in *. destruct IH as [I1 [I2 I3]]. split; [|split].
    + intros p Hp. apply (remove_first_In payload_eqb (Two old new)). auto.
    + intros x Hx. apply I2 in Hx. apply solved_in_store_false_inv in Hx.
      destruct Hx as [_ Hx]. apply solved_in_store_false_inv in Hx. tauto.
    + intros x p Hx Hp Hr. apply (I3 x p Hx); [|assumption].
      apply In_remove_first_other; [assumption|]. intros ->.
      apply I2 in Hx. apply solved_in_store_false_inv in Hx. destruct Hx as [Hn Hx].
      apply solved_in_store_false_inv in Hx. destruct Hx as [Ho _].
      simpl in Hr. apply orb_true_iff in Hr. rewrite !Nat.eqb_eq in Hr. tauto.
Qed.

(** The same for the whole ledger, kind by kind. *)
Lemma remove_loop_keeps (arg : ref) (ops : Py.dict (list payload)) (cs : list Conflict) :
  let ops' := fst (snd (remove_loop arg ops cs)) in
  let cs' := snd (snd (remove_loop arg ops cs)) in
  (forall kv p, In kv ops' -> In p (snd kv) ->
                exists l, In (fst kv, l) ops /\ In p l) /\
  (forall x, solved_in cs' x = true -> solved_in cs x = true) /\
  (forall x, solved_in cs' x = true -> unreferenced x ops' = true ->
             unreferenced x ops = true).
Proof.
  revert cs. induction ops as [|[k l] ops IH]; intros cs; cbn [remove_loop].
  - simpl. split; [intros kv p []|]. auto.
  - destruct (String.eqb k "rename").
    + pose proof (rename_loop_keeps (List.length l) 0 arg l cs) as HR.
      destruct (rename_loop (List.length l) 0 arg l cs) as [[e|] [l' cs1]];
        cbv zeta in HR; simpl in HR; destruct HR as [R1 [R2 R3]].
      * simpl. split; [|split].
        -- intros kv p [<- | Hkv] Hp; simpl in *.
           ++ exists l. auto.
           ++ exists (snd kv). destruct kv. auto.
        -- assumption.
        -- intros x Hx. unfold unreferenced. simpl. rewrite !andb_true_iff.
           intros [H1 H2]. split; [|assumption].
           rewrite forallb_forall in *. intros p Hp.
           destruct (refers x p) eqn:Er; [|reflexivity].
           specialize (H1 p (R3 x p Hx Hp Er)). rewrite Er in H1. discriminate.
      * specialize (IH cs1). destruct (remove_loop arg ops cs1) as [r [rest' cs2]].
        cbv zeta in IH. simpl in IH. destruct IH as [I1 [I2 I3]]. simpl.
        split; [|split].
        -- intros kv p [<- | Hkv] Hp; simpl in *.
           ++ exists l. auto.
           ++ destruct (I1 kv p Hkv Hp) as [l0 [H0 H0']]. exists l0. auto.
        -- auto.
        -- intros x Hx. unfold unreferenced. simpl. rewrite !andb_true_iff.
           intros [H1 H2]. split; [|apply (I3 x Hx H2)].
           rewrite forallb_forall in *. intros p Hp.
           destruct (refers x p) eqn:Er; [|reflexivity].
           specialize (H1 p (R3 x p (I2 x Hx) Hp Er)). rewrite Er in H1. discriminate.
    + destruct (Py.mem payload_eqb (One arg) l).
      * specialize (IH (store_solved arg false cs)).
        destruct (remove_loop arg ops _) as [r [rest' cs2]].
        cbv zeta in IH. simpl in IH. destruct IH as [I1 [I2 I3]]. simpl.
        split; [|split].
        -- intros kv p [<- | Hkv] Hp; simpl in *.
           ++ exists l. split; [auto|].
              apply (remove_first_In payload_eqb (One arg)). assumption.
           ++ destruct (I1 kv p Hkv Hp) as [l0 [H0 H0']]. exists l0. auto.
        -- intros x Hx. apply I2 in Hx. apply solved_in_store_false_inv in Hx. tauto.
        -- intros x Hx. unfold unreferenced. simpl. rewrite !andb_true_iff.
           intros [H1 H2]. split; [|apply (I3 x Hx H2)].
           rewrite forallb_forall in *. intros p Hp.
           destruct (refers x p) eqn:Er; [|reflexivity].
           assert (Hne : p <> One arg).
           { intros ->. apply I2 in Hx. apply solved_in_store_false_inv in Hx.
             simpl in Er. apply Nat.eqb_eq in Er. tauto. }
           specialize (H1 p (In_remove_first_other p (One arg) l Hp Hne)).
           rewrite Er in H1. discriminate.
      * specialize (IH cs). destruct (remove_loop arg ops cs) as [r [rest' cs2]].
        cbv zeta in IH. simpl in IH. destruct IH as [I1 [I2 I3]]. simpl.
        split; [|split].
        -- intros kv p [<- | Hkv] Hp; simpl in *.
           ++ exists l. auto.
           ++ destruct (I1 kv p Hkv Hp) as [l0 [H0 H0']]. exists l0. auto.
        -- auto.
        -- intros x Hx. unfold unreferenced. simpl. rewrite !andb_true_iff.
           intros [H1 H2]. split; [assumption | apply (I3 x Hx H2)].
Qed.

Lemma contains_status (s t : string) :
  In s ["new"; "changed"; "missing"] ->
  In t ["new"; "missing"] ->
  Py.contains s t = true -> s = t.
Proof.
  intros Hs Ht. simpl in Hs, Ht.
  destruct Hs as [<- | [<- | [<- | []]]]; destruct Ht as [<- | [<- | []]];
    vm_compute; intros H; try reflexivity; discriminate.
Qed.

Lemma status_at_nth (cs : list Conflict) (r : ref) (c : Conflict) :
  nth_error cs r = Some c -> status_at cs r = status c.
Proof. unfold status_at. intros ->. reflexivity. Qed.

Lemma coherent_detect (b : Builder) :
  built_space (experiment_space b) = true ->
  built_space (conflicting_space b) = true ->
  conflicts b = [] ->
  operations b = [] ->
  coherent (state_of (_find_conflicts b)).
Proof.
  intros Hexp Hcand Hnil Hops. split; [|split].
  - apply find_conflicts_well_formed; assumption.
  - destruct (find_conflicts_exact b Hexp Hcand Hnil) as [_ [_ [_ [Hall _]]]].
    split.
    + intros c Hc. destruct (Hall c Hc) as [_ [[-> _] | [[-> _] | [-> _]]]];
        simpl; auto.
    + simpl. rewrite Hops. intros kv p [].
  - intros r Hr. exfalso.
    destruct (find_conflicts_exact b Hexp Hcand Hnil) as [_ [_ [_ [Hall _]]]].
    unfold solved in Hr.
    destruct (nth_error (conflicts (state_of (_find_conflicts b))) r) as [c|] eqn:E;
      [|discriminate].
    apply nth_error_In in E. destruct (Hall c E) as [Hf _]. congruence.
Qed.

(** One turn of the loop of [_do_basic], for a kind that fits the
    statuses looked up. *)
Lemma coherent_do_basic_body (nm : string) (st : status_arg) (operation : string) :
  operation <> "rename" ->
  (forall cs r c, nth_error cs r = Some c -> status_in (status c) st = true ->
                  payload_ok cs operation (One r) = true) ->
  keeps coherent
    (conflict <- _mark_as_solved nm st ;; _put_operation operation (One conflict)).
Proof.
  intros Hop Hfit b [Hwf [Hso Hrq]]. pose proof Hso as [Hst Hled].
  assert (Hwf' : well_formed
                   (state_of ((conflict <- _mark_as_solved nm st ;;
                               _put_operation operation (One conflict)) b)) = true).
  { apply (preserves_bind (_mark_as_solved nm st)); [apply preserves_mark_as | | assumption].
    intros r. apply preserves_put. intros E. contradiction. }
  split; [exact Hwf'|]. clear Hwf'.
  unfold bind, _mark_as_solved. rewrite mark_as_find.
  destruct (find_conflict nm st b) as [r|] eqn:Ef; [|simpl; split; assumption].
  rewrite put_operation_put. cbn [state_of].
  destruct (find_index_Some _ _ _ Ef) as [c [Hc Hm]].
  unfold matches in Hm. apply andb_true_iff in Hm. destruct Hm as [Hm _].
  assert (E : map erase (store_solved r true (conflicts b)) = map erase (conflicts b))
    by apply store_solved_erase.
  split; [split|].
  - simpl. apply (statuses_erase _ _ E). assumption.
  - simpl. intros kv p Hkv Hp. rewrite (payload_ok_erase _ _ _ _ E).
    destruct (In_put_inv _ _ _ _ _ Hkv Hp) as [[-> ->] | [l [Hl Hpl]]].
    + apply (Hfit _ r c Hc Hm).
    + apply (Hled (fst kv, l) p Hl Hpl).
  - intros x Hx. unfold solved in Hx. simpl in Hx. simpl.
    destruct (unreferenced x (put operation (One r) (operations b))) eqn:Eu; [|reflexivity].
    apply unreferenced_put in Eu. destruct Eu as [Eu Hnr].
    apply solved_in_store_true_inv in Hx. destruct Hx as [-> | Hx].
    + exfalso. apply Hnr. simpl. apply Nat.eqb_refl.
    + specialize (Hrq x Hx). congruence.
Qed.

Lemma coherent_rename (args : string * string) : keeps coherent (rename_dimension args).
Proof.
  destruct args as [old new]. intros b [Hwf [Hso Hrq]]. pose proof Hso as [Hst Hled].
  split; [apply (preserves_run (CallRename old new)); assumption|].
  rewrite rename_find.
  destruct (find_conflict old (StatusStr "missing") b) as [o|] eqn:Eo;
    [|simpl; split; assumption].
  destruct (find_conflict new (StatusStr "new") b) as [n|] eqn:En;
    [|simpl; split; assumption].
  cbn [state_of].
  destruct (find_index_Some _ _ _ Eo) as [co [Hco Hmo]].
  destruct (find_index_Some _ _ _ En) as [cn [Hcn Hmn]].
  unfold matches in Hmo, Hmn. apply andb_true_iff in Hmo. apply andb_true_iff in Hmn.
  destruct Hmo as [Hmo _]. destruct Hmn as [Hmn _]. simpl in Hmo, Hmn.
  assert (E : map erase (store_solved n true (store_solved o true (conflicts b)))
              = map erase (conflicts b))
    by (rewrite !store_solved_erase; reflexivity).
  split; [split|].
  - simpl. apply (statuses_erase _ _ E). assumption.
  - simpl. intros kv p Hkv Hp. rewrite (payload_ok_erase _ _ _ _ E).
    destruct (In_put_inv _ _ _ _ _ Hkv Hp) as [[-> ->] | [l [Hl Hpl]]].
    + unfold payload_ok. rewrite (status_at_nth _ _ _ Hco), (status_at_nth _ _ _ Hcn).
      rewrite (contains_status (status co) "missing"), (contains_status (status cn) "new");
        try reflexivity; try assumption; try (simpl; auto; fail);
        apply Hst; eapply nth_error_In; eassumption.
    + apply (Hled (fst kv, l) p Hl Hpl).
  - intros x Hx. unfold solved in Hx. simpl in Hx. simpl.
    destruct (unreferenced x (put "rename" (Two o n) (operations b))) eqn:Eu;
      [|reflexivity].
    apply unreferenced_put in Eu. destruct Eu as [Eu Hnr].
    apply solved_in_store_true_inv in Hx. destruct Hx as [-> | Hx].
    + exfalso. apply Hnr. simpl. rewrite Nat.eqb_refl. apply orb_true_r.
    + apply solved_in_store_true_inv in Hx. destruct Hx as [-> | Hx].
      * exfalso. apply Hnr. simpl. rewrite Nat.eqb_refl. reflexivity.
      * specialize (Hrq x Hx). congruence.
Qed.

Lemma coherent_mark_unsolved (nm : string) (st : status_arg) :
  keeps coherent (_mark_as nm st false).
Proof.
  intros b [Hwf [Hso Hrq]]. pose proof Hso as [Hst Hled].
  split; [apply preserves_mark_as; assumption|].
  rewrite mark_as_find. destruct (find_conflict nm st b) as [r|];
    [|simpl; split; assumption].
  cbn [state_of].
  assert (E : map erase (store_solved r false (conflicts b)) = map erase (conflicts b))
    by apply store_solved_erase.
  split; [split|].
  - simpl. apply (statuses_erase _ _ E). assumption.
  - simpl. intros kv p Hkv Hp. rewrite (payload_ok_erase _ _ _ _ E). auto.
  - intros x Hx. unfold solved in Hx. simpl in Hx. simpl.
    apply solved_in_store_false_inv in Hx. apply Hrq. tauto.
Qed.

Lemma coherent_remove (arg : ref) : keeps coherent (_remove_from_operations arg).
Proof.
  intros b [Hwf [Hso Hrq]]. pose proof Hso as [Hst Hled].
  split; [apply preserves_remove; assumption|].
  unfold _remove_from_operations.
  pose proof (remove_loop_keeps arg (operations b) (conflicts b)) as HK.
  pose proof (remove_loop_erase arg (operations b) (conflicts b)) as E.
  destruct (remove_loop arg (operations b) (conflicts b)) as [r [ops' cs']].
  cbv zeta in HK. simpl in HK, E. destruct HK as [K1 [K2 K3]].
  assert (G : statuses_ok (with_operations (with_conflicts b cs') ops') /\
              resolved_queued (with_operations (with_conflicts b cs') ops')).
  { split; [split|].
    - simpl. apply (statuses_erase _ _ E). assumption.
    - simpl. intros kv p Hkv Hp. rewrite (payload_ok_erase _ _ _ _ E).
      destruct (K1 kv p Hkv Hp) as [l [Hl Hpl]]. apply (Hled (fst kv, l) p Hl Hpl).
    - intros x Hx. unfold solved in Hx. simpl in Hx. simpl.
      destruct (unreferenced x ops') eqn:Eu; [|reflexivity].
      specialize (Hrq x (K2 x Hx)). rewrite (K3 x Hx Eu) in Hrq. discriminate. }
  destruct r; exact G.
Qed.

Lemma coherent_run (c : call) : keeps coherent (run c).
Proof.
  destruct c as [s | s | o n | s]; simpl.
  - unfold add_dimension, _do_basic.
    apply keeps_bind; [intros b H; exact H|]. intros b0.
    apply keeps_for_each. intros x. apply coherent_do_basic_body; [discriminate|].
    intros cs r c Hc Hs. unfold payload_ok. rewrite (status_at_nth _ _ _ Hc).
    simpl in Hs. simpl. rewrite Hs. reflexivity.
  - unfold remove_dimension, _do_basic.
    apply keeps_bind; [intros b H; exact H|]. intros b0.
    apply keeps_for_each. intros x. apply coherent_do_basic_body; [discriminate|].
    intros cs r c Hc Hs. unfold payload_ok. rewrite (status_at_nth _ _ _ Hc).
    simpl in Hs. rewrite orb_false_r in Hs. simpl. rewrite Hs. reflexivity.
  - apply coherent_rename.
  - unfold reset_dimension.
    apply keeps_bind; [intros b H; exact H|]. intros b0.
    apply keeps_for_each. intros x.
    apply keeps_bind; [apply coherent_mark_unsolved | intros r; apply coherent_remove].
Qed.

Lemma reachable_coherent (b : Builder) : reachable b -> coherent b.
Proof.
  induction 1 as [b Hexp Hcand Hnil Hops | b c Hr IH].
  - apply coherent_detect; assumption.
  - apply coherent_run. assumption.
Qed.

Lemma a_reset_y_reachable : reachable Examples.a_reset_y.
Proof.
  apply (reach_call Examples.a_renamed_x_y (CallReset "y")).
  apply (reach_call Examples.a_renamed_x (CallRename "a" "y")).
  apply (reach_call Examples.a_x_y (CallRename "a" "x")).
  apply reach_detect; reflexivity.
Qed.

Lemma x_added_reachable : reachable Examples.x_added.
Proof.
  apply (reach_call Examples.only_x (CallAdd "x")). apply reach_detect; reflexivity.
Qed.

(** X1.  In every state a builder can reach, no two conflicts bear the
    same name, the ledger has each kind once and no list of the ledger
    holds a payload twice. *)
Theorem reachable_no_duplicates (b : Builder) (H : reachable b) :
  NoDup (conflict_names (conflicts b)) /\
  NoDup (Py.keys (operations b)) /\
  forall kind, NoDup (entries kind (operations b)).
Proof.
  pose proof (reachable_well_formed b H) as Hwf. unfold well_formed in Hwf.
  apply andb_true_iff in Hwf. destruct Hwf as [Hn Hl].
  split; [apply (nodupb_NoDup String.eqb String.eqb_eq); assumption|].
  split.
  - unfold ledger_ok in Hl. rewrite !andb_true_iff in Hl.
    apply (nodupb_NoDup String.eqb String.eqb_eq). tauto.
  - intros kind. apply (nodupb_NoDup payload_eqb payload_eqb_eq).
    apply ledger_ok_entries. assumption.
Qed.

Lemma reachable_no_duplicates_witness :
  reachable Examples.a_reset_y /\
  NoDup (conflict_names (conflicts Examples.a_reset_y)) /\
  NoDup (entries "rename" (operations Examples.a_reset_y)).
Proof.
  split; [exact a_reset_y_reachable|].
  destruct (reachable_no_duplicates Examples.a_reset_y a_reset_y_reachable)
    as [H1 [_ H3]].
  split; [exact H1 | exact (H3 "rename")].
Defined.

(** X2.  In every state a builder can reach, a payload of the ledger
    sits under the kind its conflicts call for: the add list holds single
    conflicts that are new or changed, the remove list single conflicts
    that are missing, the rename list tuples of a missing conflict and a
    new one, in this order; no other kind has an entry.  In particular
    the bare string that [rename_dimension] passes as status, which makes
    the status test a substring test, never lets a conflict of another
    status through. *)
Theorem reachable_ledger_statuses (b : Builder) (kind : string) (p : payload)
        (H : reachable b)
        (Hin : In p (entries kind (operations b))) :
  (kind = "add" /\ exists r, p = One r /\
     In (status_at (conflicts b) r) ["new"; "changed"]) \/
  (kind = "remove" /\ exists r, p = One r /\ status_at (conflicts b) r = "missing") \/
  (kind = "rename" /\ exists o n, p = Two o n /\
     status_at (conflicts b) o = "missing" /\ status_at (conflicts b) n = "new").
Proof.
  destruct (reachable_coherent b H) as [_ [[_ Hled] _]].
  assert (Hok : payload_ok (conflicts b) kind p = true).
  { unfold entries in Hin. destruct (Py.get kind (operations b)) as [l|] eqn:E;
      [|contradiction].
    apply (Hled (kind, l) p); [apply get_In|]; assumption. }
  unfold payload_ok in Hok. destruct p as [r | o n].
  - apply orb_true_iff in Hok. destruct Hok as [Hok | Hok];
      apply andb_true_iff in Hok; destruct Hok as [Hk Hs]; apply String.eqb_eq in Hk.
    + left. split; [assumption|]. exists r. split; [reflexivity|].
      apply (mem_In String.eqb String.eqb_eq). assumption.
    + right. left. split; [assumption|]. exists r. split; [reflexivity|].
      apply String.eqb_eq. assumption.
  - rewrite !andb_true_iff, !String.eqb_eq in Hok. destruct Hok as [[Hk Ho] Hn].
    right. right. split; [assumption|]. exists o, n. auto.
Qed.

Lemma reachable_ledger_statuses_witness :
  reachable Examples.a_reset_y /\
  In (Two 2 0) (entries "rename" (operations Examples.a_reset_y)) /\
  status_at (conflicts Examples.a_reset_y) 2 = "missing" /\
  status_at (conflicts Examples.a_reset_y) 0 = "new".
Proof.
  split; [exact a_reset_y_reachable|].
  assert (Hin : In (Two 2 0) (entries "rename" (operations Examples.a_reset_y)))
    by (left; reflexivity).
  split; [exact Hin|].
  destruct (reachable_ledger_statuses Examples.a_reset_y "rename" (Two 2 0)
              a_reset_y_reachable Hin)
    as [[E _] | [[E _] | [_ [o [n [E [Ho Hn]]]]]]]; try discriminate.
  injection E as <- <-. split; assumption.
Defined.

Lemma forallb_false_exists {A : Type} (f : A -> bool) (l : list A) :
  forallb f l = false -> exists x, In x l /\ f x = false.
Proof.
  induction l as [|x l IH]; simpl; [discriminate|].
  destruct (f x) eqn:E; simpl.
  - intros H. destruct (IH H) as [y [Hy Hf]]. exists y. auto.
  - intros _. exists x. auto.
Qed.

Lemma filter_from_In (f : Conflict -> bool) (i : ref) (cs : list Conflict) (r : ref) :
  In r (filter_from f i cs) <->
  i <= r /\ exists c, nth_error cs (r - i) = Some c /\ f c = true.
Proof.
  revert i. induction cs as [|c cs IH]; intros i; cbn [filter_from].
  - split; [intros [] | intros [_ [c [H _]]]]. destruct (r - i); discriminate.
  - assert (Hrec : In r (filter_from f (S i) cs) <->
                   i < r /\ exists c0, nth_error (c :: cs) (r - i) = Some c0 /\ f c0 = true).
    { rewrite IH. split.
      - intros [Hle [c0 [Hn Hf]]]. split; [lia|]. exists c0. split; [|assumption].
        replace (r - i) with (S (r - S i)) by lia. exact Hn.
      - intros [Hlt [c0 [Hn Hf]]]. split; [lia|]. exists c0. split; [|assumption].
        replace (r - i) with (S (r - S i)) in Hn by lia. exact Hn. }
    destruct (f c) eqn:Ef.
    + cbn [In]. rewrite Hrec. split.
      * intros [<- | [Hlt Hc]].
        -- split; [lia|]. exists c. rewrite Nat.sub_diag. auto.
        -- split; [lia | exact Hc].
      * intros [Hle Hc]. destruct (Nat.eq_dec i r) as [E | E]; [left; exact E|].
        right. split; [lia | exact Hc].
    + rewrite Hrec. split.
      * intros [Hlt Hc]. split; [lia | exact Hc].
      * intros [Hle [c0 [Hn Hf]]]. split; [|exists c0; auto].
        destruct (Nat.eq_dec i r) as [E | E]; [|lia]. subst r.
        rewrite Nat.sub_diag in Hn. simpl in Hn. injection Hn as <-. congruence.
Qed.

(** X3.  In every state a builder can reach, each conflict that
    [filter_conflicts_with_solved_state(True)] returns, that is each
    resolved conflict, is referred to by some entry of the ledger: no
    call leaves a conflict marked resolved without the operation that
    resolves it. *)
Theorem resolved_conflicts_are_queued (b : Builder) (r : ref)
        (H : reachable b)
        (Hr : In r (filter_conflicts_with_solved_state true b)) :
  solved b r = true /\
  exists kind p, In p (entries kind (operations b)) /\ refers r p = true.
Proof.
  assert (Hs : solved b r = true).
  { unfold filter_conflicts_with_solved_state, filter_conflicts in Hr.
    apply filter_from_In in Hr. destruct Hr as [_ [c [Hc Hf]]].
    rewrite Nat.sub_0_r in Hc. unfold solved. rewrite Hc.
    destruct (is_solved c); [reflexivity | discriminate]. }
  split; [exact Hs|].
  destruct (reachable_coherent b H) as [Hwf [_ Hrq]].
  specialize (Hrq r Hs). unfold unreferenced in Hrq.
  apply forallb_false_exists in Hrq. destruct Hrq as [[k l] [Hkv Hf]].
  apply forallb_false_exists in Hf. destruct Hf as [p [Hp Hf]].
  apply negb_false_iff in Hf. exists k, p. split; [|exact Hf].
  unfold well_formed, ledger_ok in Hwf. rewrite !andb_true_iff in Hwf.
  destruct Hwf as [_ [[Hk _] _]].
  apply (nodupb_NoDup String.eqb String.eqb_eq) in Hk.
  unfold entries. rewrite (In_get k l (operations b) Hk Hkv). exact Hp.
Qed.

Lemma resolved_conflicts_are_queued_witness :
  reachable Examples.a_reset_y /\
  filter_conflicts_with_solved_state true Examples.a_reset_y = [0] /\
  exists kind p,
    In p (entries kind (operations Examples.a_reset_y)) /\ refers 0 p = true.
Proof.
  split; [exact a_reset_y_reachable|]. split; [reflexivity|].
  apply (resolved_conflicts_are_queued Examples.a_reset_y 0 a_reset_y_reachable).
  left. reflexivity.
Defined.

(* ================================================================== *)
(** * What [add_dimension] and [remove_dimension] do, for any selector *)

Lemma for_each_app {A : Type} (l1 l2 : list A) (body : A -> M unit) (b : Builder) :
  for_each (l1 ++ l2) body b =
  match for_each l1 body b with
  | Ok _ b' => for_each l2 body b'
  | Raise e b' => Raise e b'
  end.
Proof.
  revert b. induction l1 as [|x l1 IH]; intros b; cbn [app for_each].
  - reflexivity.
  - unfold bind. destruct (body x b) as [[] b'|e b']; [apply IH | reflexivity].
Qed.

Lemma find_index_erase (g : Conflict -> bool) (cs cs' : list Conflict) :
  (forall c c', dimension c = dimension c' -> status c = status c' -> g c = g c') ->
  map erase cs = map erase cs' ->
  find_index g cs = find_index g cs'.
Proof.
  intros Hg. revert cs'. induction cs as [|c cs IH]; intros [|c' cs'] E;
    try discriminate; [reflexivity|].
  cbn [map] in E. injection E as Ed Es E. cbn [find_index].
  rewrite (Hg c c' Ed Es), (IH cs' E). reflexivity.
Qed.

Lemma find_conflict_erase (nm : string) (st : status_arg) (b b' : Builder) :
  map erase (conflicts b) = map erase (conflicts b') ->
  find_conflict nm st b = find_conflict nm st b'.
Proof.
  intros E. unfold find_conflict. apply find_index_erase; [|assumption].
  intros c c' Ed Es. unfold matches. rewrite Ed, Es. reflexivity.
Qed.

Lemma has_conflict_erase (nm : string) (st : status_arg) (b b' : Builder) :
  map erase (conflicts b) = map erase (conflicts b') ->
  has_conflict b nm st = has_conflict b' nm st.
Proof.
  intros E. pose proof (find_conflict_erase nm st b b' E) as H.
  destruct (has_conflict b nm st) eqn:E1, (has_conflict b' nm st) eqn:E2;
    try reflexivity.
  - apply has_conflict_find in E2. rewrite <- H in E2.
    apply has_conflict_find in E2. congruence.
  - apply has_conflict_find in E1. rewrite H in E1.
    apply has_conflict_find in E1. congruence.
Qed.

(** The loop returns when every name has its conflict. *)
Lemma do_basic_loop_ok (st : status_arg) (operation : string)
      (names : list string) (b : Builder) :
  (forall n, In n names -> has_conflict b n st = true) ->
  exists b1,
    for_each names
      (fun _name => conflict <- _mark_as_solved _name st ;;
                    _put_operation operation (One conflict)) b = Ok tt b1.
Proof.
  revert b. induction names as [|n0 names IH]; intros b Hall.
  - exists b. reflexivity.
  - cbn [for_each]. unfold bind at 1. unfold bind at 1. unfold _mark_as_solved.
    rewrite mark_as_find.
    destruct (find_conflict n0 st b) as [r|] eqn:Ef.
    + rewrite put_operation_put. apply IH. intros n Hn.
      rewrite <- (Hall n (or_intror Hn)). apply has_conflict_erase.
      simpl. apply store_solved_erase.
    + apply has_conflict_find in Ef. rewrite (Hall n0 (or_introl eq_refl)) in Ef.
      discriminate.
Qed.

(** What a run of the loop that returned may have changed. *)
Lemma do_basic_loop_only (st : status_arg) (operation : string)
      (names : list string) (b b1 : Builder) :
  for_each names
    (fun _name => conflict <- _mark_as_solved _name st ;;
                  _put_operation operation (One conflict)) b = Ok tt b1 ->
  (forall r, solved b1 r = true ->
             solved b r = true \/
             exists n, In n names /\ find_conflict n st b = Some r) /\
  (forall k, k <> operation ->
             entries k (operations b1) = entries k (operations b)) /\
  (forall p, In p (entries operation (operations b1)) ->
             In p (entries operation (operations b)) \/
             exists n r, In n names /\ find_conflict n st b = Some r /\ p = One r) /\
  (forall p, In p (entries operation (operations b)) ->
             In p (entries operation (operations b1))).
Proof.
  revert b. induction names as [|n0 names IH]; intros b Hrun.
  - cbn [for_each] in Hrun. injection Hrun as <-. repeat split; auto.
  - cbn [for_each] in Hrun. unfold bind at 1 in Hrun. unfold bind at 1 in Hrun.
    unfold _mark_as_solved in Hrun. rewrite mark_as_find in Hrun.
    destruct (find_conflict n0 st b) as [r0|] eqn:Ef; [|discriminate].
    rewrite put_operation_put in Hrun.
    destruct (IH _ Hrun) as [I1 [I2 [I3 I4]]]. clear IH.
    assert (Hfc : forall n, find_conflict n st
                   (with_operations
                      (with_conflicts b (store_solved r0 true (conflicts b)))
                      (put operation (One r0)
                         (operations
                            (with_conflicts b (store_solved r0 true (conflicts b))))))
                  = find_conflict n st b).
    { intros n. apply find_conflict_erase. simpl. apply store_solved_erase. }
    split; [|split; [|split]].
    + intros r Hr. destruct (I1 r Hr) as [Hs | [n [Hn Hf]]].
      * unfold solved in Hs. simpl in Hs. apply solved_in_store_true_inv in Hs.
        destruct Hs as [-> | Hs]; [|left; exact Hs].
        right. exists n0. split; [left; reflexivity | assumption].
      * right. exists n. rewrite Hfc in Hf. split; [right|]; assumption.
    + intros k Hk. rewrite (I2 k Hk). simpl. apply entries_put_other. assumption.
    + intros p Hp. destruct (I3 p Hp) as [Hin | [n [r [Hn [Hf ->]]]]].
      * simpl in Hin. rewrite entries_put_same in Hin.
        destruct (Py.mem payload_eqb (One r0) (entries operation (operations b)));
          [left; assumption|].
        apply in_app_or in Hin. destruct Hin as [Hin | [<- | []]]; [left; assumption|].
        right. exists n0, r0. split; [left; reflexivity|]. split; [assumption | reflexivity].
      * right. exists n, r. rewrite Hfc in Hf. split; [right; assumption|].
        split; [assumption | reflexivity].
    + intros p Hp. apply I4. simpl. rewrite entries_put_same.
      destruct (Py.mem payload_eqb (One r0) (entries operation (operations b)));
        [assumption|]. apply in_or_app. left. assumption.
Qed.

(** X5.  [add_dimension] returns exactly when every name its selector
    expands to has a conflict that is new or changed, and
    [remove_dimension] exactly when every such name has a missing
    conflict; otherwise the call raises. *)
Theorem do_basic_returns_iff (sel : string) (st : status_arg) (operation : string)
        (b : Builder) :
  (exists b1, _do_basic sel st operation b = Ok tt b1) <->
  (forall n, In n (_get_names sel st b) -> has_conflict b n st = true).
Proof.
  unfold _do_basic, bind at 1, get_state. split.
  - intros [b1 Hrun] n Hn.
    destruct (has_conflict b n st) eqn:E; [reflexivity|].
    destruct (do_basic_loop_raises st operation _ b n Hn E) as [b' Hr].
    rewrite Hr in Hrun. discriminate.
  - apply do_basic_loop_ok.
Qed.

Lemma do_basic_returns_iff_witness :
  (exists b1, add_dimension "~new ~changed" Examples.lr_x_batch = Ok tt b1) /\
  ~ (exists b1, add_dimension "~new ~missing" Examples.lr_x_batch = Ok tt b1).
Proof.
  split.
  - apply (proj2 (do_basic_returns_iff "~new ~changed" (StatusList ["new"; "changed"])
                    "add" Examples.lr_x_batch)).
    intros n [<- | [<- | []]]; reflexivity.
  - intros H.
    pose proof (proj1 (do_basic_returns_iff "~new ~missing" (StatusList ["new"; "changed"])
                         "add" Examples.lr_x_batch) H "batch") as Hb.
    assert (Hin : In "batch" (_get_names "~new ~missing" (StatusList ["new"; "changed"])
                                Examples.lr_x_batch)) by (right; left; reflexivity).
    specialize (Hb Hin). discriminate.
Defined.

(** X6.  When [add_dimension] or [remove_dimension] returns, every
    name of the expansion has its conflict resolved and queued under the
    kind of the call, and nothing else moved: a conflict resolved
    afterwards was resolved before or is one of those looked up, the
    lists of the other kinds are as they were, and the list of the kind
    kept its entries and gained only the conflicts looked up. *)
Theorem do_basic_effect (sel : string) (st : status_arg) (operation : string)
        (b b1 : Builder)
        (Hrun : _do_basic sel st operation b = Ok tt b1) :
  let names := _get_names sel st b in
  (forall n, In n names -> handled st operation n b1) /\
  (forall r, solved b1 r = true ->
             solved b r = true \/
             exists n, In n names /\ find_conflict n st b = Some r) /\
  (forall k, k <> operation ->
             entries k (operations b1) = entries k (operations b)) /\
  (forall p, In p (entries operation (operations b1)) ->
             In p (entries operation (operations b)) \/
             exists n r, In n names /\ find_conflict n st b = Some r /\ p = One r) /\
  (forall p, In p (entries operation (operations b)) ->
             In p (entries operation (operations b1))).
Proof.
  unfold _do_basic, bind at 1, get_state in Hrun. cbv zeta.
  destruct (do_basic_loop_marks st operation _ b b1 Hrun) as [_ [_ Hall]].
  destruct (do_basic_loop_only st operation _ b b1 Hrun) as [H1 [H2 [H3 H4]]].
  auto.
Qed.

Lemma do_basic_effect_witness :
  exists b1,
    remove_dimension "batch" Examples.lr_x_batch = Ok tt b1 /\
    handled (StatusList ["missing"]) "remove" "batch" b1 /\
    entries "add" (operations b1) = entries "add" (operations Examples.lr_x_batch).
Proof.
  eexists. split; [reflexivity|].
  match goal with
  | |- handled _ _ _ ?b1 /\ _ =>
      destruct (do_basic_effect "batch" (StatusList ["missing"]) "remove"
                  Examples.lr_x_batch b1 eq_refl) as [H1 [_ [H3 _]]]
  end.
  split.
  - apply H1. left. reflexivity.
  - apply H3. discriminate.
Defined.

(** X7.  A raise does not undo what was done: when the expansion reads
    [pre ++ n :: post], every name of [pre] has its conflict and [n] has
    none, the call raises at [n] with the conflicts of [pre] resolved and
    queued. *)
Theorem do_basic_partial (sel : string) (st : status_arg) (operation : string)
        (b : Builder) (pre post : list string) (n : string)
        (Hnames : _get_names sel st b = pre ++ n :: post)
        (Hpre : forall m, In m pre -> has_conflict b m st = true)
        (Hn : has_conflict b n st = false) :
  exists b',
    _do_basic sel st operation b = Raise ValueError b' /\
    (forall m, In m pre -> handled st operation m b') /\
    (forall r, solved b' r = true ->
               solved b r = true \/
               exists m, In m pre /\ find_conflict m st b = Some r).
Proof.
  unfold _do_basic, bind at 1, get_state. rewrite Hnames, for_each_app.
  destruct (do_basic_loop_ok st operation pre b Hpre) as [b' Hok]. rewrite Hok.
  destruct (do_basic_loop_marks st operation pre b b' Hok) as [He [_ Hall]].
  destruct (do_basic_loop_only st operation pre b b' Hok) as [H1 _].
  exists b'. split; [|split; assumption].
  cbn [for_each]. unfold bind at 1. unfold bind at 1. unfold _mark_as_solved.
  rewrite mark_as_find.
  rewrite (has_conflict_erase n st b b') in Hn by (symmetry; exact He).
  apply has_conflict_find in Hn. rewrite Hn. reflexivity.
Qed.

Lemma do_basic_partial_witness :
  exists b',
    add_dimension "~new ~missing" Examples.lr_x_batch = Raise ValueError b' /\
    handled (StatusList ["new"; "changed"]) "add" "x" b'.
Proof.
  destruct (do_basic_partial "~new ~missing" (StatusList ["new"; "changed"]) "add"
              Examples.lr_x_batch ["x"] [] "batch" eq_refl)
    as [b' [H1 [H2 _]]].
  - intros m [<- | []]. reflexivity.
  - reflexivity.
  - exists b'. split; [exact H1|]. apply H2. left. reflexivity.
Defined.

(** X8.  A call of [add_dimension], [remove_dimension] or
    [rename_dimension] that returned changes nothing when it is made
    again with the same argument, whatever the selector. *)
Theorem resolution_call_twice (c : call) (b b1 : Builder)
        (Hc : match c with CallReset _ => False | _ => True end)
        (Hrun : run c b = Ok tt b1) :
  run c b1 = Ok tt b1.
Proof.
  destruct c as [s | s | o n | s]; simpl in *.
  - apply (do_basic_idempotent _ _ _ b). assumption.
  - apply (do_basic_idempotent _ _ _ b). assumption.
  - apply (rename_idempotent _ _ b). assumption.
  - contradiction.
Qed.

Lemma resolution_call_twice_witness :
  run (CallAdd "~new ~changed") Examples.lr_x_batch
  = Ok tt (state_of (run (CallAdd "~new ~changed") Examples.lr_x_batch)) /\
  run (CallAdd "~new ~changed")
      (state_of (run (CallAdd "~new ~changed") Examples.lr_x_batch))
  = Ok tt (state_of (run (CallAdd "~new ~changed") Examples.lr_x_batch)).
Proof.
  split; [reflexivity|].
  apply (resolution_call_twice (CallAdd "~new ~changed") Examples.lr_x_batch _ I).
  reflexivity.
Defined.

(* ================================================================== *)
(** * Looking a conflict up by name *)

Lemma index_names_find (p : string) (cs : list Conflict) :
  Py.index String.eqb p (map (fun c => name (dimension c)) cs) =
  find_index (fun c => String.eqb (name (dimension c)) p) cs.
Proof.
  induction cs as [|c cs IH]; simpl; [reflexivity|].
  rewrite IH. reflexivity.
Qed.

Lemma find_name_unique (p : string) (cs : list Conflict) (r : ref) (c : Conflict) :
  NoDup (conflict_names cs) ->
  nth_error cs r = Some c ->
  name (dimension c) = p ->
  find_index (fun c => String.eqb (name (dimension c)) p) cs = Some r.
Proof.
  revert r. induction cs as [|c0 cs IH]; intros [|r] Hnd Hr Hp;
    cbn [find_index nth_error] in *; try discriminate.
  - injection Hr as ->. rewrite Hp, String.eqb_refl. reflexivity.
  - unfold conflict_names in Hnd. cbn [map] in Hnd. inversion Hnd; subst.
    destruct (String.eqb (name (dimension c0)) (name (dimension c))) eqn:E.
    + exfalso. apply H1. apply String.eqb_eq in E. rewrite E.
      apply (in_map (fun x => name (dimension x))).
      apply nth_error_In in Hr. assumption.
    + rewrite (IH r H2 Hr eq_refl). reflexivity.
Qed.

(** X9.  In a state that satisfies the invariant of the reachable
    states, [get_dimension_conflict(name)] returns the very conflict that
    the resolution calls find for that name, whatever statuses they look
    among, and leaves the builder as it is; when no conflict bears the
    name it raises [ValueError]. *)
Theorem get_dimension_conflict_agrees (b : Builder) (nm : string) :
  (well_formed b = true ->
   forall st r, find_conflict nm st b = Some r ->
                get_dimension_conflict nm b = Ok r b) /\
  ((forall c, In c (conflicts b) -> name (dimension c) <> ("/" ++ nm)%string) ->
   get_dimension_conflict nm b = Raise ValueError b) /\
  (forall r b', get_dimension_conflict nm b = Ok r b' ->
                b' = b /\ bears b nm (status_at (conflicts b) r) r = true).
Proof.
  unfold get_dimension_conflict. cbv zeta. rewrite index_names_find.
  split; [|split].
  - intros Hwf st r Hf. unfold well_formed in Hwf. apply andb_true_iff in Hwf.
    destruct Hwf as [Hn _]. apply (nodupb_NoDup String.eqb String.eqb_eq) in Hn.
    destruct (find_index_Some _ _ _ Hf) as [c [Hc Hm]].
    unfold matches in Hm. apply andb_true_iff in Hm. destruct Hm as [_ Hm].
    apply String.eqb_eq in Hm.
    rewrite (find_name_unique _ _ r c Hn Hc Hm), Hc. reflexivity.
  - intros Hno.
    destruct (find_index _ (conflicts b)) as [r|] eqn:E; [|reflexivity].
    destruct (find_index_Some _ _ _ E) as [c [Hc Hm]]. apply String.eqb_eq in Hm.
    exfalso. apply (Hno c); [eapply nth_error_In; eassumption | assumption].
  - intros r b' H.
    destruct (find_index _ (conflicts b)) as [r0|] eqn:E; [|discriminate].
    destruct (find_index_Some _ _ _ E) as [c [Hc Hm]]. rewrite Hc in H.
    injection H as <- <-. split; [reflexivity|].
    unfold bears, status_at. rewrite Hc, Hm, String.eqb_refl. reflexivity.
Qed.

Lemma get_dimension_conflict_agrees_witness :
  well_formed Examples.lr_x_batch = true /\
  find_conflict "batch" (StatusList ["missing"]) Examples.lr_x_batch = Some 2 /\
  get_dimension_conflict "batch" Examples.lr_x_batch = Ok 2 Examples.lr_x_batch /\
  get_dimension_conflict "momentum" Examples.lr_x_batch
  = Raise ValueError Examples.lr_x_batch.
Proof.
  split; [reflexivity|]. split; [reflexivity|].
  destruct (get_dimension_conflict_agrees Examples.lr_x_batch "batch") as [H1 _].
  destruct (get_dimension_conflict_agrees Examples.lr_x_batch "momentum") as [_ [H2 _]].
  split.
  - apply (H1 eq_refl (StatusList ["missing"]) 2). reflexivity.
  - apply H2. intros c [<- | [<- | [<- | []]]]; discriminate.
Defined.

(* ================================================================== *)
(** * Renaming: all or nothing *)

(** X10.  [rename_dimension] looks both names up before it changes
    anything: it returns exactly when the old name has a missing conflict
    and the new name a new one, and when it raises, the exception is
    [ValueError] and the builder is as it was. *)
Theorem rename_all_or_nothing (old new : string) (b : Builder) :
  ((exists b1, rename_dimension (old, new) b = Ok tt b1) <->
   has_conflict b old (StatusStr "missing") = true /\
   has_conflict b new (StatusStr "new") = true) /\
  (forall e b', rename_dimension (old, new) b = Raise e b' ->
                e = ValueError /\ b' = b).
Proof.
  rewrite rename_find.
  destruct (find_conflict old (StatusStr "missing") b) as [o|] eqn:Eo.
  - destruct (find_conflict new (StatusStr "new") b) as [n|] eqn:En.
    + split; [|intros e b' H; discriminate].
      split; [|intros _; eexists; reflexivity]. intros _.
      split.
      * destruct (has_conflict b old (StatusStr "missing")) eqn:E; [reflexivity|].
        apply has_conflict_find in E. congruence.
      * destruct (has_conflict b new (StatusStr "new")) eqn:E; [reflexivity|].
        apply has_conflict_find in E. congruence.
    + apply has_conflict_find in En. split.
      * split; [intros [b1 H]; discriminate | intros [_ H]; congruence].
      * intros e b' H. injection H as <- <-. auto.
  - apply has_conflict_find in Eo. split.
    + split; [intros [b1 H]; discriminate | intros [H _]; congruence].
    + intros e b' H. injection H as <- <-. auto.
Qed.

Lemma rename_all_or_nothing_witness :
  (exists b1, rename_dimension ("batch", "x") Examples.lr_x_batch = Ok tt b1) /\
  rename_dimension ("lr", "x") Examples.lr_x_batch = Raise ValueError Examples.lr_x_batch.
Proof.
  destruct (rename_all_or_nothing "batch" "x" Examples.lr_x_batch) as [H1 _].
  destruct (rename_all_or_nothing "lr" "x" Examples.lr_x_batch) as [_ H2].
  split.
  - apply H1. split; reflexivity.
  - destruct (H2 ValueError Examples.lr_x_batch eq_refl) as [_ _]. reflexivity.
Defined.

(* ================================================================== *)
(** * Resetting a plain name, again *)

(** X11.  In a state that satisfies the invariant of the reachable
    states, [reset_dimension] on a plain name that bears a conflict of any
    of the three statuses returns, leaves the conflict unresolved and
    takes it out of the add and remove lists; when no entry of the ledger
    referred to the conflict, every kind keeps its entries. *)
Theorem reset_plain_name (b : Builder) (z st : string) (r : ref)
        (Hwf : well_formed b = true)
        (Hlit : is_literal z = true)
        (Hb : bears b z st r = true)
        (Hst : Py.mem String.eqb st ["missing"; "new"; "changed"] = true) :
  exists b',
    reset_dimension z b = Ok tt b' /\
    frame b b' /\
    solved b' r = false /\
    (forall kind, kind <> "rename" ->
       Py.mem payload_eqb (One r) (entries kind (operations b')) = false) /\
    (unreferenced r (operations b) = true ->
     forall kind, entries kind (operations b') = entries kind (operations b)).
Proof.
  destruct (reset_literal_clears b z st r Hwf Hlit Hb Hst) as [b' [H1 [H2 [H3 H4]]]].
  exists b'. split; [exact H1|]. split; [|auto].
  assert (HF : framed (reset_dimension z)).
  { unfold reset_dimension. apply framed_bind; [intros b0; apply frame_refl|].
    intros b0. apply framed_for_each. intros x.
    apply framed_bind; [apply framed_mark_as | intros r0; apply framed_remove]. }
  specialize (HF b). rewrite H1 in HF. exact HF.
Qed.

Lemma reset_plain_name_witness :
  well_formed Examples.x_added = true /\
  is_literal "x" = true /\
  bears Examples.x_added "x" "new" 0 = true /\
  solved Examples.x_added 0 = true /\
  exists b',
    reset_dimension "x" Examples.x_added = Ok tt b' /\
    solved b' 0 = false /\
    Py.mem payload_eqb (One 0) (entries "add" (operations b')) = false.
Proof.
  repeat (split; [reflexivity|]).
  destruct (reset_plain_name Examples.x_added "x" "new" 0 eq_refl eq_refl eq_refl eq_refl)
    as [b' [H1 [_ [H3 [H4 _]]]]].
  exists b'. split; [exact H1|]. split; [exact H3|]. apply H4. discriminate.
Defined.

(* ================================================================== *)
(** * The tuple after a removed one *)

Lemma remove_first_at (v : payload) (l : list payload) (j : nat) :
  NoDup l -> nth_error l j = Some v ->
  Py.remove_first payload_eqb v l = firstn j l ++ skipn (S j) l.
Proof.
  revert j. induction l as [|q l IH]; intros [|j] Hnd Hn; simpl in *; try discriminate.
  - injection Hn as ->. rewrite payload_eqb_refl. reflexivity.
  - inversion Hnd; subst. destruct (payload_eqb q v) eqn:E.
    + apply payload_eqb_eq in E. subst q. exfalso. apply H1.
      eapply nth_error_In. eassumption.
    + f_equal. apply IH; assumption.
Qed.

Lemma remove_first_middle (v : payload) (l0 rest : list payload) :
  ~ In v l0 -> Py.remove_first payload_eqb v (l0 ++ v :: rest) = l0 ++ rest.
Proof.
  induction l0 as [|q l0 IH]; simpl; intros H.
  - rewrite payload_eqb_refl. reflexivity.
  - destruct (payload_eqb q v) eqn:E.
    + apply payload_eqb_eq in E. subst q. exfalso. apply H. left. reflexivity.
    + f_equal. apply IH. intros Hin. apply H. right. assumption.
Qed.

(** From position [i] on, the walk leaves the first [k <= i] payloads
    where they are. *)
Lemma rename_loop_prefix (fuel i k : nat) (arg : ref) (l : list payload)
      (cs : list Conflict) :
  NoDup l -> k <= i ->
  firstn k (fst (snd (rename_loop fuel i arg l cs))) = firstn k l.
Proof.
  revert i l cs. induction fuel as [|fuel IH]; intros i l cs Hnd Hk; cbn [rename_loop];
    [reflexivity|].
  destruct (nth_error l i) as [[c | old new]|] eqn:E; try reflexivity.
  destruct (holds arg (Two old new)); [|apply IH; [assumption | lia]].
  rewrite IH; [| apply (remove_first_NoDup payload_eqb); assumption | lia].
  rewrite (remove_first_at _ _ i Hnd E).
  assert (Hi : i < List.length l) by (apply nth_error_Some; congruence).
  rewrite firstn_app, firstn_firstn, length_firstn.
  replace (Nat.min k i) with k by lia.
  replace (k - Nat.min i (List.length l)) with 0 by lia.
  simpl. apply app_nil_r.
Qed.

Lemma rename_loop_walk (d fuel i : nat) (arg : ref) (l0 rest : list payload)
      (cs : list Conflict) :
  forallb is_pair l0 = true ->
  forallb (fun p => negb (holds arg p)) l0 = true ->
  i + d = List.length l0 ->
  rename_loop (d + fuel) i arg (l0 ++ rest) cs =
  rename_loop fuel (List.length l0) arg (l0 ++ rest) cs.
Proof.
  intros Hty Hun. revert i. induction d as [|d IH]; intros i Hi.
  - simpl. replace i with (List.length l0) by lia. reflexivity.
  - cbn [Nat.add rename_loop]. rewrite nth_error_app1 by lia.
    destruct (nth_error l0 i) as [value|] eqn:E.
    + apply nth_error_In in E. pose proof Hty as Hty'. pose proof Hun as Hun'.
      rewrite forallb_forall in Hty', Hun'.
      pose proof (Hty' _ E) as Hv. pose proof (Hun' _ E) as Hh.
      destruct value as [c | old new]; [discriminate|].
      apply negb_true_iff in Hh. rewrite Hh. apply IH. lia.
    + apply nth_error_None in E. lia.
Qed.

Lemma rename_loop_skips (arg : ref) (l0 l2 : list payload) (t1 t2 : payload)
      (cs : list Conflict) :
  forallb is_pair (l0 ++ t1 :: t2 :: l2) = true ->
  NoDup (l0 ++ t1 :: t2 :: l2) ->
  forallb (fun p => negb (holds arg p)) l0 = true ->
  holds arg t1 = true ->
  let l := l0 ++ t1 :: t2 :: l2 in
  let l' := fst (snd (rename_loop (List.length l) 0 arg l cs)) in
  In t2 l' /\ ~ In t1 l'.
Proof.
  intros Hty Hnd Hun Hh. cbv zeta.
  assert (Hty0 : forallb is_pair l0 = true).
  { rewrite forallb_app in Hty. apply andb_true_iff in Hty. tauto. }
  rewrite length_app. cbn [List.length].
  replace (List.length l0 + S (S (List.length l2)))
    with (List.length l0 + S (S (List.length l2))) by reflexivity.
  rewrite (rename_loop_walk (List.length l0) (S (S (List.length l2))) 0 arg l0
             (t1 :: t2 :: l2) cs Hty0 Hun) by lia.
  remember (S (List.length l2)) as f2 eqn:Hf2.
  cbn [rename_loop]. rewrite nth_error_app2 by lia. rewrite Nat.sub_diag.
  cbn [nth_error].
  destruct t1 as [c | o n]; [discriminate|]. rewrite Hh.
  assert (Hrm : Py.remove_first payload_eqb (Two o n) (l0 ++ Two o n :: t2 :: l2)
                = l0 ++ t2 :: l2).
  { apply remove_first_middle. intros Hin. apply NoDup_remove_2 in Hnd.
    apply Hnd. apply in_or_app. left. assumption. }
  rewrite Hrm.
  assert (Hnd' : NoDup (l0 ++ t2 :: l2)).
  { apply NoDup_remove_1 in Hnd. exact Hnd. }
  set (res := rename_loop f2 (S (List.length l0)) arg
                (l0 ++ t2 :: l2)
                (store_solved n false (store_solved o false cs))).
  pose proof (rename_loop_prefix f2 (S (List.length l0))
                (S (List.length l0)) arg (l0 ++ t2 :: l2)
                (store_solved n false (store_solved o false cs)) Hnd' (le_n _)) as Hpre.
  fold res in Hpre.
  pose proof (rename_loop_keeps f2 (S (List.length l0)) arg
                (l0 ++ t2 :: l2)
                (store_solved n false (store_solved o false cs))) as Hk.
  cbv zeta in Hk. fold res in Hk. destruct Hk as [Hincl _].
  split.
  - assert (Hin : In t2 (firstn (S (List.length l0)) (l0 ++ t2 :: l2))).
    { rewrite firstn_app. apply in_or_app. right.
      replace (S (List.length l0) - List.length l0) with 1 by lia.
      left. reflexivity. }
    rewrite <- Hpre in Hin.
    rewrite <- (firstn_skipn (S (List.length l0)) (fst (snd res))).
    apply in_or_app. left. exact Hin.
  - intros Hin. apply Hincl in Hin. apply NoDup_remove_2 in Hnd. contradiction.
Qed.

Lemma remove_loop_rename_entry (arg : ref) (ops ops' : Py.dict (list payload))
      (cs cs' : list Conflict) (l : list payload) :
  remove_loop arg ops cs = (None, (ops', cs')) ->
  Py.get "rename" ops = Some l ->
  exists cs0, entries "rename" ops' = fst (snd (rename_loop (List.length l) 0 arg l cs0)).
Proof.
  revert cs ops' cs'. induction ops as [|[k0 l0] ops IH]; intros cs ops' cs' Hrun Hget;
    [discriminate|].
  cbn [remove_loop] in Hrun. cbn [Py.get] in Hget. rewrite String.eqb_sym in Hget.
  destruct (String.eqb k0 "rename") eqn:E0.
  - injection Hget as ->. apply String.eqb_eq in E0. subst k0. exists cs.
    destruct (rename_loop (List.length l) 0 arg l cs) as [[e|] [l1 cs1]]; [discriminate|].
    destruct (remove_loop arg ops cs1) as [r [rest' cs'']].
    injection Hrun as -> <- <-. reflexivity.
  - assert (Hent : forall rest', entries "rename" ((k0, l0) :: rest')
                                 = entries "rename" rest').
    { intros rest'. unfold entries. cbn [Py.get]. rewrite String.eqb_sym, E0.
      reflexivity. }
    destruct (Py.mem payload_eqb (One arg) l0).
    + destruct (remove_loop arg ops _) as [r [rest' cs'']] eqn:Erest.
      injection Hrun as -> <- <-.
      destruct (IH _ _ _ Erest Hget) as [cs0 H0]. exists cs0.
      etransitivity; [|exact H0].
      unfold entries. cbn [Py.get]. rewrite String.eqb_sym, E0. reflexivity.
    + destruct (remove_loop arg ops cs) as [r [rest' cs'']] eqn:Erest.
      injection Hrun as -> <- <-.
      destruct (IH _ _ _ Erest Hget) as [cs0 H0]. exists cs0.
      rewrite Hent. exact H0.
Qed.

(** X12.  [_remove_from_operations] takes payloads out of the rename
    list while it walks it, so the tuple that follows a removed tuple is
    never looked at.  In a state that satisfies the invariant of the
    reachable states, when the first tuple [t1] that holds the conflict is
    followed by a tuple [t2], the call returns with [t1] gone and [t2]
    still in the rename list, whether or not [t2] holds the conflict. *)
Theorem remove_skips_next (b : Builder) (arg : ref) (l0 l2 : list payload)
        (t1 t2 : payload)
        (Hwf : well_formed b = true)
        (Hl : entries "rename" (operations b) = l0 ++ t1 :: t2 :: l2)
        (Hun : forallb (fun p => negb (holds arg p)) l0 = true)
        (Hh : holds arg t1 = true) :
  exists b',
    _remove_from_operations arg b = Ok tt b' /\
    In t2 (entries "rename" (operations b')) /\
    ~ In t1 (entries "rename" (operations b')).
Proof.
  pose proof Hwf as Hwf0. unfold well_formed in Hwf0.
  apply andb_true_iff in Hwf0. destruct Hwf0 as [_ Hledger].
  destruct (ledger_ok_entries "rename" _ Hledger) as [Hnd Hty].
  specialize (Hty eq_refl). rewrite Hl in Hnd, Hty.
  apply (nodupb_NoDup payload_eqb payload_eqb_eq) in Hnd.
  assert (Hget : Py.get "rename" (operations b) = Some (l0 ++ t1 :: t2 :: l2)).
  { apply entries_get; [assumption|]. destruct l0; discriminate. }
  destruct (remove_loop_sound arg (operations b) (conflicts b)
              (ledger_ok_typed _ Hledger))
    as [ops' [cs' [Hrun _]]].
  unfold _remove_from_operations. rewrite Hrun. eexists. split; [reflexivity|].
  simpl operations.
  destruct (remove_loop_rename_entry _ _ _ _ _ _ Hrun Hget) as [cs0 ->].
  apply (rename_loop_skips arg l0 l2 t1 t2 cs0 Hty Hnd Hun Hh).
Qed.

Lemma remove_skips_next_witness :
  well_formed a_renamed_y_x = true /\
  entries "rename" (operations a_renamed_y_x) = [Two 2 1; Two 2 0] /\
  holds 2 (Two 2 1) = true /\ holds 2 (Two 2 0) = true /\
  exists b',
    _remove_from_operations 2 a_renamed_y_x = Ok tt b' /\
    In (Two 2 0) (entries "rename" (operations b')).
Proof.
  repeat (split; [reflexivity|]).
  destruct (remove_skips_next a_renamed_y_x 2 [] [] (Two 2 1) (Two 2 0)
              eq_refl eq_refl eq_refl eq_refl) as [b' [H1 [H2 _]]].
  exists b'. split; assumption.
Defined.

(* ================================================================== *)
(** * The command-line markers, without the proviso on collisions *)

Lemma index_member_le (a : string) (d t : list string) :
  exists j, Py.index String.eqb a (d ++ a :: t) = Some j /\ j <= List.length d.
Proof.
  induction d as [|x d IH]; simpl.
  - rewrite String.eqb_refl. exists 0. auto.
  - destruct (String.eqb x a); [exists 0; split; [reflexivity | lia]|].
    destruct IH as [j [-> Hj]]. exists (S j). split; [reflexivity | lia].
Qed.

Lemma setitem_before (j : nat) (v a : string) (d t : list string) :
  j <= List.length d ->
  exists d' a', Py.setitem j v (d ++ a :: t) = d' ++ a' :: t /\
                List.length d' = List.length d.
Proof.
  revert j. induction d as [|x d IH]; intros j Hj; simpl in *.
  - replace j with 0 by lia. exists [], v. auto.
  - destruct j as [|j].
    + exists (v :: d), a. auto.
    + destruct (IH j) as [d' [a' [E Hl]]]; [lia|].
      exists (x :: d'), a'. simpl. rewrite E. auto.
Qed.

Lemma interpret_keywords_any (a : string) (d t p m g : list string)
      (e c : Space) (cs : list Conflict) (ops : Py.dict (list payload)) :
  kinds a <= 1 ->
  exists d' a',
    List.length d' = List.length d /\
    for_each ["~+"; "~-"; "~>"] (interpret_keyword a)
      (mkBuilder (d ++ a :: t) [("~+", p); ("~-", m); ("~>", g)] e c cs ops)
    = Ok tt
        (mkBuilder (d' ++ a' :: t)
                   [("~+", p ++ buffered "~+" [a]);
                    ("~-", m ++ buffered "~-" [a]);
                    ("~>", g ++ buffered "~>" [a])] e c cs ops).
Proof.
  unfold kinds, buffered. cbn [filter for_each].
  destruct (index_member_le a d t) as [j [Hj Hle]].
  destruct (Py.contains "~+" a) eqn:Hp; destruct (Py.contains "~-" a) eqn:Hm;
    destruct (Py.contains "~>" a) eqn:Hg; cbn [Nat.b2n Nat.add]; intros Hk;
    try lia; unfold bind, ret, interpret_keyword;
    cbn [commandline_keywords user_args with_commandline_keywords with_user_args];
    rewrite ?Hp, ?Hm, ?Hg.
  - destruct (setitem_before j (Py.replace "~+" "~" a) a d t Hle) as [d' [a' [E Hl]]].
    exists d', a'. split; [assumption|].
    cbn [Py.get Py.set String.eqb Ascii.eqb Bool.eqb].
    cbn [commandline_keywords user_args]. rewrite Hj.
    unfold with_user_args, with_commandline_keywords.
    cbn [commandline_keywords user_args experiment_space conflicting_space
         conflicts operations].
    rewrite E, !app_nil_r. reflexivity.
  - destruct (setitem_before j (Py.replace "~-" "~" a) a d t Hle) as [d' [a' [E Hl]]].
    exists d', a'. split; [assumption|].
    cbn [Py.get Py.set String.eqb Ascii.eqb Bool.eqb].
    cbn [commandline_keywords user_args]. rewrite Hj.
    unfold with_user_args, with_commandline_keywords.
    cbn [commandline_keywords user_args experiment_space conflicting_space
         conflicts operations].
    rewrite E, !app_nil_r. reflexivity.
  - destruct (setitem_before j (Py.replace "~>" "~" a) a d t Hle) as [d' [a' [E Hl]]].
    exists d', a'. split; [assumption|].
    cbn [Py.get Py.set String.eqb Ascii.eqb Bool.eqb].
    cbn [commandline_keywords user_args]. rewrite Hj.
    unfold with_user_args, with_commandline_keywords.
    cbn [commandline_keywords user_args experiment_space conflicting_space
         conflicts operations].
    rewrite E, !app_nil_r. reflexivity.
  - exists d, a. split; [reflexivity|]. rewrite !app_nil_r. reflexivity.
Qed.

Lemma interpret_loop_any (todo done p m g : list string)
      (e c : Space) (cs : list Conflict) (ops : Py.dict (list payload)) :
  (forall a, In a todo -> kinds a <= 1) ->
  exists done',
    List.length done' = List.length done + List.length todo /\
    for_each (seq (List.length done) (List.length todo)) interpret_arg
      (mkBuilder (done ++ todo) [("~+", p); ("~-", m); ("~>", g)] e c cs ops)
    = Ok tt
        (mkBuilder done'
                   [("~+", p ++ buffered "~+" todo);
                    ("~-", m ++ buffered "~-" todo);
                    ("~>", g ++ buffered "~>" todo)] e c cs ops).
Proof.
  revert done p m g. induction todo as [|a todo IH]; intros done p m g Hk.
  - exists done. cbn [List.length seq for_each]. unfold ret, buffered. cbn [filter].
    rewrite !app_nil_r. split; [lia | reflexivity].
  - cbn [List.length seq for_each]. unfold bind at 1. unfold interpret_arg at 1.
    cbn [user_args commandline_keywords Py.keys map fst].
    replace (nth_error (done ++ a :: todo) (List.length done)) with (Some a).
    2:{ rewrite nth_error_app2 by lia. rewrite Nat.sub_diag. reflexivity. }
    destruct (interpret_keywords_any a done todo p m g e c cs ops
                (Hk a (or_introl eq_refl))) as [d' [a' [Hl ->]]].
    destruct (IH (d' ++ [a'])
                 (p ++ buffered "~+" [a]) (m ++ buffered "~-" [a])
                 (g ++ buffered "~>" [a])) as [done' [Hl' Hrun]].
    { intros x Hx. apply Hk. right. assumption. }
    rewrite length_app in Hrun, Hl'. cbn [List.length] in Hrun, Hl'.
    rewrite Hl, Nat.add_1_r, <- !app_assoc in Hrun. cbn [app] in Hrun.
    exists done'. split; [lia|]. rewrite Hrun.
    unfold buffered. cbn [filter].
    destruct (Py.contains "~+" a), (Py.contains "~-" a), (Py.contains "~>" a);
      cbn [app]; rewrite ?app_nil_r; reflexivity.
Qed.

(** X13.  When every argument carries at most one of the three markers,
    [_interpret_commandline] returns: it keeps the number of arguments
    and the rest of the builder, and each buffer gains, in order, exactly
    the arguments that carry its marker, as they were before any
    rewriting. *)
Theorem interpret_commandline_returns (args p m g : list string)
        (e c : Space) (cs : list Conflict) (ops : Py.dict (list payload))
        (Hk : forall a, In a args -> kinds a <= 1) :
  exists args',
    List.length args' = List.length args /\
    _interpret_commandline
      (mkBuilder args [("~+", p); ("~-", m); ("~>", g)] e c cs ops)
    = Ok tt
        (mkBuilder args'
                   [("~+", p ++ buffered "~+" args);
                    ("~-", m ++ buffered "~-" args);
                    ("~>", g ++ buffered "~>" args)] e c cs ops).
Proof.
  unfold _interpret_commandline. cbn [user_args].
  destruct (interpret_loop_any args [] p m g e c cs ops Hk) as [done' [Hl Hrun]].
  exists done'. split; [exact Hl | exact Hrun].
Qed.

Lemma interpret_commandline_returns_witness :
  (forall a, In a ["a~+>b"; "a~>b"] -> kinds a <= 1) /\
  exists args',
    List.length args' = 2 /\
    _interpret_commandline Examples.colliding_args
    = Ok tt (mkBuilder args' [("~+", ["a~+>b"]); ("~-", []); ("~>", ["a~>b"])]
                       [] [] [] []).
Proof.
  assert (Hk : forall a, In a ["a~+>b"; "a~>b"] -> kinds a <= 1).
  { intros a [<- | [<- | []]]; vm_compute; lia. }
  split; [exact Hk|].
  destruct (interpret_commandline_returns ["a~+>b"; "a~>b"] [] [] [] [] [] [] [] Hk)
    as [args' [Hl Hrun]].
  exists args'. split; [exact Hl | exact Hrun].
Defined.

(** X14.  When moreover no argument with a marker equals an earlier
    argument once rewritten, every argument is rewritten in place: the
    list of arguments becomes the list of the rewritten arguments, in the
    same order, and an argument without a marker is left as it is. *)
Theorem interpret_commandline_in_place (args p m g : list string)
        (e c : Space) (cs : list Conflict) (ops : Py.dict (list payload))
        (Hk : forall a, In a args -> kinds a <= 1)
        (Hc : forall pre a post, args = pre ++ a :: post -> 1 <= kinds a ->
                                 ~ In a (map rewritten pre)) :
  _interpret_commandline
    (mkBuilder args [("~+", p); ("~-", m); ("~>", g)] e c cs ops)
  = Ok tt
      (mkBuilder (map rewritten args)
                 [("~+", p ++ buffered "~+" args);
                  ("~-", m ++ buffered "~-" args);
                  ("~>", g ++ buffered "~>" args)] e c cs ops) /\
  (forall a, kinds a = 0 -> rewritten a = a).
Proof.
  split; [apply interpret_commandline_rewrites; assumption|].
  intros a Ha. unfold kinds in Ha. unfold rewritten.
  destruct (Py.contains "~+" a), (Py.contains "~-" a), (Py.contains "~>" a);
    simpl in Ha; try discriminate. reflexivity.
Qed.

Lemma interpret_commandline_in_place_witness :
  _interpret_commandline
    (mkBuilder ["--lr~uniform(0,1)"; "--momentum~+uniform(0,1)"; "--batch~-"]
               [("~+", []); ("~-", []); ("~>", [])] [] [] [] [])
  = Ok tt
      (mkBuilder ["--lr~uniform(0,1)"; "--momentum~uniform(0,1)"; "--batch~"]
                 [("~+", ["--momentum~+uniform(0,1)"]); ("~-", ["--batch~-"]); ("~>", [])]
                 [] [] [] []).
Proof.
  assert (Hk : forall a,
             In a ["--lr~uniform(0,1)"; "--momentum~+uniform(0,1)"; "--batch~-"] ->
             kinds a <= 1).
  { intros a [<- | [<- | [<- | []]]]; vm_compute; lia. }
  assert (Hc : forall pre a post,
             ["--lr~uniform(0,1)"; "--momentum~+uniform(0,1)"; "--batch~-"]
             = pre ++ a :: post ->
             1 <= kinds a -> ~ In a (map rewritten pre)).
  { intros pre a post E _.
    destruct pre as [|x1 pre]; [intros []|].
    injection E as <- E.
    destruct pre as [|x2 pre].
    - injection E as <- _. vm_compute. intros [H | []]. discriminate.
    - injection E as <- E.
      destruct pre as [|x3 pre].
      + injection E as <- _. vm_compute. intros [H | [H | []]]; discriminate.
      + injection E as _ E. destruct pre; discriminate. }
  exact (proj1 (interpret_commandline_in_place _ [] [] [] [] [] [] [] Hk Hc)).
Defined.

(* ================================================================== *)
(** * Wildcards *)

Lemma star_not_keyword (sel : string) :
  Py.contains "*" sel = true -> Py.has_key sel special_keywords = false.
Proof.
  intros H. unfold Py.has_key, special_keywords. cbn [existsb fst].
  destruct (String.eqb sel "~new") eqn:E1;
    [apply String.eqb_eq in E1; subst; discriminate|].
  destruct (String.eqb sel "~changed") eqn:E2;
    [apply String.eqb_eq in E2; subst; discriminate|].
  destruct (String.eqb sel "~missing") eqn:E3;
    [apply String.eqb_eq in E3; subst; discriminate|].
  reflexivity.
Qed.

Lemma get_names_wildcard (sel : string) (st : status_arg) (b : Builder) :
  Py.contains " " sel = false ->
  Py.contains "*" sel = true ->
  _get_names sel st b = _extend_wildcard sel st b.
Proof.
  intros Hs Hw. unfold _get_names. rewrite (split_without_sep " " sel Hs).
  cbn [get_names_loop]. rewrite (star_not_keyword sel Hw), Hw. reflexivity.
Qed.

Lemma prefix_slash (p nm : string) :
  prefix ("/" ++ p) nm = true -> ("/" ++ Py.drop1 nm)%string = nm.
Proof.
  change ("/" ++ p)%string with (String "/" p).
  destruct nm as [|c nm]; cbn [prefix Py.drop1]; [intros H; discriminate H|].
  destruct (Ascii.ascii_dec "/" c) as [<- | Hne]; intros H;
    [reflexivity | discriminate H].
Qed.

Lemma names_inj (cs : list Conflict) (r k : ref) (c c' : Conflict) :
  NoDup (conflict_names cs) ->
  nth_error cs r = Some c -> nth_error cs k = Some c' ->
  name (dimension c) = name (dimension c') -> r = k.
Proof.
  intros Hnd Hr Hk E. rewrite NoDup_nth_error in Hnd. apply Hnd.
  - unfold conflict_names. rewrite length_map. apply nth_error_Some. congruence.
  - unfold conflict_names. rewrite !nth_error_map, Hr, Hk. simpl. congruence.
Qed.

Lemma do_basic_loop_mono (st : status_arg) (operation : string)
      (names : list string) (b b1 : Builder) (r : ref) :
  for_each names
    (fun _name => conflict <- _mark_as_solved _name st ;;
                  _put_operation operation (One conflict)) b = Ok tt b1 ->
  solved b r = true -> solved b1 r = true.
Proof.
  revert b. induction names as [|n0 names IH]; intros b Hrun Hs.
  - cbn [for_each] in Hrun. injection Hrun as <-. exact Hs.
  - cbn [for_each] in Hrun. unfold bind at 1 in Hrun. unfold bind at 1 in Hrun.
    unfold _mark_as_solved in Hrun. rewrite mark_as_find in Hrun.
    destruct (find_conflict n0 st b) as [r0|]; [|discriminate].
    rewrite put_operation_put in Hrun. apply (IH _ Hrun).
    unfold solved. simpl. apply solved_in_store_true. exact Hs.
Qed.

(** X15.  A single wildcard selector never makes [add_dimension] or
    [remove_dimension] raise.  In a state that satisfies the invariant of
    the reachable states, the call resolves and queues exactly the
    conflicts whose name starts with ['/'] and the text before the first
    ['*'], and whose status the call accepts; the flag of every other
    conflict stays as it was. *)
Theorem do_basic_wildcard (b : Builder) (sel : string) (st : status_arg)
        (operation : string)
        (Hwf : well_formed b = true)
        (Hsp : Py.contains " " sel = false)
        (Hstar : Py.contains "*" sel = true) :
  let covered := fun c : Conflict =>
    Py.startswith (name (dimension c))
                  ("/" ++ hd EmptyString (Py.split "*" sel))%string
    && status_in (status c) st in
  exists b1,
    _do_basic sel st operation b = Ok tt b1 /\
    forall r c, nth_error (conflicts b) r = Some c ->
      (covered c = true ->
       solved b1 r = true /\ In (One r) (entries operation (operations b1))) /\
      (covered c = false -> solved b1 r = solved b r).
Proof.
  intros covered.
  pose proof Hwf as Hwf0. unfold well_formed in Hwf0.
  apply andb_true_iff in Hwf0. destruct Hwf0 as [Hnames _].
  apply (nodupb_NoDup String.eqb String.eqb_eq) in Hnames.
  unfold _do_basic, bind at 1, get_state.
  rewrite (get_names_wildcard sel st b Hsp Hstar).
  unfold _extend_wildcard. cbv zeta. fold covered.
  set (names := short_names b (filter_conflicts covered b)).
  assert (Hin : forall n, In n names <->
              exists r c, nth_error (conflicts b) r = Some c /\ covered c = true /\
                          n = Py.drop1 (name (dimension c))).
  { intros n. unfold names, short_names, filter_conflicts. rewrite in_map_iff. split.
    - intros [r [<- Hr]]. apply filter_from_In in Hr. destruct Hr as [_ [c [Hc Hf]]].
      rewrite Nat.sub_0_r in Hc. exists r, c. unfold name_of. rewrite Hc. auto.
    - intros [r [c [Hc [Hf ->]]]]. exists r. split.
      + unfold name_of. rewrite Hc. reflexivity.
      + apply filter_from_In. split; [lia|]. exists c. rewrite Nat.sub_0_r. auto. }
  assert (Hfind : forall r c, nth_error (conflicts b) r = Some c -> covered c = true ->
                    find_conflict (Py.drop1 (name (dimension c))) st b = Some r).
  { intros r c Hc Hf. unfold covered in Hf. apply andb_true_iff in Hf.
    destruct Hf as [Hp Hs]. unfold Py.startswith in Hp.
    apply (find_conflict_at b _ st r c Hwf Hc); [|exact Hs].
    symmetry. apply (prefix_slash _ _ Hp). }
  destruct (do_basic_loop_ok st operation names b) as [b1 Hrun].
  { intros n Hn. apply Hin in Hn. destruct Hn as [r [c [Hc [Hf ->]]]].
    destruct (has_conflict b _ st) eqn:E; [reflexivity|].
    apply has_conflict_find in E. rewrite (Hfind r c Hc Hf) in E. discriminate. }
  exists b1. split; [exact Hrun|].
  destruct (do_basic_loop_marks st operation names b b1 Hrun) as [He [_ Hall]].
  destruct (do_basic_loop_only st operation names b b1 Hrun) as [Honly _].
  intros r c Hc. split.
  - intros Hf.
    destruct (Hall (Py.drop1 (name (dimension c)))) as [r' [Hf' [Hs' Hm']]].
    { apply Hin. exists r, c. auto. }
    rewrite (find_conflict_erase _ st b1 b He), (Hfind r c Hc Hf) in Hf'.
    injection Hf' as <-. split; [exact Hs'|].
    apply (mem_In payload_eqb payload_eqb_eq). exact Hm'.
  - intros Hf. destruct (solved b r) eqn:Hs.
    + apply (do_basic_loop_mono st operation names b b1 r Hrun Hs).
    + destruct (solved b1 r) eqn:Hs1; [|reflexivity]. exfalso.
      destruct (Honly r Hs1) as [H | [n [Hn Hfn]]]; [congruence|].
      apply Hin in Hn. destruct Hn as [r0 [c0 [Hc0 [Hf0 ->]]]].
      rewrite (Hfind r0 c0 Hc0 Hf0) in Hfn. injection Hfn as ->.
      rewrite Hc in Hc0. injection Hc0 as ->. congruence.
Qed.

Lemma do_basic_wildcard_witness :
  well_formed Examples.lr_x_batch = true /\
  exists b1,
    add_dimension "*" Examples.lr_x_batch = Ok tt b1 /\
    solved b1 0 = true /\ solved b1 1 = true /\ solved b1 2 = false /\
    In (One 1) (entries "add" (operations b1)).
Proof.
  split; [reflexivity|].
  destruct (do_basic_wildcard Examples.lr_x_batch "*" (StatusList ["new"; "changed"])
              "add" eq_refl eq_refl eq_refl) as [b1 [Hrun H]].
  exists b1. split; [exact Hrun|].
  destruct (H 0 _ eq_refl) as [H0 _].
  destruct (H 1 _ eq_refl) as [H1 _].
  destruct (H 2 _ eq_refl) as [_ H2].
  destruct (H0 eq_refl) as [S0 _]. destruct (H1 eq_refl) as [S1 Q1].
  split; [exact S0|]. split; [exact S1|]. split; [|exact Q1].
  rewrite (H2 eq_refl). reflexivity.
Defined.

(* ================================================================== *)
(** * Status keywords *)

Lemma keyword_cases (kw s : string) :
  Py.get kw special_keywords = Some s ->
  (kw, s) = ("~new", "new") \/ (kw, s) = ("~changed", "changed") \/
  (kw, s) = ("~missing", "missing").
Proof.
  intros H. apply get_In in H. simpl in H.
  destruct H as [H | [H | [H | []]]]; auto.
Qed.

Lemma get_names_keyword (kw s : string) (st : status_arg) (b : Builder) :
  Py.get kw special_keywords = Some s ->
  _get_names kw st b
  = short_names b (filter_conflicts (fun c => String.eqb (status c) s) b).
Proof.
  intros H.
  assert (E : _get_names kw st b
              = short_names b (filter_conflicts_with_status (StatusList [s]) b)).
  { destruct (keyword_cases kw s H) as [E | [E | E]]; injection E as -> ->;
      reflexivity. }
  rewrite E. unfold filter_conflicts_with_status, filter_conflicts. f_equal.
  generalize 0 at 1 2. induction (conflicts b) as [|c cs IH]; intros i; simpl;
    [reflexivity|].
  rewrite orb_false_r, IH. reflexivity.
Qed.

(** X16.  A status keyword expands to the names of all the conflicts of
    its status, whatever statuses the call accepts.  In a state that
    satisfies the invariant of the reachable states and whose conflict
    names all start with ['/']: when the call accepts the status of the
    keyword, it returns, resolving and queuing exactly the conflicts of
    that status; when it does not and some conflict has that status, it
    raises [ValueError] (so [add_dimension("~missing")] raises as soon as a
    dimension is missing). *)
Theorem do_basic_keyword (b : Builder) (kw s : string) (st : status_arg)
        (operation : string)
        (Hkw : Py.get kw special_keywords = Some s)
        (Hwf : well_formed b = true)
        (Hslash : forall c, In c (conflicts b) -> prefix "/" (name (dimension c)) = true) :
  (status_in s st = true ->
   exists b1,
     _do_basic kw st operation b = Ok tt b1 /\
     forall r c, nth_error (conflicts b) r = Some c ->
       (status c = s ->
        solved b1 r = true /\ In (One r) (entries operation (operations b1))) /\
       (status c <> s -> solved b1 r = solved b r)) /\
  (status_in s st = false ->
   (exists c, In c (conflicts b) /\ status c = s) ->
   exists b', _do_basic kw st operation b = Raise ValueError b').
Proof.
  pose proof Hwf as Hwf0. unfold well_formed in Hwf0.
  apply andb_true_iff in Hwf0. destruct Hwf0 as [Hnames _].
  apply (nodupb_NoDup String.eqb String.eqb_eq) in Hnames.
  set (names := short_names b (filter_conflicts (fun c => String.eqb (status c) s) b)).
  assert (Hdo : _do_basic kw st operation b
                = for_each names
                    (fun _name => conflict <- _mark_as_solved _name st ;;
                                  _put_operation operation (One conflict)) b).
  { unfold names. rewrite <- (get_names_keyword kw s st b Hkw). reflexivity. }
  rewrite Hdo. clear Hdo.
  assert (Hin : forall n, In n names <->
              exists r c, nth_error (conflicts b) r = Some c /\ status c = s /\
                          n = Py.drop1 (name (dimension c))).
  { intros n. unfold names, short_names, filter_conflicts. rewrite in_map_iff. split.
    - intros [r [<- Hr]]. apply filter_from_In in Hr. destruct Hr as [_ [c [Hc Hf]]].
      rewrite Nat.sub_0_r in Hc. apply String.eqb_eq in Hf.
      exists r, c. unfold name_of. rewrite Hc. auto.
    - intros [r [c [Hc [Hf ->]]]]. exists r. split.
      + unfold name_of. rewrite Hc. reflexivity.
      + apply filter_from_In. split; [lia|]. exists c. rewrite Nat.sub_0_r.
        split; [assumption|]. apply String.eqb_eq. assumption. }
  assert (Hname : forall r c, nth_error (conflicts b) r = Some c ->
                   name (dimension c) = ("/" ++ Py.drop1 (name (dimension c)))%string).
  { intros r c Hc. symmetry. apply (prefix_slash EmptyString).
    apply Hslash. eapply nth_error_In. eassumption. }
  split.
  - intros Hst.
    assert (Hfind : forall r c, nth_error (conflicts b) r = Some c -> status c = s ->
                      find_conflict (Py.drop1 (name (dimension c))) st b = Some r).
    { intros r c Hc Hs. apply (find_conflict_at b _ st r c Hwf Hc (Hname r c Hc)).
      rewrite Hs. exact Hst. }
    destruct (do_basic_loop_ok st operation names b) as [b1 Hrun].
    { intros n Hn. apply Hin in Hn. destruct Hn as [r [c [Hc [Hf ->]]]].
      destruct (has_conflict b _ st) eqn:E; [reflexivity|].
      apply has_conflict_find in E. rewrite (Hfind r c Hc Hf) in E. discriminate. }
    exists b1. split; [exact Hrun|].
    destruct (do_basic_loop_marks st operation names b b1 Hrun) as [He [_ Hall]].
    destruct (do_basic_loop_only st operation names b b1 Hrun) as [Honly _].
    intros r c Hc. split.
    + intros Hf.
      destruct (Hall (Py.drop1 (name (dimension c)))) as [r' [Hf' [Hs' Hm']]].
      { apply Hin. exists r, c. auto. }
      rewrite (find_conflict_erase _ st b1 b He), (Hfind r c Hc Hf) in Hf'.
      injection Hf' as <-. split; [exact Hs'|].
      apply (mem_In payload_eqb payload_eqb_eq). exact Hm'.
    + intros Hf. destruct (solved b r) eqn:Hs.
      * apply (do_basic_loop_mono st operation names b b1 r Hrun Hs).
      * destruct (solved b1 r) eqn:Hs1; [|reflexivity]. exfalso.
        destruct (Honly r Hs1) as [H | [n [Hn Hfn]]]; [congruence|].
        apply Hin in Hn. destruct Hn as [r0 [c0 [Hc0 [Hf0 ->]]]].
        rewrite (Hfind r0 c0 Hc0 Hf0) in Hfn. injection Hfn as ->.
        rewrite Hc in Hc0. injection Hc0 as ->. congruence.
  - intros Hst [c [Hc Hs]]. apply In_nth_error in Hc. destruct Hc as [r Hc].
    apply (do_basic_loop_raises st operation names b (Py.drop1 (name (dimension c)))).
    + apply Hin. exists r, c. auto.
    + destruct (has_conflict b _ st) eqn:E; [|reflexivity]. exfalso.
      unfold has_conflict in E. apply existsb_exists in E.
      destruct E as [c' [Hc' Hm]]. unfold matches in Hm.
      apply andb_true_iff in Hm. destruct Hm as [Hs' Hn'].
      apply String.eqb_eq in Hn'. rewrite <- (Hname r c Hc) in Hn'.
      apply In_nth_error in Hc'. destruct Hc' as [r' Hc'].
      pose proof (names_inj _ r' r c' c Hnames Hc' Hc Hn') as ->.
      rewrite Hc in Hc'. injection Hc' as <-. rewrite Hs in Hs'. congruence.
Qed.

Lemma do_basic_keyword_witness :
  well_formed Examples.lr_x_batch = true /\
  (exists b1, remove_dimension "~missing" Examples.lr_x_batch = Ok tt b1 /\
              solved b1 2 = true /\ solved b1 0 = false) /\
  (exists b', add_dimension "~missing" Examples.lr_x_batch = Raise ValueError b').
Proof.
  split; [reflexivity|].
  assert (Hslash : forall c, In c (conflicts Examples.lr_x_batch) ->
                             prefix "/" (name (dimension c)) = true).
  { intros c [<- | [<- | [<- | []]]]; reflexivity. }
  split.
  - destruct (do_basic_keyword Examples.lr_x_batch "~missing" "missing"
                (StatusList ["missing"]) "remove" eq_refl eq_refl Hslash) as [H _].
    destruct (H eq_refl) as [b1 [Hrun Hall]]. exists b1. split; [exact Hrun|].
    destruct (Hall 2 _ eq_refl) as [H2 _]. destruct (Hall 0 _ eq_refl) as [_ H0].
    split; [apply H2; reflexivity|]. rewrite H0; [reflexivity | discriminate].
  - destruct (do_basic_keyword Examples.lr_x_batch "~missing" "missing"
                (StatusList ["new"; "changed"]) "add" eq_refl eq_refl Hslash) as [_ H].
    apply (H eq_refl). eexists. split; [right; right; left; reflexivity | reflexivity].
Defined.

(* ================================================================== *)
(** * Adaptors in the reachable states *)

Lemma adaptors_of_kind_ok (b : Builder) (operation : string) (l : list payload)
      (adaptors : list unit) :
  (forall p, In p l -> payload_ok (conflicts b) operation p = true) ->
  exists made,
    adaptors_of_kind b operation l adaptors = (None, adaptors ++ made) /\
    List.length made = List.length l.
Proof.
  revert adaptors. induction l as [|p l IH]; intros adaptors Hok; cbn [adaptors_of_kind].
  - exists []. rewrite app_nil_r. auto.
  - assert (Hp := Hok p (or_introl eq_refl)).
    assert (Hstep : exists f, Py.get operation _operations_mapping = Some f /\
                              f b p = inr tt).
    { unfold payload_ok in Hp. destruct p as [r | o n].
      - apply orb_true_iff in Hp. destruct Hp as [Hp | Hp];
          apply andb_true_iff in Hp; destruct Hp as [Hk _];
          apply String.eqb_eq in Hk; subst operation; eexists; split;
          try reflexivity.
        unfold _add_adaptor. destruct (nth_error (conflicts b) r) as [c|];
          [destruct (String.eqb (status c) "changed")|]; reflexivity.
      - rewrite !andb_true_iff in Hp. destruct Hp as [[Hk _] _].
        apply String.eqb_eq in Hk. subst operation. eexists. split; reflexivity. }
    destruct Hstep as [f [-> ->]].
    destruct (IH (adaptors ++ [tt])) as [made [-> Hl]].
    { intros q Hq. apply Hok. right. assumption. }
    exists (tt :: made). rewrite <- app_assoc. simpl. auto.
Qed.

Lemma adaptors_loop_ok (b : Builder) (ops : Py.dict (list payload))
      (adaptors : list unit) :
  (forall kv p, In kv ops -> In p (snd kv) ->
                payload_ok (conflicts b) (fst kv) p = true) ->
  exists made,
    adaptors_loop b ops adaptors = (None, adaptors ++ made) /\
    List.length made = List.length (List.concat (map snd ops)).
Proof.
  revert adaptors. induction ops as [|[k l] ops IH]; intros adaptors Hok;
    cbn [adaptors_loop].
  - exists []. rewrite app_nil_r. auto.
  - destruct (adaptors_of_kind_ok b k l adaptors) as [made1 [-> Hl1]].
    { intros p Hp. apply (Hok (k, l) p); [left; reflexivity | assumption]. }
    destruct (IH (adaptors ++ made1)) as [made2 [-> Hl2]].
    { intros kv p Hkv Hp. apply Hok; [right|]; assumption. }
    exists (made1 ++ made2). rewrite app_assoc. split; [reflexivity|].
    cbn [map List.concat snd]. rewrite !length_app. lia.
Qed.

(** X17.  In every state a builder can reach, [create_adaptors] does
    not raise: every kind of the ledger has its adaptor maker and every
    payload suits it.  The list the call fills holds one adaptor per
    entry of the ledger; the call still evaluates to [None] and leaves
    the builder as it is. *)
Theorem create_adaptors_reachable (b : Builder) (H : reachable b) :
  create_adaptors b = Ok None b /\
  exists adaptors,
    adaptors_loop b (operations b) [] = (None, adaptors) /\
    List.length adaptors = List.length (List.concat (map snd (operations b))).
Proof.
  destruct (reachable_coherent b H) as [_ [[_ Hled] _]].
  destruct (adaptors_loop_ok b (operations b) [] Hled) as [made [Hrun Hl]].
  unfold create_adaptors. rewrite Hrun. split; [reflexivity|].
  exists made. auto.
Qed.

Lemma create_adaptors_reachable_witness :
  reachable Examples.a_reset_y /\
  create_adaptors Examples.a_reset_y = Ok None Examples.a_reset_y /\
  exists adaptors,
    adaptors_loop Examples.a_reset_y (operations Examples.a_reset_y) []
    = (None, adaptors) /\
    List.length adaptors = 1.
Proof.
  split; [exact a_reset_y_reachable|].
  destruct (create_adaptors_reachable Examples.a_reset_y a_reset_y_reachable)
    as [H1 [adaptors [H2 H3]]].
  split; [exact H1|]. exists adaptors. split; [exact H2 | exact H3].
Defined.
